(** * Ghostwriter PPTX export: slide mapping and template rendering

    A shallow embedding of
    - [ghostwriter/modules/reportwriter/base/slide_mapping.py]
      ([SlideConfig], [SlideMappingManager]),
    - [ghostwriter/modules/reportwriter/base/pptx.py]
      ([process_footers], [set_text_preserving_format],
      [render_jinja2_in_textframe], [render_jinja2_in_shape], ...),
    - [ghostwriter/modules/reportwriter/report/pptx.py]
      ([create_finding_slides], [create_observation_slides]),
    - the exporters of [base/pptx.py], [report/pptx.py] and
      [project/pptx.py] ([lint], [get_slide_layout],
      [write_objective_list], the frame of the slide builders, [run]),
    followed by the properties of the specification that were checked
    against them, and by further properties of the code.

    Conventions.
    - A Python [str] is a [string] holding its UTF-8 encoding.
    - A Python exception is a value of [exn]; a computation that may raise
      returns an [outcome].
    - Calls to [logger] have no effect on the program state and are left out.
    - Values coming from the JSON field are [pyval]s; JSON floats are left
      out of the model. *)

From Stdlib Require Import ZArith Ascii String Sorting.Sorted.
From stdpp Require Import base numbers option list strings.

Local Open Scope string_scope.
Local Open Scope Z_scope.
Local Open Scope list_scope.
Local Set Warnings "-register-all".

(** ** Python values, exceptions and a little of the language *)

Module Py.

(** The exception classes that occur in the modelled code. All of them
    derive from [Exception]. *)
Inductive exn : Type :=
| KeyError
| TypeError
| ValueError
| AttributeError
| IndexError
| UndefinedError          (* jinja2.exceptions.UndefinedError *)
| TemplateSyntaxError     (* jinja2.exceptions.TemplateSyntaxError *)
| PackageNotFoundError    (* pptx.exc.PackageNotFoundError *)
| OtherError (name : string).

#[global] Instance exn_eq_dec : EqDecision exn.
Proof. solve_decision. Defined.

Inductive outcome (A : Type) : Type :=
| Ok (a : A)
| Raise (e : exn).
Arguments Ok {A} a.
Arguments Raise {A} e.

#[global] Instance outcome_ret : MRet outcome := fun A a => Ok a.
#[global] Instance outcome_bind : MBind outcome := fun A B f c =>
  match c with
  | Ok a => f a
  | Raise e => Raise e
  end.

#[global] Instance outcome_fmap : FMap outcome := fun A B f c =>
  match c with
  | Ok a => Ok (f a)
  | Raise e => Raise e
  end.

(** [try: c except Exception: h]. *)
Definition try_except {A} (c : outcome A) (h : exn -> outcome A) : outcome A :=
  match c with
  | Ok a => Ok a
  | Raise e => h e
  end.

(** [try: c except (e1, e2, ...): h]: only the listed classes are caught. *)
Definition try_except_only {A} (caught : list exn) (c : outcome A)
    (h : exn -> outcome A) : outcome A :=
  match c with
  | Ok a => Ok a
  | Raise e => if bool_decide (e ∈ caught) then h e else Raise e
  end.

Definition raises {A} (c : outcome A) : bool :=
  match c with
  | Ok _ => false
  | Raise _ => true
  end.

(** A computation on a mutable object of type [S] (the manager, the deck, the
    paragraphs of a text frame): it may raise, and either way it leaves the
    object in the state it had at that moment. *)
Definition Stateful (S A : Type) : Type := S -> outcome A * S.

#[global] Instance stateful_ret {S} : MRet (Stateful S) := fun A a s => (Ok a, s).
#[global] Instance stateful_bind {S} : MBind (Stateful S) := fun A B f c s =>
  match c s with
  | (Ok a, s') => f a s'
  | (Raise e, s') => (Raise e, s')
  end.

(** Reading the object. *)
Definition gets {S A} (field : S -> A) : Stateful S A :=
  fun s => (Ok (field s), s).

(** Changing the object. *)
Definition modify {S} (f : S -> S) : Stateful S unit :=
  fun s => (Ok tt, f s).

(** A computation that does not touch the object. *)
Definition lift {S A} (c : outcome A) : Stateful S A :=
  fun s => (c, s).

(** [try: c except Exception as e: h e], on a mutable object. *)
Definition try_catch {S A} (c : Stateful S A) (h : exn -> Stateful S A) : Stateful S A :=
  fun s =>
    match c s with
    | (Ok a, s') => (Ok a, s')
    | (Raise e, s') => h e s'
    end.

(** Values decoded from JSON: [None], [bool], [int], [str], [list] and
    [dict] with string keys. A dict is kept as an association list in which
    the first binding of a key is the one in force. *)
Inductive pyval : Type :=
| PNone
| PBool (b : bool)
| PInt (z : Z)
| PStr (s : string)
| PList (l : list pyval)
| PDict (d : list (string * pyval)).

Definition pydict : Type := list (string * pyval).

Fixpoint lookup_key {A} (k : string) (d : list (string * A)) : option A :=
  match d with
  | [] => None
  | (k', v) :: d' => if bool_decide (k' = k) then Some v else lookup_key k d'
  end.

(** [data[k]] for a string key [k]. *)
Definition getitem (data : pyval) (k : string) : outcome pyval :=
  match data with
  | PDict d =>
      match lookup_key k d with
      | Some v => Ok v
      | None => Raise KeyError
      end
  | PStr _ | PList _ => Raise TypeError      (* indices must be integers *)
  | PNone | PBool _ | PInt _ => Raise TypeError  (* not subscriptable *)
  end.

(** [d.get(k, default)] on a dict. *)
Definition dict_get (d : pydict) (k : string) (default : pyval) : pyval :=
  match lookup_key k d with
  | Some v => v
  | None => default
  end.

(** [data.get(k, default)] on any value: only a dict has [get]. *)
Definition get (data : pyval) (k : string) (default : pyval) : outcome pyval :=
  match data with
  | PDict d => Ok (dict_get d k default)
  | _ => Raise AttributeError
  end.

(** The characters of a [str]: a byte that continues a UTF-8 sequence
    stays with the byte before it. *)
Definition is_continuation (a : ascii) : bool :=
  let n := Z.of_N (N_of_ascii a) in (128 <=? n) && (n <? 192).

Definition starts_with_continuation (s : string) : bool :=
  match s with
  | String a _ => is_continuation a
  | EmptyString => false
  end.

Fixpoint characters (s : string) : list string :=
  match s with
  | EmptyString => []
  | String a rest =>
      match characters rest with
      | g :: gs =>
          if starts_with_continuation g then String a g :: gs
          else String a EmptyString :: g :: gs
      | [] => [String a EmptyString]
      end
  end.

(** [for x in v]: the items a [for] loop visits, or [TypeError] when [v]
    is not iterable. *)
Definition iterate (v : pyval) : outcome (list pyval) :=
  match v with
  | PList l => Ok l
  | PDict d => Ok (PStr <$> d.*1)
  | PStr s => Ok (PStr <$> characters s)
  | PNone | PBool _ | PInt _ => Raise TypeError
  end.

(** Truth value of an object ([if v], [not v]). *)
Definition truthy (v : pyval) : bool :=
  match v with
  | PNone => false
  | PBool b => b
  | PInt z => negb (z =? 0)
  | PStr s => negb (bool_decide (s = EmptyString))
  | PList l => match l with [] => false | _ :: _ => true end
  | PDict d => match d with [] => false | _ :: _ => true end
  end.

(** [bool] is a subclass of [int]: [True] is 1 and [False] is 0. *)
Definition as_int (v : pyval) : option Z :=
  match v with
  | PInt z => Some z
  | PBool b => Some (if b then 1 else 0)
  | _ => None
  end.

Definition as_str (v : pyval) : option string :=
  match v with
  | PStr s => Some s
  | _ => None
  end.

(** [v == s] for a [str] [s]: only an equal [str] is equal to it. *)
Definition eq_str (v : pyval) (s : string) : bool :=
  match v with
  | PStr t => bool_decide (t = s)
  | _ => false
  end.

(** [v >= n] for an [int] [n]: [TypeError] unless [v] is a number. *)
Definition ge_int (v : pyval) (n : Z) : outcome bool :=
  match as_int v with
  | Some i => Ok (n <=? i)
  | None => Raise TypeError
  end.

(** What [hash] and [==] see of a hashable value: [True] and [1] are the
    same set element, a [list] or [dict] is unhashable. *)
Inductive hkey : Type :=
| HNone
| HInt (z : Z)
| HStr (s : string).

#[global] Instance hkey_eq_dec : EqDecision hkey.
Proof. solve_decision. Defined.

Definition hash_key (v : pyval) : outcome hkey :=
  match v with
  | PNone => Ok HNone
  | PBool b => Ok (HInt (if b then 1 else 0))
  | PInt z => Ok (HInt z)
  | PStr s => Ok (HStr s)
  | PList _ | PDict _ => Raise TypeError
  end.

(** [mapM] for [outcome]: the first exception wins. *)
Fixpoint traverse {A B} (f : A -> outcome B) (l : list A) : outcome (list B) :=
  match l with
  | [] => Ok []
  | x :: l' => y ← f x; ys ← traverse f l'; mret (y :: ys)
  end.

(** [len(set(l))]. *)
Definition len_set (l : list pyval) : outcome nat :=
  ks ← traverse hash_key l; mret (List.length (remove_dups ks)).

(** An f-string before it is formatted: its literal pieces and the values
    interpolated between them. *)
Inductive piece : Type :=
| Lit (s : string)
| Val (v : pyval).

Definition fstring : Type := list piece.

End Py.
Export Py.

(** ** The python-pptx objects the code works on *)

Module PptxModel.

(** [font.color]: [type] is [None] when no colour is set, 1 for an RGB
    colour, 2 for a theme colour; the other colour types are kept by
    number. *)
Inductive Color : Type :=
| ColorNone
| ColorRGB (rgb : string)
| ColorTheme (theme_color : Z)
| ColorOther (type : Z).

Record Font : Type := mkFont {
  font_name : option string;
  font_size : option Z;
  font_bold : option bool;
  font_italic : option bool;
  font_underline : option bool;
  font_color : Color
}.

(** The font of a run that was just added. *)
Definition default_font : Font :=
  mkFont None None None None None ColorNone.

Record Run : Type := mkRun {
  run_text : string;
  run_font : Font
}.

(** The children of a paragraph element that carry text: runs ([a:r]),
    line breaks ([a:br]) and fields ([a:fld]). *)
Inductive Inline : Type :=
| IRun (r : Run)
| IBreak
| IField (fld_type : string) (fld_text : string).

(** A paragraph: its content, and the alignment and indent level of its
    properties. *)
Record Paragraph : Type := mkParagraph {
  p_items : list Inline;
  p_alignment : option Z;
  p_level : Z
}.

Definition TextFrame : Type := list Paragraph.

(** [p.runs] *)
Definition runs (p : Paragraph) : list Run :=
  omap (fun i => match i with IRun r => Some r | _ => None end) (p_items p).

Definition inline_text (i : Inline) : string :=
  match i with
  | IRun r => run_text r
  | IBreak => String (ascii_of_nat 11) EmptyString      (* vertical tab *)
  | IField _ t => t
  end.

Definition concat_strings (l : list string) : string :=
  foldr String.append EmptyString l.

(** [p.text] *)
Definition paragraph_text (p : Paragraph) : string :=
  concat_strings (inline_text <$> p_items p).

Inductive ph_type : Type :=
| PH_TITLE
| PH_BODY
| PH_DATE
| PH_FOOTER
| PH_SLIDE_NUMBER
| PH_OTHER (n : Z).

Record PlaceholderFormat : Type := mkPlaceholderFormat {
  ph_idx : Z;
  ph_kind : ph_type
}.

(** A shape as the code looks at it: [placeholder_format] is present when
    [is_placeholder], [text_frame] when [has_text_frame], [table] (rows of
    cell text frames) when [has_table], [group_shapes] when
    [shape_type == 6]. The shapes of the model are those whose [shape_type]
    python-pptx can tell (placeholders, auto shapes, text boxes, freeforms,
    pictures, connectors, graphic frames and groups); for an element of
    another kind reading [shape_type] raises [NotImplementedError], and
    such elements are not represented. *)
Inductive Shape : Type := mkShape {
  shape_name : string;
  placeholder_format : option PlaceholderFormat;
  text_frame : option TextFrame;
  table : option (list (list TextFrame));
  group_shapes : option (list Shape)
}.

Record SlideLayout : Type := mkSlideLayout {
  layout_name : string;
  layout_placeholders : list Shape
}.

Record Slide : Type := mkSlide {
  slide_layout : SlideLayout;
  shapes : list Shape;
  notes_text_frame : TextFrame
}.

Record Presentation : Type := mkPresentation {
  slide_layouts : list SlideLayout;
  slides : list Slide
}.

End PptxModel.
Export PptxModel.

(** ** [slide_mapping.py] *)

Module SlideMapping.

(** [class SlideConfig]. [from_dict] stores whatever the dict holds, so
    the fields are Python values; the annotations of [__init__] ask for
    [str], [int], [str], [bool], [int]. *)
Record SlideConfig : Type := mkSlideConfig {
  type : pyval;
  layout_index : pyval;
  mode : pyval;
  enabled : pyval;
  position : pyval
}.

(** [SlideConfig.to_dict] *)
Definition config_to_dict (self : SlideConfig) : pyval :=
  PDict [ ("type", type self);
          ("layout_index", layout_index self);
          ("mode", mode self);
          ("enabled", enabled self);
          ("position", position self) ].

(** [SlideConfig.from_dict]: the keyword arguments are evaluated in the
    order they are written. *)
Definition from_dict (data : pyval) : outcome SlideConfig :=
  ty ← getitem data "type";
  li ← getitem data "layout_index";
  mo ← getitem data "mode";
  en ← get data "enabled" (PBool true);
  po ← getitem data "position";
  mret (mkSlideConfig ty li mo en po).

(** [SlideMappingManager.SLIDE_TYPES] *)
Definition SLIDE_TYPES : list (string * string) :=
  [ ("title", "Title Slide");
    ("agenda", "Agenda");
    ("introduction", "Team Introduction");
    ("assessment_details", "Assessment Details");
    ("methodology", "Methodology");
    ("timeline", "Assessment Timeline");
    ("attack_path", "Attack Path Overview");
    ("observations_overview", "Positive Observations Overview");
    ("observation", "Individual Observation Slide");
    ("findings_overview", "Findings Overview");
    ("finding", "Individual Finding Slide");
    ("recommendations", "Recommendations");
    ("next_steps", "Next Steps");
    ("final", "Final/Closing Slide") ].

Definition default_entry (ty : string) (li : Z) (pos : Z) : pyval :=
  PDict [ ("type", PStr ty); ("layout_index", PInt li);
          ("mode", PStr "dynamic"); ("enabled", PBool true);
          ("position", PInt pos) ].

(** [SlideMappingManager.DEFAULT_MAPPING] *)
Definition DEFAULT_MAPPING : pydict :=
  [ ("version", PInt 1);
    ("slides", PList
       [ default_entry "title" 0 1;
         default_entry "agenda" 1 2;
         default_entry "introduction" 1 3;
         default_entry "assessment_details" 1 4;
         default_entry "methodology" 1 5;
         default_entry "timeline" 1 6;
         default_entry "attack_path" 1 7;
         default_entry "observations_overview" 1 8;
         default_entry "observation" 1 9;
         default_entry "findings_overview" 1 10;
         default_entry "finding" 1 11;
         default_entry "recommendations" 1 12;
         default_entry "next_steps" 1 13;
         default_entry "final" 12 14 ]) ].

Record SlideMappingManager : Type := mkManager {
  presentation : option Presentation;
  mapping_data : pydict;
  slides : list SlideConfig
}.

(** The loop of [_parse_slides]: an entry whose [from_dict] raises
    [KeyError], [TypeError] or [ValueError] is skipped; any other
    exception leaves the loop. *)
Fixpoint parse_entries (slides_data : list pyval) : outcome (list SlideConfig) :=
  match slides_data with
  | [] => Ok []
  | s :: rest =>
      parsed ← try_except_only [KeyError; TypeError; ValueError]
                 ((fun c => [c]) <$> from_dict s)
                 (fun _ => Ok []);
      more ← parse_entries rest;
      mret (parsed ++ more)
  end.

(** [SlideMappingManager._parse_slides], reading [self.mapping_data]. *)
Definition _parse_slides (mapping_data : pydict) : outcome (list SlideConfig) :=
  slides_data ← iterate (dict_get mapping_data "slides" (PList []));
  parse_entries slides_data.

(** [SlideMappingManager.__init__]. [mapping_data] is [PNone] when the
    argument is left out or is [None]. *)
Definition __init__ (mapping_data : pyval) (presentation : option Presentation)
    : outcome SlideMappingManager :=
  let md :=
    match mapping_data with
    | PDict d => d
    | _ => DEFAULT_MAPPING
    end in
  try_except
    (sl ← _parse_slides md; mret (mkManager presentation md sl))
    (fun _ =>
       sl ← _parse_slides DEFAULT_MAPPING;
       mret (mkManager presentation DEFAULT_MAPPING sl)).

(** [get_slide_config]: the first entry whose type equals [slide_type]. *)
Fixpoint find_config (slide_type : string) (l : list SlideConfig) : option SlideConfig :=
  match l with
  | [] => None
  | slide :: rest =>
      if eq_str (type slide) slide_type then Some slide
      else find_config slide_type rest
  end.

Definition get_slide_config (self : SlideMappingManager) (slide_type : string)
    : option SlideConfig :=
  find_config slide_type (slides self).

Definition layout_count (prs : Presentation) : Z :=
  Z.of_nat (List.length (slide_layouts prs)).

(** [get_layout_index]. The comparison with the layout count sits in a
    [try] whose handler returns the fallback. *)
Definition get_layout_index (self : SlideMappingManager) (slide_type : string)
    (fallback : pyval) : pyval :=
  match get_slide_config self slide_type with
  | None => fallback
  | Some config =>
      if negb (truthy (enabled config)) then fallback
      else
        match presentation self with
        | Some prs =>
            match ge_int (layout_index config) (layout_count prs) with
            | Ok true => fallback
            | Ok false => layout_index config
            | Raise _ => fallback
            end
        | None => layout_index config
        end
  end.

(** [is_slide_enabled]: the result is [config.enabled] itself. *)
Definition is_slide_enabled (self : SlideMappingManager) (slide_type : string) : pyval :=
  match get_slide_config self slide_type with
  | Some config => enabled config
  | None => PBool true
  end.

(** Insertion into a list ordered by key: the new item goes before the
    first item whose key is not smaller. *)
Fixpoint insert_by_key {A} (k : Z) (x : A) (l : list (Z * A)) : list (Z * A) :=
  match l with
  | [] => [(k, x)]
  | (k', y) :: l' =>
      if k <=? k' then (k, x) :: (k', y) :: l'
      else (k', y) :: insert_by_key k x l'
  end.

Definition sort_keyed {A} (l : list (Z * A)) : list (Z * A) :=
  foldr (fun kx acc => insert_by_key kx.1 kx.2 acc) [] l.

Definition with_int_key {A} (key : A -> pyval) (x : A) : option (Z * A) :=
  k ← as_int (key x); Some (k, x).

(** The same insertion for [str] keys. Python compares two [str] by code
    point, which on UTF-8 text is the order of the bytes. *)
Fixpoint insert_by_str_key {A} (k : string) (x : A) (l : list (string * A))
    : list (string * A) :=
  match l with
  | [] => [(k, x)]
  | (k', y) :: l' =>
      if String.leb k k' then (k, x) :: (k', y) :: l'
      else (k', y) :: insert_by_str_key k x l'
  end.

Definition sort_str_keyed {A} (l : list (string * A)) : list (string * A) :=
  foldr (fun kx acc => insert_by_str_key kx.1 kx.2 acc) [] l.

Definition with_str_key {A} (key : A -> pyval) (x : A) : option (string * A) :=
  k ← as_str (key x); Some (k, x).

Definition is_list (v : pyval) : bool :=
  match v with
  | PList _ => true
  | _ => false
  end.

(** [sorted(l, key=...)]. Python's sort is stable and compares the keys
    with [<]. With fewer than two items nothing is compared. On integer
    keys ([int] and [bool]) and on [str] keys [<] is total, so that the
    result is the one stable ordering of the list; it is computed by
    insertion. Between values of two different kinds ([int], [str], [list],
    [dict], [None]), between two [None] and between two [dict], [<] raises
    [TypeError]; a sort compares every item with another one, and some item
    of each kind with an item of another kind, so that keys which are not
    all integers, all strings or all lists end the call with [TypeError].
    Two lists are compared item by item, and whether that raises depends on
    the pairs the sort happens to compare: a list whose keys are all lists
    is outside the model, [Ok None]. *)
Definition sorted {A} (key : A -> pyval) (l : list A) : outcome (option (list A)) :=
  match l with
  | [] | [_] => Ok (Some l)
  | _ =>
      match mapM (with_int_key key) l, mapM (with_str_key key) l with
      | Some keyed, _ => Ok (Some ((sort_keyed keyed).*2))
      | None, Some keyed => Ok (Some ((sort_str_keyed keyed).*2))
      | None, None =>
          if forallb (fun x => is_list (key x)) l then Ok None
          else Raise TypeError
      end
  end.

(** A method of the manager: a computation on [self]. *)
Abbreviation Method := (Stateful SlideMappingManager).

(** [get_slides_by_position] *)
Definition get_slides_by_position : Method (option (list SlideConfig)) :=
  sl ← gets slides;
  let enabled_slides := List.filter (fun s => truthy (enabled s)) sl in
  lift (sorted position enabled_slides).

(** The messages of [validate], as unformatted f-strings. *)
Definition duplicate_position_warning : fstring :=
  [Lit "Duplicate position values found in slide mapping"].

Definition unknown_type_warning (slide : SlideConfig) : fstring :=
  [Lit "Unknown slide type: "; Val (type slide)].

Definition invalid_mode_error (slide : SlideConfig) : fstring :=
  [Lit "Invalid mode '"; Val (mode slide); Lit "' for slide type "; Val (type slide)].

Definition layout_index_error (slide : SlideConfig) (layout_count : Z) : fstring :=
  [Lit "Layout index "; Val (layout_index slide); Lit " for slide type '";
   Val (type slide); Lit "' exceeds available layouts (0-";
   Val (PInt (layout_count - 1)); Lit ")"].

Definition required_type_warning (req_type : string) : fstring :=
  [Lit "Required slide type '"; Val (PStr req_type); Lit "' is not enabled"].

(** [len(positions) != len(set(positions))] over the positions of the
    enabled entries; [set] raises on an unhashable position. *)
Definition duplicate_warnings (sl : list SlideConfig) : outcome (list fstring) :=
  let positions := position <$> List.filter (fun s => truthy (enabled s)) sl in
  n ← len_set positions;
  mret (if bool_decide (List.length positions = n) then []
        else [duplicate_position_warning]).

(** [slide.type not in self.SLIDE_TYPES and not slide.type.startswith("custom_")]:
    the lookup hashes the type, and only a [str] has [startswith]. *)
Definition is_unknown_type (slide : SlideConfig) : outcome bool :=
  k ← hash_key (type slide);
  match k with
  | HStr t =>
      Ok (negb (bool_decide (t ∈ SLIDE_TYPES.*1)) && negb (String.prefix "custom_" t))
  | HNone | HInt _ => Raise AttributeError
  end.

Definition when {A} (b : bool) (l : list A) : list A :=
  if b then l else [].

Fixpoint unknown_type_warnings (sl : list SlideConfig) : outcome (list fstring) :=
  match sl with
  | [] => Ok []
  | slide :: rest =>
      u ← is_unknown_type slide;
      more ← unknown_type_warnings rest;
      mret (when u [unknown_type_warning slide] ++ more)
  end.

(** [slide.mode not in ("static", "dynamic")] *)
Definition is_invalid_mode (slide : SlideConfig) : bool :=
  negb (eq_str (mode slide) "static" || eq_str (mode slide) "dynamic").

Definition invalid_mode_errors (sl : list SlideConfig) : list fstring :=
  invalid_mode_error <$> List.filter is_invalid_mode sl.

(** The layout loop runs inside a [try]: an exception in the comparison
    ends the loop and keeps the errors appended so far. *)
Fixpoint layout_index_errors (layout_count : Z) (sl : list SlideConfig)
    (errors : list fstring) : list fstring :=
  match sl with
  | [] => errors
  | slide :: rest =>
      if truthy (enabled slide) then
        match ge_int (layout_index slide) layout_count with
        | Ok true =>
            layout_index_errors layout_count rest
              (errors ++ [layout_index_error slide layout_count])
        | Ok false => layout_index_errors layout_count rest errors
        | Raise _ => errors
        end
      else layout_index_errors layout_count rest errors
  end.

Definition required_types : list string := ["title"; "final"].

Definition required_type_warnings (self : SlideMappingManager) : list fstring :=
  required_type_warning <$>
    List.filter
      (fun req_type =>
         match get_slide_config self req_type with
         | None => true
         | Some config => negb (truthy (enabled config))
         end)
      required_types.

(** [validate]: returns [(warnings, errors)]. *)
Definition validate : Method (list fstring * list fstring) :=
  sl ← gets slides;
  dup ← lift (duplicate_warnings sl);
  unknown ← lift (unknown_type_warnings sl);
  let errors := invalid_mode_errors sl in
  prs ← gets presentation;
  sl' ← gets slides;
  let errors :=
    match prs with
    | Some prs => layout_index_errors (layout_count prs) sl' errors
    | None => errors
    end in
  self ← gets id;
  let warnings := dup ++ unknown ++ required_type_warnings self in
  mret (warnings, errors).

(** [SlideMappingManager.to_dict] *)
Definition to_dict (self : SlideMappingManager) : pyval :=
  PDict [ ("version", dict_get (mapping_data self) "version" (PInt 1));
          ("slides", PList (config_to_dict <$> slides self)) ].

(** [Presentation(path)] belongs to python-pptx and reads the file
    system: the loader is a parameter of the model. *)
Definition loader : Type := pyval -> outcome Presentation.

Definition layout_entry (idx : Z) (layout : SlideLayout) : pyval :=
  PDict [ ("index", PInt idx); ("name", PStr (layout_name layout)) ].

(** [for idx, layout in enumerate(prs.slide_layouts): layouts.append(...)] *)
Fixpoint collect_layouts (idx : Z) (ls : list SlideLayout) (layouts : list pyval)
    : list pyval :=
  match ls with
  | [] => layouts
  | layout :: rest =>
      collect_layouts (idx + 1) rest (layouts ++ [layout_entry idx layout])
  end.

(** [extract_layouts_from_pptx] *)
Definition extract_layouts_from_pptx (Presentation_ : loader) (pptx_path : pyval)
    : outcome (list pyval) :=
  try_except
    (prs ← Presentation_ pptx_path;
     mret (collect_layouts 0 (slide_layouts prs) []))
    (fun _ => Ok []).

End SlideMapping.

(** ** [base/pptx.py] *)

Module Pptx.

(** *** What python-pptx does for the calls the code makes *)

Definition is_run (i : Inline) : bool :=
  match i with
  | IRun _ => true
  | _ => false
  end.

Definition with_items (p : Paragraph) (items : list Inline) : Paragraph :=
  mkParagraph items (p_alignment p) (p_level p).

Definition with_text_frame (sh : Shape) (tf : TextFrame) : Shape :=
  mkShape (shape_name sh) (placeholder_format sh) (Some tf) (table sh) (group_shapes sh).

(** A paragraph that was just added. *)
Definition empty_paragraph : Paragraph := mkParagraph [] None 0.

(** [p.clear()]: the content goes, the paragraph properties stay. *)
Definition clear_paragraph (p : Paragraph) : Paragraph := with_items p [].

(** [p.add_run()]: the new run comes after the existing content. *)
Definition add_run (p : Paragraph) (r : Run) : Paragraph :=
  with_items p (p_items p ++ [IRun r]).

(** [text.split(sep)] for one-character separators. *)
Fixpoint split_on (sep : ascii -> bool) (s : string) : list string :=
  match s with
  | EmptyString => [EmptyString]
  | String a rest =>
      match split_on sep rest with
      | cur :: more =>
          if sep a then EmptyString :: cur :: more else String a cur :: more
      | [] => [EmptyString]
      end
  end.

Definition is_newline (a : ascii) : bool := bool_decide (a = ascii_of_nat 10).

(** [run.text = text] does not store the text as it is: python-pptx writes
    each control character of it, tab and line feed apart, as [_xHHHH_]
    with its code in four upper-case hexadecimal digits ([re.sub] of
    [[\x00-\x08\x0B-\x1F]] by ["_x%04X_" % ord(c)]). *)
Definition is_ctrl_char (a : ascii) : bool :=
  let n := nat_of_ascii a in
  (n <? 9)%nat || ((10 <? n)%nat && (n <? 32)%nat).

Definition hex_digit (n : nat) : ascii :=
  default "0"%char (list_ascii_of_string "0123456789ABCDEF" !! n).

Definition escape_ctrl_char (a : ascii) : string :=
  let n := nat_of_ascii a in
  "_x00" +:+ String (hex_digit (n / 16)) (String (hex_digit (n mod 16)) "_").

Fixpoint escape_ctrl_chars (s : string) : string :=
  match s with
  | EmptyString => EmptyString
  | String a rest =>
      if is_ctrl_char a then escape_ctrl_char a +:+ escape_ctrl_chars rest
      else String a (escape_ctrl_chars rest)
  end.

Definition is_line_break (a : ascii) : bool :=
  bool_decide (a = ascii_of_nat 10) || bool_decide (a = ascii_of_nat 11).

(** [append_text]: a line feed or vertical tab in the text becomes a line
    break, the pieces between them become runs through [r.text = r_str],
    and an empty piece adds no run. *)
Fixpoint text_items (first : bool) (pieces : list string) : list Inline :=
  match pieces with
  | [] => []
  | r_str :: more =>
      (if first then [] else [IBreak]) ++
      (if bool_decide (r_str = EmptyString) then []
       else [IRun (mkRun (escape_ctrl_chars r_str) default_font)]) ++
      text_items false more
  end.

Definition append_text (text : string) : list Inline :=
  text_items true (split_on is_line_break text).

(** [p.text = text] *)
Definition set_paragraph_text (p : Paragraph) (text : string) : Paragraph :=
  with_items p (append_text text).

(** [text_frame.text = text]: one new paragraph per line of the text. *)
Definition set_text_frame_text (text : string) : TextFrame :=
  (fun p_str => mkParagraph (append_text p_str) None 0) <$> split_on is_newline text.

(** [text_frame.clear()]: all paragraphs but the first are removed and the
    first one, [self.paragraphs[0]], is emptied; without a paragraph that
    subscript raises [IndexError]. *)
Definition clear_text_frame (tf : TextFrame) : outcome TextFrame :=
  match tf with
  | [] => Raise IndexError
  | p :: _ => Ok [clear_paragraph p]
  end.

Fixpoint join_lines (l : list string) : string :=
  match l with
  | [] => EmptyString
  | [x] => x
  | x :: rest => x +:+ String (ascii_of_nat 10) (join_lines rest)
  end.

(** [text_frame.text] and [shape.text] *)
Definition text_frame_text (tf : TextFrame) : string :=
  join_lines (paragraph_text <$> tf).

Definition shape_text (sh : Shape) : string :=
  match text_frame sh with
  | Some tf => text_frame_text tf
  | None => EmptyString
  end.

(** [needle in s] *)
Fixpoint contains (needle s : string) : bool :=
  String.prefix needle s ||
  match s with
  | EmptyString => false
  | String _ rest => contains needle rest
  end.

(** [s.replace('\xa0', ' ')]: U+00A0, the no-break space, is the bytes 194
    160 in UTF-8. *)
Fixpoint replace_nbsp (s : string) : string :=
  match s with
  | EmptyString => EmptyString
  | String a rest =>
      match rest with
      | String b rest2 =>
          if ((nat_of_ascii a =? 194) && (nat_of_ascii b =? 160))%nat
          then String " " (replace_nbsp rest2)
          else String a (replace_nbsp rest)
      | EmptyString => String a EmptyString
      end
  end.

(** [s.replace("\x0D", ...)] with the empty string: carriage returns go. *)
Fixpoint remove_cr (s : string) : string :=
  match s with
  | EmptyString => EmptyString
  | String a rest =>
      if (nat_of_ascii a =? 13)%nat then remove_cr rest else String a (remove_cr rest)
  end.

(** [not s.strip()]: [s] holds nothing but white space. The characters
    [str.strip] removes are the ASCII ones (9-13, 28-32) and U+0085,
    U+00A0, U+1680, U+2000-U+200A, U+2028, U+2029, U+202F, U+205F,
    U+3000. *)
Definition ascii_space (n : nat) : bool :=
  ((9 <=? n) && (n <=? 13) || (28 <=? n) && (n <=? 32))%nat.

Fixpoint is_blank (s : string) : bool :=
  match s with
  | EmptyString => true
  | String a rest =>
      let n := nat_of_ascii a in
      if ascii_space n then is_blank rest
      else
        match rest with
        | String b rest2 =>
            let m := nat_of_ascii b in
            if (n =? 194)%nat then
              ((m =? 133) || (m =? 160))%nat && is_blank rest2
            else
              match rest2 with
              | String c rest3 =>
                  let k := nat_of_ascii c in
                  (((n =? 225) && (m =? 154) && (k =? 128))
                   || ((n =? 226) && (m =? 128) &&
                       ((128 <=? k) && (k <=? 138) || (k =? 168) || (k =? 169)
                        || (k =? 175)))
                   || ((n =? 226) && (m =? 129) && (k =? 159))
                   || ((n =? 227) && (m =? 128) && (k =? 128)))%nat
                  && is_blank rest3
              | EmptyString => false
              end
        | EmptyString => false
        end
  end.

(** [l[i]] on a Python list: a negative index counts from the end. *)
Definition index {A} (l : list A) (i : pyval) : outcome A :=
  match as_int i with
  | None => Raise TypeError
  | Some z =>
      let n := Z.of_nat (length l) in
      let z' := if z <? 0 then z + n else z in
      if (0 <=? z') && (z' <? n) then
        match l !! Z.to_nat z' with
        | Some x => Ok x
        | None => Raise IndexError
        end
      else Raise IndexError
  end.

(** *** External collaborators *)

(** While [render_jinja2_in_textframe] runs, the paragraphs it iterates
    over are a snapshot taken at the start; the rich-text converter may add
    or remove paragraphs meanwhile. Each paragraph element carries a tag
    that stands for its identity; [attached] are the paragraphs of the text
    frame in order, [detached] the elements that were removed from it. *)
Record RenderState : Type := mkRenderState {
  attached : list (nat * Paragraph);
  detached : list (nat * Paragraph)
}.

(** What the code calls but does not define. *)
Class External : Type := {
  (** [jinja_env.from_string(text).render(context)] *)
  jinja_render : string -> pydict -> outcome string;
  (** [bool(BeautifulSoup(text, "html.parser").find())] *)
  is_html : string -> bool;
  (** [HtmlToPptxWithEvidence.run(html, slide, shape, evidences)]: what it
      does to the paragraphs of the target, and the exception it ends
      with, if any. *)
  html_to_pptx : string -> RenderState -> RenderState * option exn;
  (** [HtmlToPptxWithEvidence.make_evidence(slide, ev)] *)
  make_evidence : Slide -> pyval -> outcome Slide;
  (** [BeautifulSoup(value, "lxml").text] *)
  soup_text : pyval -> outcome string;
  (** [dateformat(date.today(), settings.DATE_FORMAT)] *)
  today : string;
  (** The name python-pptx gives to a placeholder cloned onto a slide. *)
  next_ph_name : Slide -> Shape -> string;
  (** [str.capitalize] *)
  capitalize : string -> string
}.

Section base_pptx.
Context `{External}.

(** *** Text helpers *)

Fixpoint lookup_tag (tag : nat) (l : list (nat * Paragraph)) : option Paragraph :=
  match l with
  | [] => None
  | (t, p) :: rest => if bool_decide (t = tag) then Some p else lookup_tag tag rest
  end.

Definition paragraph_of (tag : nat) (st : RenderState) : option Paragraph :=
  match lookup_tag tag (attached st) with
  | Some p => Some p
  | None => lookup_tag tag (detached st)
  end.

Definition update_tag (tag : nat) (f : Paragraph -> Paragraph)
    (l : list (nat * Paragraph)) : list (nat * Paragraph) :=
  (fun tp => if bool_decide (tp.1 = tag) then (tp.1, f tp.2) else tp) <$> l.

Definition update_paragraph (tag : nat) (f : Paragraph -> Paragraph)
    (st : RenderState) : RenderState :=
  mkRenderState (update_tag tag f (attached st)) (update_tag tag f (detached st)).

(** [delete_paragraph]: the paragraph is removed from its parent; when it
    has no parent only a warning is logged. *)
Definition delete_paragraph (tag : nat) (st : RenderState) : RenderState :=
  match lookup_tag tag (attached st) with
  | Some p =>
      mkRenderState
        (List.filter (fun tp => negb (bool_decide (tp.1 = tag))) (attached st))
        (detached st ++ [(tag, p)])
  | None => st
  end.


Definition add_paragraph_preserving_format (text_frame : TextFrame) (text : string)
    (level : Z) : TextFrame :=
  text_frame ++ [mkParagraph (append_text text) None level].

(** [prepare_for_pptx] *)
Definition prepare_for_pptx (value : pyval) : string :=
  match
    (if truthy value then remove_cr <$> soup_text value else Ok "N/A")
  with
  | Ok text => text
  | Raise _ => EmptyString
  end.

(** *** [set_text_preserving_format] *)

(** [for run in list(first_para.runs): run.text = ""] *)
Definition clear_run_texts (items : list Inline) : list Inline :=
  (fun i => match i with
            | IRun r => IRun (mkRun (escape_ctrl_chars EmptyString) (run_font r))
            | _ => i
            end) <$> items.

(** [first_run.text = text] *)
Fixpoint set_first_run_text (text : string) (items : list Inline) : list Inline :=
  match items with
  | [] => []
  | IRun r :: rest => IRun (mkRun (escape_ctrl_chars text) (run_font r)) :: rest
  | i :: rest => i :: set_first_run_text text rest
  end.

(** [for run in list(first_para.runs[1:]): r.getparent().remove(r)] *)
Fixpoint remove_extra_runs (items : list Inline) : list Inline :=
  match items with
  | [] => []
  | IRun r :: rest => IRun r :: List.filter (fun i => negb (is_run i)) rest
  | i :: rest => i :: remove_extra_runs rest
  end.

(** [for para in list(text_frame.paragraphs[1:]): delete_paragraph(para)]:
    each of them is the second paragraph when its turn comes. *)
Definition remove_extra_paragraphs (tf : TextFrame) : TextFrame :=
  Nat.iter (length tf - 1) (delete 1%nat) tf.

(** [shape] is [None] for Python's [None]; the result is the shape after
    the call. *)
Definition set_text_preserving_format (shape : option Shape) (text : string)
    : option Shape :=
  match shape with
  | None => None
  | Some sh =>
      match text_frame sh with
      | None => Some sh
      | Some tf =>
          match tf with
          | first_para :: others =>
              let first_para' :=
                match runs first_para with
                | first_run :: _ =>
                    with_items first_para
                      (remove_extra_runs
                         (set_first_run_text text
                            (clear_run_texts (p_items first_para))))
                | [] => set_paragraph_text first_para text
                end in
              Some (with_text_frame sh (remove_extra_paragraphs (first_para' :: others)))
          | [] => Some (with_text_frame sh (set_text_frame_text text))
          end
      end
  end.

(** *** [copy_text_from_layout_preserving_format] *)

(** Name, size, bold, italic and underline are assigned as they are; the
    colour is carried over when its type is 1 (RGB) or 2 (theme). The same
    steps re-apply the captured font in [render_jinja2_in_textframe]. *)
Definition transplant_font (src : Font) : Font :=
  mkFont (font_name src) (font_size src) (font_bold src) (font_italic src)
    (font_underline src)
    (match font_color src with
     | ColorRGB rgb => ColorRGB rgb
     | ColorTheme t => ColorTheme t
     | ColorNone | ColorOther _ => ColorNone
     end).

Definition copy_runs (dest_p src_p : Paragraph) : Paragraph :=
  mkParagraph
    (p_items dest_p ++
     ((fun src_r =>
         IRun (mkRun (escape_ctrl_chars (run_text src_r)) (transplant_font (run_font src_r))))
        <$> runs src_p))
    (p_alignment src_p) (p_level src_p).

Fixpoint copy_paragraphs (i : nat) (src : list Paragraph) (dest_tf : TextFrame)
    : TextFrame :=
  match src with
  | [] => dest_tf
  | src_p :: rest =>
      let dest_tf' :=
        match i, dest_tf with
        | O, dest_p :: others => copy_runs dest_p src_p :: others
        | _, _ => dest_tf ++ [copy_runs empty_paragraph src_p]
        end in
      copy_paragraphs (S i) rest dest_tf'
  end.

(** The shape after the call, or the exception of [dest_tf.clear()], which
    is raised before anything is changed. *)
Definition copy_text_from_layout_preserving_format (dest_shape source_ph : Shape)
    : outcome Shape :=
  match text_frame source_ph, text_frame dest_shape with
  | Some src_tf, Some dest_tf =>
      cleared ← clear_text_frame dest_tf;
      Ok (with_text_frame dest_shape (copy_paragraphs 0 src_tf cleared))
  | _, _ => Ok dest_shape
  end.

(** *** [render_jinja2_in_textframe] *)

(** The loop body is a computation on the render state. *)
Abbreviation Render := (Stateful RenderState).

(** The paragraph object behind a tag. *)
Definition get_paragraph (tag : nat) : Render Paragraph :=
  fun st => (Ok (default empty_paragraph (paragraph_of tag st)), st).

(** [HtmlToPptxWithEvidence.run(rendered_text, slide, shape, evidences=evidences)] *)
Definition run_html_to_pptx (rendered_text : string) : Render unit :=
  fun st =>
    match html_to_pptx rendered_text st with
    | (st', Some e) => (Raise e, st')
    | (st', None) => (Ok tt, st')
    end.

(** [for r in list(p.runs): p._p.remove(r._r)] *)
Definition remove_runs (p : Paragraph) : Paragraph :=
  with_items p (List.filter (fun i => negb (is_run i)) (p_items p)).

(** [original_text], rebuilt from the runs of the paragraph. *)
Definition reconstructed_text (p : Paragraph) : string :=
  replace_nbsp (concat_strings (run_text <$> runs p)).

Definition has_expression (text : string) : bool :=
  negb (bool_decide (text = EmptyString)) && contains "{{" text && contains "}}" text.

(** The [try] block of the loop body. *)
Definition render_expression (context : pydict) (tag : nat) (p : Paragraph)
    (original_text : string) : Render unit :=
  rendered_text ← lift (jinja_render original_text context);
  let html := is_html rendered_text in
  let font_props := run_font <$> head (runs p) in
  modify (update_paragraph tag remove_runs);;
  if html then
    run_html_to_pptx rendered_text;;
    p' ← get_paragraph tag;
    if is_blank (paragraph_text p') then modify (delete_paragraph tag)
    else mret tt
  else
    let font :=
      match font_props with
      | Some f => transplant_font f
      | None => default_font
      end in
    modify (update_paragraph tag
              (fun p => add_run p (mkRun (escape_ctrl_chars rendered_text) font))).

(** One turn of the loop, for the paragraph with the given tag. Both
    handlers only log. *)
Definition render_paragraph (context : pydict) (tag : nat) : Render unit :=
  p ← get_paragraph tag;
  let original_text := reconstructed_text p in
  if has_expression original_text then
    try_catch (render_expression context tag p original_text)
      (fun e =>
         match e with
         | UndefinedError => mret tt      (* logger.error *)
         | _ => mret tt                   (* logger.warning *)
         end)
  else mret tt.

(** [for p in text_frame.paragraphs: ...] over the tags of the snapshot. *)
Fixpoint render_paragraphs (context : pydict) (tags : list nat) : Render unit :=
  match tags with
  | [] => mret tt
  | tag :: rest => render_paragraph context tag;; render_paragraphs context rest
  end.

Definition tag_paragraphs (tf : TextFrame) : list (nat * Paragraph) :=
  imap (fun i p => (i, p)) tf.

(** [render_jinja2_in_textframe]: the exception that leaves the call, if
    any, and the paragraphs of the text frame after it. *)
Definition render_jinja2_in_textframe (text_frame : TextFrame) (context : pydict)
    : outcome unit * TextFrame :=
  let st := mkRenderState (tag_paragraphs text_frame) [] in
  let '(result, st') := render_paragraphs context (seq 0 (length text_frame)) st in
  (result, (attached st').*2).

Definition rendered (text_frame : TextFrame) (context : pydict) : TextFrame :=
  (render_jinja2_in_textframe text_frame context).2.

(** *** [render_jinja2_in_shape] *)

(** The search for the layout placeholder with the same [idx]. *)
Fixpoint find_layout_placeholder (target_idx : Z) (placeholders : list Shape)
    : outcome (option Shape) :=
  match placeholders with
  | [] => Ok None
  | ph :: rest =>
      match placeholder_format ph with
      | None => Raise AttributeError
      | Some fmt =>
          if ph_idx fmt =? target_idx then Ok (Some ph)
          else find_layout_placeholder target_idx rest
      end
  end.

(** An empty placeholder takes over the text of its layout placeholder when
    that text holds [{{]; any exception on the way is ignored. *)
Definition inherit_from_layout (slide : Slide) (shape : Shape) : Shape :=
  match placeholder_format shape with
  | Some fmt =>
      if is_blank (shape_text shape) then
        match find_layout_placeholder (ph_idx fmt)
                (layout_placeholders (slide_layout slide)) with
        | Ok (Some layout_ph) =>
            if bool_decide (is_Some (text_frame layout_ph))
               && negb (bool_decide (shape_text layout_ph = EmptyString))
               && contains "{{" (shape_text layout_ph)
            then
              match copy_text_from_layout_preserving_format shape layout_ph with
              | Ok copy => copy
              | Raise _ => shape
              end
            else shape
        | Ok None => shape
        | Raise _ => shape
        end
      else shape
  | None => shape
  end.

Fixpoint render_shape (context : pydict) (slide : Slide) (shape : Shape) : Shape :=
  let shape1 :=
    match text_frame shape with
    | Some _ =>
        let shape0 := inherit_from_layout slide shape in
        match text_frame shape0 with
        | Some tf => with_text_frame shape0 (rendered tf context)
        | None => shape0
        end
    | None => shape
    end in
  match shape with
  | mkShape _ _ _ cells children =>
      mkShape (shape_name shape1) (placeholder_format shape1) (text_frame shape1)
        (option_map (List.map (List.map (fun cell => rendered cell context))) cells)
        (option_map (List.map (render_shape context slide)) children)
  end.

(** [render_jinja2_in_shape(shape, jinja_env, context, slide, evidences=None)].
    Python binds the arguments of a call before the body runs, and [slide]
    has no default: a call that leaves it out raises [TypeError]. [slide]
    is [None] here for such a call. *)
Definition render_jinja2_in_shape (shape : Shape) (context : pydict)
    (slide : option Slide) : outcome Shape :=
  match slide with
  | None => Raise TypeError
  | Some slide => Ok (render_shape context slide shape)
  end.

(** *** New slides *)

(** [slide.shapes.clone_placeholder(layout_placeholder)]: the new shape has
    the placeholder type and idx of the layout placeholder and one empty
    paragraph. *)
Definition cloned_placeholder (slide : Slide) (layout_placeholder : Shape) : Shape :=
  mkShape (next_ph_name slide layout_placeholder)
    (placeholder_format layout_placeholder) (Some [empty_paragraph]) None None.

Definition add_shape (slide : Slide) (sh : Shape) : Slide :=
  mkSlide (slide_layout slide) (shapes slide ++ [sh]) (notes_text_frame slide).

(** Date, footer and slide-number placeholders are not cloned onto a new
    slide. *)
Definition is_cloneable (ph : Shape) : bool :=
  match ph_kind <$> placeholder_format ph with
  | Some PH_DATE | Some PH_FOOTER | Some PH_SLIDE_NUMBER => false
  | _ => true
  end.

(** [presentation.slides.add_slide(slide_layout)] *)
Definition new_slide (slide_layout : SlideLayout) : Slide :=
  foldl (fun slide ph => add_shape slide (cloned_placeholder slide ph))
    (mkSlide slide_layout [] [empty_paragraph])
    (List.filter is_cloneable (layout_placeholders slide_layout)).

Definition with_slides (prs : Presentation) (sl : list Slide) : Presentation :=
  mkPresentation (slide_layouts prs) sl.

(** Every shape of [slide] goes through [render], in order; the first
    exception stops the loop. *)
Definition render_shapes (render : Shape -> outcome Shape) (slide : Slide)
    : outcome Slide :=
  shapes' ← traverse render (shapes slide);
  mret (mkSlide (slide_layout slide) shapes' (notes_text_frame slide)).

(** [create_static_slide]: the presentation with the new slide, or the
    exception together with the presentation as it was left. *)
Definition create_static_slide (presentation : Presentation) (layout_index : pyval)
    (context : pydict) : outcome Slide * Presentation :=
  match index (slide_layouts presentation) layout_index with
  | Raise e => (Raise e, presentation)
  | Ok slide_layout =>
      let slide := new_slide slide_layout in
      match render_shapes (fun shape => render_jinja2_in_shape shape context (Some slide))
              slide with
      | Ok slide' =>
          (Ok slide', with_slides presentation (PptxModel.slides presentation ++ [slide']))
      | Raise e =>
          (Raise e, with_slides presentation (PptxModel.slides presentation ++ [slide]))
      end
  end.

(** *** [process_footers] *)

(** [clone_placeholder]: the layout placeholder at [placeholder_idx], and
    the slide with its clone as last shape. *)
Definition clone_placeholder (slide : Slide) (slide_layout : SlideLayout)
    (placeholder_idx : Z) : outcome (Shape * Slide) :=
  layout_placeholder ← index (layout_placeholders slide_layout) (PInt placeholder_idx);
  mret (layout_placeholder, add_shape slide (cloned_placeholder slide layout_placeholder)).

(** An update of [slide.shapes[-1]]. *)
Definition update_last_shape (f : Shape -> outcome Shape) (slide : Slide)
    : outcome Slide :=
  match reverse (shapes slide) with
  | [] => Raise IndexError
  | last_shape :: before =>
      sh ← f last_shape;
      mret (mkSlide (slide_layout slide) (reverse before ++ [sh]) (notes_text_frame slide))
  end.

(** [shape.text = text] *)
Definition set_shape_text (text : string) (sh : Shape) : outcome Shape :=
  Ok (with_text_frame sh (set_text_frame_text text)).

(** [add_slide_number]: a [slidenum] field is appended to the first
    paragraph of the text box. *)
Definition add_slide_number (txtbox : Shape) : outcome Shape :=
  match default [empty_paragraph] (text_frame txtbox) with
  | [] => Raise IndexError
  | par :: others =>
      Ok (with_text_frame txtbox
            (with_items par (p_items par ++ [IField "slidenum" "2"]) :: others))
  end.

(** The inner loop. It assigns [idx] too: after it, [idx] is the index of
    the last layout placeholder, or still the slide index when the layout
    has no placeholder. The result is [(idx, footer_placeholder_idx,
    slide_number_placeholder_idx, date_placeholder_idx)]. *)
Definition scan_placeholders (idx : Z) (placeholders : list Shape) : Z * Z * Z * Z :=
  foldl
    (fun '(_, footer_idx, slide_number_idx, date_idx) '(idx, place) =>
       (idx,
        (if contains "Footer" (shape_name place) then idx else footer_idx),
        (if contains "Slide Number" (shape_name place) then idx else slide_number_idx),
        (if contains "Date" (shape_name place) then idx else date_idx)))
    (idx, -1, -1, -1)
    (imap (fun i place => (Z.of_nat i, place)) placeholders).

(** The body of the outer loop for the slide at [idx]. *)
Definition process_slide_footers (idx : Z) (slide : Slide) : outcome Slide :=
  let slide_layout := slide_layout slide in
  let '(idx, footer_placeholder_idx, slide_number_placeholder_idx, date_placeholder_idx) :=
    scan_placeholders idx (layout_placeholders slide_layout) in
  if 0 <? idx then
    slide ←
      (if 0 <? footer_placeholder_idx then
         '(footer_layout_placeholder, slide) ←
           clone_placeholder slide slide_layout footer_placeholder_idx;
         update_last_shape (set_shape_text (shape_text footer_layout_placeholder)) slide
       else Ok slide);
    slide ←
      (if 0 <? slide_number_placeholder_idx then
         '(_, slide) ← clone_placeholder slide slide_layout slide_number_placeholder_idx;
         update_last_shape add_slide_number slide
       else Ok slide);
    (if 0 <? date_placeholder_idx then
       '(_, slide) ← clone_placeholder slide slide_layout date_placeholder_idx;
       update_last_shape (set_shape_text today) slide
     else Ok slide)
  else Ok slide.

Fixpoint process_footers_from (idx : Z) (sl : list Slide) : outcome (list Slide) :=
  match sl with
  | [] => Ok []
  | slide :: rest =>
      slide' ← process_slide_footers idx slide;
      rest' ← process_footers_from (idx + 1) rest;
      mret (slide' :: rest')
  end.

(** [process_footers], on [self.ppt_presentation]. *)
Definition process_footers (ppt_presentation : Presentation) : outcome Presentation :=
  sl ← process_footers_from 0 (PptxModel.slides ppt_presentation);
  mret (with_slides ppt_presentation sl).

End base_pptx.

End Pptx.

(** ** [report/pptx.py] *)

Module Report.
Import Pptx.

Section report_pptx.
Context `{External}.

(** [str(value)] of a value interpolated in an f-string: a [str] stands for
    itself; the other values are not needed below and print as their type
    name. *)
Definition format_value (v : pyval) : string :=
  match v with
  | PStr s => s
  | PNone => "None"
  | PBool true => "True"
  | PBool false => "False"
  | PInt _ => "<int>"
  | PList _ => "<list>"
  | PDict _ => "<dict>"
  end.

(** A builder is a computation on [self.ppt_presentation]. *)
Abbreviation Export := (Stateful Presentation).

(** [self.ppt_presentation.slide_layouts[config.layout_index]] *)
Definition layout_at (layout_index : pyval) : Export SlideLayout :=
  fun prs => (index (slide_layouts prs) layout_index, prs).

(** [self.ppt_presentation.slides.add_slide(slide_layout)]: the new slide
    is the last slide of the deck. *)
Definition add_slide (slide_layout : SlideLayout) : Export unit :=
  fun prs =>
    (Ok tt, with_slides prs (PptxModel.slides prs ++ [new_slide slide_layout])).

(** A step on the slide that was just added; a step that raises leaves the
    slide as it found it. *)
Definition on_new_slide (f : Slide -> outcome Slide) : Export unit :=
  fun prs =>
    match reverse (PptxModel.slides prs) with
    | [] => (Raise IndexError, prs)
    | slide :: before =>
        match f slide with
        | Ok slide' => (Ok tt, with_slides prs (reverse before ++ [slide']))
        | Raise e => (Raise e, prs)
        end
    end.

Fixpoint for_each {A} (body : A -> Export unit) (items : list A) : Export unit :=
  match items with
  | [] => mret tt
  | x :: rest => body x;; for_each body rest
  end.

(** [for ev in item.get("evidence", []): HtmlToPptxWithEvidence.make_evidence(slide, ev)] *)
Definition insert_evidence (item : pyval) : Export unit :=
  evidence ← lift (get item "evidence" (PList []) ≫= iterate);
  for_each (fun ev => on_new_slide (fun slide => make_evidence slide ev)) evidence.

(** [for shape in slide.shapes: render_jinja2_in_shape(shape, self.jinja_env, context)]:
    three arguments, no [slide]. The exception comes from the call itself,
    before any shape is changed. *)
Definition render_item_shapes (context : pydict) (slide : Slide) : outcome Slide :=
  render_shapes (fun shape => render_jinja2_in_shape shape context None) slide.

(** *** [create_observation_slides] *)

Definition observation_context (observation : pyval) : outcome pydict :=
  title ← get observation "title" (PStr EmptyString);
  description ← get observation "description" (PStr EmptyString);
  mret [ ("title", title);
         ("description", PStr (prepare_for_pptx description)) ].

Definition create_observation_slide (config : SlideMapping.SlideConfig)
    (observation : pyval) : Export unit :=
  slide_layout ← layout_at (SlideMapping.layout_index config);
  add_slide slide_layout;;
  observation_context ← lift (observation_context observation);
  on_new_slide (render_item_shapes observation_context);;
  insert_evidence observation.

Definition create_observation_slides (config : SlideMapping.SlideConfig)
    (base_context : pydict) : Export unit :=
  if eq_str (SlideMapping.mode config) "static" then mret tt
  else
    observations ← lift (getitem (PDict base_context) "observations" ≫= iterate);
    for_each (create_observation_slide config) observations.

(** *** [create_finding_slides] *)

Definition finding_context (finding : pyval) : outcome pydict :=
  title ← get finding "title" (PStr EmptyString);
  severity ← get finding "severity" (PStr EmptyString);
  description ← get finding "description" (PStr EmptyString);
  impact ← get finding "impact" (PStr EmptyString);
  affected_entities ← get finding "affected_entities" (PStr EmptyString);
  recommendation ← get finding "recommendation" (PStr EmptyString);
  replication_steps ← get finding "replication_steps" (PStr EmptyString);
  host_detection ← get finding "host_detection_techniques" (PStr EmptyString);
  network_detection ← get finding "network_detection_techniques" (PStr EmptyString);
  references ← get finding "references" (PStr EmptyString);
  cvss_score ← get finding "cvss_score" (PStr EmptyString);
  cvss_vector ← get finding "cvss_vector" (PStr EmptyString);
  mret [ ("title", title);
         ("severity", severity);
         ("description", PStr (prepare_for_pptx description));
         ("impact", PStr (prepare_for_pptx impact));
         ("affected_entities", PStr (prepare_for_pptx affected_entities));
         ("mitigation", PStr (prepare_for_pptx recommendation));
         ("recommendation", PStr (prepare_for_pptx recommendation));
         ("replication", PStr (prepare_for_pptx replication_steps));
         ("replication_steps", PStr (prepare_for_pptx replication_steps));
         ("host_detection", PStr (prepare_for_pptx host_detection));
         ("network_detection", PStr (prepare_for_pptx network_detection));
         ("references", PStr (prepare_for_pptx references));
         ("cvss_score", cvss_score);
         ("cvss_vector", cvss_vector) ].

(** Sixteen spaces replaced by nothing: of every run of spaces, the whole groups of
    sixteen go. *)
Fixpoint spaces (n : nat) : string :=
  match n with
  | O => EmptyString
  | S n' => String " " (spaces n')
  end.

Fixpoint strip_indent (pending : nat) (s : string) : string :=
  match s with
  | EmptyString => spaces pending
  | String a rest =>
      if bool_decide (a = " "%char) then
        if bool_decide (S pending = 16%nat) then strip_indent 0 rest
        else strip_indent (S pending) rest
      else spaces pending +:+ String a (strip_indent 0 rest)
  end.

Definition nl : string := String (ascii_of_nat 10) EmptyString.

Definition indent : string := spaces 16.

(** The fields of the notes, read before the notes paragraph is added. *)
Definition notes_fields (finding : pyval) : outcome (list string) :=
  entities ← prepare_for_pptx <$> getitem finding "affected_entities";
  impact ← prepare_for_pptx <$> getitem finding "impact";
  host_detection ← prepare_for_pptx <$> getitem finding "host_detection_techniques";
  net_detection ← prepare_for_pptx <$> getitem finding "network_detection_techniques";
  recommendation ← prepare_for_pptx <$> getitem finding "recommendation";
  replication ← prepare_for_pptx <$> getitem finding "replication_steps";
  references ← prepare_for_pptx <$> getitem finding "references";
  mret [entities; impact; recommendation; replication; host_detection;
        net_detection; references].

Definition notes_section (heading : string) (body : string) : string :=
  indent +:+ heading +:+ nl +:+ indent +:+ body +:+ nl.

(** The f-string of the notes, after [.replace]. *)
Definition notes_text (finding : pyval) (fields : list string) : outcome string :=
  severity ← getitem finding "severity";
  severity ← match severity with
             | PStr s => Ok (capitalize s)
             | _ => Raise AttributeError
             end;
  title ← format_value <$> getitem finding "title";
  let field i := default EmptyString (fields !! i) in
  mret (strip_indent 0
          (nl +:+ indent +:+ severity +:+ ": " +:+ title +:+ nl +:+ nl +:+
           notes_section "AFFECTED ENTITIES" (field 0%nat) +:+ nl +:+
           notes_section "IMPACT" (field 1%nat) +:+ nl +:+
           notes_section "MITIGATION" (field 2%nat) +:+ nl +:+
           notes_section "REPLICATION" (field 3%nat) +:+ nl +:+
           notes_section "HOST DETECTION" (field 4%nat) +:+ nl +:+
           notes_section "NETWORK DETECTION" (field 5%nat) +:+ nl +:+
           notes_section "REFERENCES" (field 6%nat) +:+
           spaces 12)).

(** [p = text_frame.add_paragraph()] on the notes of the slide. *)
Definition add_notes_paragraph (slide : Slide) : outcome Slide :=
  Ok (mkSlide (slide_layout slide) (shapes slide)
        (notes_text_frame slide ++ [empty_paragraph])).

(** [p.text = ...] on that paragraph. *)
Definition set_notes_text (finding : pyval) (fields : list string) (slide : Slide)
    : outcome Slide :=
  text ← notes_text finding fields;
  match reverse (notes_text_frame slide) with
  | [] => Raise IndexError
  | p :: before =>
      mret (mkSlide (slide_layout slide) (shapes slide)
              (reverse before ++ [set_paragraph_text p text]))
  end.

Definition write_notes (finding : pyval) : Export unit :=
  fields ← lift (notes_fields finding);
  on_new_slide add_notes_paragraph;;
  on_new_slide (set_notes_text finding fields).

Definition create_finding_slide (config : SlideMapping.SlideConfig)
    (finding : pyval) : Export unit :=
  slide_layout ← layout_at (SlideMapping.layout_index config);
  add_slide slide_layout;;
  finding_context ← lift (finding_context finding);
  on_new_slide (render_item_shapes finding_context);;
  insert_evidence finding;;
  write_notes finding.

Definition create_finding_slides (config : SlideMapping.SlideConfig)
    (base_context : pydict) : Export unit :=
  if eq_str (SlideMapping.mode config) "static" then mret tt
  else
    findings ← lift (getitem (PDict base_context) "findings" ≫= iterate);
    for_each (create_finding_slide config) findings.

End report_pptx.

End Report.

(** ** The exporters: [ExportBasePptx], [ExportReportPptx], [ExportProjectPptx] *)

Module Exporters.
Import SlideMapping Pptx Report.

(** A method of an exporter is a computation on [self.ppt_presentation]. *)
Abbreviation Export := (Stateful Presentation).

(** What the exporters call besides the collaborators of [External]. *)
Class Runtime : Type := {
  (** [str(v)], the text an f-string puts for a value *)
  str : pyval -> string;
  (** [str(error)] for an exception *)
  error_text : exn -> string;
  (** [os.path.exists] *)
  path_exists : pyval -> bool;
  (** [Presentation(path)] *)
  open_presentation : loader;
  (** What the builder of a slide type draws on its new slide in dynamic
      mode: titles, bullets and tables laid out with python-pptx from
      [self.data], [base_context] and [jinja_context]. The result is the
      slide after the drawing, or the exception the drawing ends with. *)
  draw_slide : string -> pydict -> pydict -> Slide -> outcome Slide
}.

Section exporters.
Context `{External} `{Runtime}.

(** *** [ExportBasePptx] *)

(** The two fields of the exporter the slide code works with. *)
Record ExportBasePptx : Type := mkExporter {
  ppt_presentation : Presentation;
  slide_mapping_manager : SlideMappingManager
}.

(** [ExportBasePptx.__init__], from the loading of the template on:
    [PackageNotFoundError] is raised again as [ReportExportTemplateError],
    any other exception as it is, and the manager is built on the loaded
    presentation. [document_path] is [report_template.document.path] and
    [slide_mapping] is [report_template.slide_mapping]. The call of
    [super().__init__] before, and the database read
    [CompanyInformation.get_solo()] in between, are left out. *)
Definition init_exporter (document_path slide_mapping : pyval) : outcome ExportBasePptx :=
  ppt_presentation ←
    match open_presentation document_path with
    | Ok prs => Ok prs
    | Raise PackageNotFoundError => Raise (OtherError "ReportExportTemplateError")
    | Raise e => Raise e
    end;
  slide_mapping_manager ← __init__ slide_mapping (Some ppt_presentation);
  mret (mkExporter ppt_presentation slide_mapping_manager).


(** U+2013, the dash of the messages, is the bytes 226 128 147 in UTF-8. *)
Definition en_dash : string :=
  String (ascii_of_nat 226) (String (ascii_of_nat 128)
    (String (ascii_of_nat 147) EmptyString)).

(** The messages of [lint]. *)
Definition missing_template_error : fstring :=
  [Lit ("Template file does not exist " +:+ en_dash +:+ " upload it again")].

Definition template_slides_warning : fstring :=
  [Lit ("Template contains slides. If using static slide layouts, this is acceptable. " +:+
        "Ensure your slide master contains the layouts you want to reference.")].

(** The two handlers of [lint]: [ReportExportTemplateError] has a message
    of its own, every other exception the general one. *)
Definition lint_failure (e : exn) : fstring :=
  match e with
  | OtherError name =>
      if bool_decide (name = "ReportExportTemplateError")
      then [Lit "Linting failed: "; Val (PStr (error_text e))]
      else [Lit "Template rendering failed unexpectedly"]
  | _ => [Lit "Template rendering failed unexpectedly"]
  end.

(** The checks of [lint] after the file was found, on the lists [warnings]
    and [errors]. [report_template] is [None] for Python's [None] and
    otherwise holds [report_template.slide_mapping]. *)
Definition lint_checks (template_loc : pyval) (report_template : option pyval)
    : Stateful (list fstring * list fstring) unit :=
  template_document ← lift (open_presentation template_loc);
  let slide_count := Z.of_nat (length (PptxModel.slides template_document)) in
  (if 0 <? slide_count
   then modify (fun '(warnings, errors) => (warnings ++ [template_slides_warning], errors))
   else mret tt);;
  match report_template with
  | Some slide_mapping =>
      if truthy slide_mapping then
        manager ← lift (__init__ slide_mapping (Some template_document));
        '(mapping_warnings, mapping_errors) ← lift (validate manager).1;
        modify (fun '(warnings, errors) =>
                  (warnings ++ mapping_warnings, errors ++ mapping_errors))
      else mret tt
  | None => mret tt
  end.

(** [ExportBasePptx.lint]: returns [(warnings, errors)]. *)
Definition lint (template_loc : pyval) (report_template : option pyval)
    : list fstring * list fstring :=
  if negb (path_exists template_loc) then ([], [missing_template_error])
  else
    match lint_checks template_loc report_template ([], []) with
    | (Ok _, (warnings, errors)) => (warnings, errors)
    | (Raise e, (warnings, errors)) => (warnings, errors ++ [lint_failure e])
    end.



(** *** The builders of single slides *)

(** [create_static_slide(self.ppt_presentation, config.layout_index,
    self.jinja_env, jinja_context)], the returned slide dropped. *)
Definition static_slide (config : SlideConfig) (jinja_context : pydict) : Export unit :=
  fun prs =>
    let '(result, prs') := create_static_slide prs (layout_index config) jinja_context in
    ((fun _ => tt) <$> result, prs').

(** Every builder of a single slide has the same frame: in static mode the
    slide is a static slide and the builder returns; otherwise a slide is
    added on the layout at [config.layout_index] and the builder draws on
    it. *)
Definition single_slide (slide_type : string) (config : SlideConfig)
    (base_context jinja_context : pydict) : Export unit :=
  if eq_str (mode config) "static" then static_slide config jinja_context
  else
    slide_layout ← layout_at (layout_index config);
    add_slide slide_layout;;
    on_new_slide (draw_slide slide_type base_context jinja_context).

(** [ProjectSlidesMixin] *)
Definition create_title_slide := single_slide "title".
Definition create_agenda_slide := single_slide "agenda".
Definition create_introduction_slide := single_slide "introduction".
Definition create_assessment_details_slide := single_slide "assessment_details".
Definition create_methodology_slide := single_slide "methodology".
Definition create_timeline_slide := single_slide "timeline".
Definition create_attack_path_slide := single_slide "attack_path".

(** [ExportReportPptx] *)
Definition create_observations_overview_slide := single_slide "observations_overview".
Definition create_findings_overview_slide := single_slide "findings_overview".
Definition create_recommendations_slide := single_slide "recommendations".
Definition create_next_steps_slide := single_slide "next_steps".
Definition create_final_slide := single_slide "final".

(** *** [run] *)

(** The loop of [run] over the configured slides, [route] being the chain
    of tests on the slide type. *)
Definition add_slides (route : SlideConfig -> Export unit)
    (slides_config : list SlideConfig) : Export unit :=
  for_each
    (fun slide_config =>
       if negb (truthy (enabled slide_config)) then mret tt
       else route slide_config)
    slides_config.

(** The routing of [ExportReportPptx.run]. *)
Definition report_route (base_context jinja_context : pydict)
    (slide_config : SlideConfig) : Export unit :=
  let slide_type := type slide_config in
  if eq_str slide_type "title" then
    create_title_slide slide_config base_context jinja_context
  else if eq_str slide_type "agenda" then
    create_agenda_slide slide_config base_context jinja_context
  else if eq_str slide_type "introduction" then
    create_introduction_slide slide_config base_context jinja_context
  else if eq_str slide_type "assessment_details" then
    create_assessment_details_slide slide_config base_context jinja_context
  else if eq_str slide_type "methodology" then
    create_methodology_slide slide_config base_context jinja_context
  else if eq_str slide_type "timeline" then
    create_timeline_slide slide_config base_context jinja_context
  else if eq_str slide_type "attack_path" then
    create_attack_path_slide slide_config base_context jinja_context
  else if eq_str slide_type "observations_overview" then
    create_observations_overview_slide slide_config base_context jinja_context
  else if eq_str slide_type "observation" then
    create_observation_slides slide_config base_context
  else if eq_str slide_type "findings_overview" then
    create_findings_overview_slide slide_config base_context jinja_context
  else if eq_str slide_type "finding" then
    create_finding_slides slide_config base_context
  else if eq_str slide_type "recommendations" then
    create_recommendations_slide slide_config base_context jinja_context
  else if eq_str slide_type "next_steps" then
    create_next_steps_slide slide_config base_context jinja_context
  else if eq_str slide_type "final" then
    create_final_slide slide_config base_context jinja_context
  else if eq_str (mode slide_config) "static" then
    static_slide slide_config jinja_context
  else mret tt.

(** The routing of [ExportProjectPptx.run]. *)
Definition project_route (base_context jinja_context : pydict)
    (slide_config : SlideConfig) : Export unit :=
  let slide_type := type slide_config in
  if eq_str slide_type "title" then
    create_title_slide slide_config base_context jinja_context
  else if eq_str slide_type "agenda" then
    create_agenda_slide slide_config base_context jinja_context
  else if eq_str slide_type "introduction" then
    create_introduction_slide slide_config base_context jinja_context
  else if eq_str slide_type "assessment_details" then
    create_assessment_details_slide slide_config base_context jinja_context
  else if eq_str slide_type "methodology" then
    create_methodology_slide slide_config base_context jinja_context
  else if eq_str slide_type "timeline" then
    create_timeline_slide slide_config base_context jinja_context
  else if eq_str slide_type "attack_path" then
    create_attack_path_slide slide_config base_context jinja_context
  else if eq_str (mode slide_config) "static" then
    static_slide slide_config jinja_context
  else mret tt.

(** [run]: the slides are added in the order of [get_slides_by_position],
    the footers are processed, and the deck is saved. The result is the
    saved deck, or the exception that left the call, that of [sorted]
    included; it is [None] when the order of the slides is outside the
    model of [sorted], which is when all positions are lists. [base_context] is
    [self.map_rich_texts()], [jinja_context] is [self.get_slide_context()]. *)
Definition run (route : pydict -> pydict -> SlideConfig -> Export unit)
    (slide_mapping_manager : SlideMappingManager) (base_context jinja_context : pydict)
    (ppt_presentation : Presentation) : option (outcome Presentation) :=
  match (get_slides_by_position slide_mapping_manager).1 with
  | Ok (Some slides_config) =>
      Some
        match add_slides (route base_context jinja_context) slides_config
                ppt_presentation with
        | (Ok _, ppt_presentation) => process_footers ppt_presentation
        | (Raise e, _) => Raise e
        end
  | Ok None => None
  | Raise e => Some (Raise e)
  end.

(** [ExportReportPptx.run] and [ExportProjectPptx.run] *)
Definition report_run := run report_route.

Definition project_run := run project_route.

End exporters.

End Exporters.

(** * Vocabulary of the properties, and data to run the model on *)

Module SlideMappingSpec.
Import SlideMapping.

Definition default_config (ty : string) (li : Z) (pos : Z) : SlideConfig :=
  mkSlideConfig (PStr ty) (PInt li) (PStr "dynamic") (PBool true) (PInt pos).

(** The slide list of the built-in default mapping. *)
Definition default_slides : list SlideConfig :=
  [ default_config "title" 0 1;
    default_config "agenda" 1 2;
    default_config "introduction" 1 3;
    default_config "assessment_details" 1 4;
    default_config "methodology" 1 5;
    default_config "timeline" 1 6;
    default_config "attack_path" 1 7;
    default_config "observations_overview" 1 8;
    default_config "observation" 1 9;
    default_config "findings_overview" 1 10;
    default_config "finding" 1 11;
    default_config "recommendations" 1 12;
    default_config "next_steps" 1 13;
    default_config "final" 12 14 ].

(** What [_parse_slides] keeps of an entry. *)
Definition parsed (s : pyval) : option SlideConfig :=
  match from_dict s with
  | Ok c => Some c
  | Raise _ => None
  end.

(** A template with two layouts, and the default mapping bound to it. *)
Definition two_layouts : Presentation :=
  mkPresentation [mkSlideLayout "Title Slide" []; mkSlideLayout "Title and Content" []] [].

Definition default_manager : SlideMappingManager :=
  mkManager (Some two_layouts) DEFAULT_MAPPING default_slides.

(** Order and selection on items paired with their integer key. *)
Definition key_le {A : Type} (a b : Z * A) : Prop := a.1 <= b.1.

Definition has_key {A : Type} (j : Z) (a : Z * A) : bool := a.1 =? j.

(** Order of two items by their integer keys. *)
Definition int_key_le {A : Type} (key : A -> pyval) (a b : A) : Prop :=
  exists i j, as_int (key a) = Some i /\ as_int (key b) = Some j /\ i <= j.

(** The items whose key is the integer [j]. *)
Definition key_is {A : Type} (key : A -> pyval) (j : Z) (a : A) : bool :=
  bool_decide (as_int (key a) = Some j).

Definition keyed_by {A : Type} (key : A -> pyval) (ks : list (Z * A)) : Prop :=
  Forall (fun p => as_int (key p.2) = Some p.1) ks.

Definition is_enabled (s : SlideConfig) : bool := truthy (enabled s).

(** A slide list with a disabled entry and ties in position. *)
Definition mixed_slides : list SlideConfig :=
  [ mkSlideConfig (PStr "finding") (PInt 1) (PStr "dynamic") (PBool true) (PInt 2);
    mkSlideConfig (PStr "agenda") (PInt 1) (PStr "dynamic") (PBool false) (PInt 1);
    mkSlideConfig (PStr "title") (PInt 0) (PStr "dynamic") (PBool true) (PInt 1);
    mkSlideConfig (PStr "final") (PInt 1) (PStr "static") (PBool true) (PInt 2);
    mkSlideConfig (PStr "custom_a") (PInt 1) (PStr "static") (PBool true) (PInt 1) ].

Definition mixed_manager : SlideMappingManager :=
  mkManager None [("version", PInt 1)] mixed_slides.

(** The result of [validate] as a function of the manager. *)
Definition validate_result (m : SlideMappingManager)
    : outcome (list fstring * list fstring) :=
  dup ← duplicate_warnings (slides m);
  unknown ← unknown_type_warnings (slides m);
  mret (dup ++ unknown ++ required_type_warnings m,
        match presentation m with
        | Some prs =>
            layout_index_errors (layout_count prs) (slides m)
              (invalid_mode_errors (slides m))
        | None => invalid_mode_errors (slides m)
        end).

(** Kinds of message. *)
Definition is_duplicate_warning (w : fstring) : bool :=
  match w with
  | [Lit s] => bool_decide (s = "Duplicate position values found in slide mapping")
  | _ => false
  end.

Definition is_invalid_mode_message (e : fstring) : bool :=
  match e with
  | [Lit a; Val _; Lit b; Val _] =>
      bool_decide (a = "Invalid mode '") && bool_decide (b = "' for slide type ")
  | _ => false
  end.

Definition is_required_warning (req_type : string) (w : fstring) : bool :=
  match w with
  | [Lit a; Val (PStr t); Lit b] =>
      bool_decide (a = "Required slide type '") && bool_decide (t = req_type)
      && bool_decide (b = "' is not enabled")
  | _ => false
  end.

(** The set elements [validate] builds from the enabled positions. *)
Definition position_keys (sl : list SlideConfig) : outcome (list hkey) :=
  traverse hash_key (position <$> List.filter is_enabled sl).

Definition is_unknown_warning (w : fstring) : Prop :=
  exists s, w = unknown_type_warning s.

Definition entry (ty : string) (li : Z) (mo : string) (en : bool) (pos : Z) : pyval :=
  PDict [ ("type", PStr ty); ("layout_index", PInt li); ("mode", PStr mo);
          ("enabled", PBool en); ("position", PInt pos) ].

Definition config (ty : string) (li : Z) (mo : string) (en : bool) (pos : Z)
    : SlideConfig :=
  mkSlideConfig (PStr ty) (PInt li) (PStr mo) (PBool en) (PInt pos).

(** A document with two enabled entries at position 3, one entry in mode
    [dynamic-ish], and [final] disabled. *)
Definition flawed_document : pyval :=
  PDict [ ("version", PInt 1);
          ("slides", PList
             [ entry "title" 0 "dynamic" true 1;
               entry "agenda" 1 "dynamic-ish" true 3;
               entry "introduction" 1 "dynamic" true 3;
               entry "final" 12 "dynamic" false 14 ]) ].

Definition flawed_manager : SlideMappingManager :=
  mkManager None
    [ ("version", PInt 1);
      ("slides", PList
         [ entry "title" 0 "dynamic" true 1;
           entry "agenda" 1 "dynamic-ish" true 3;
           entry "introduction" 1 "dynamic" true 3;
           entry "final" 12 "dynamic" false 14 ]) ]
    [ config "title" 0 "dynamic" true 1;
      config "agenda" 1 "dynamic-ish" true 3;
      config "introduction" 1 "dynamic" true 3;
      config "final" 12 "dynamic" false 14 ].

End SlideMappingSpec.

Module PptxSpec.
Import Pptx.

(** The runs among the content of a paragraph. *)
Definition item_runs (items : list Inline) : list Run :=
  omap (fun i => match i with IRun r => Some r | _ => None end) items.





(** A title with a bold first run, a line break and a second run, followed
    by a second paragraph. *)
Definition bold_font : Font := mkFont (Some "Arial") (Some 24) (Some true) None None ColorNone.

Definition hello_shape : Shape :=
  mkShape "Title 1" (Some (mkPlaceholderFormat 0 PH_TITLE))
    (Some [ mkParagraph [IRun (mkRun "Hello" bold_font); IBreak;
                         IRun (mkRun " world" default_font)] (Some 2) 0;
            mkParagraph [IRun (mkRun "subtitle" default_font)] None 1 ])
    None None.

(** A small instance of the collaborators, for running the model: the
    renderer knows one template, [Finding: {{ title }}], and the converter
    does nothing. *)
Definition toy_render (text : string) (context : pydict) : outcome string :=
  if bool_decide (text = "Finding: {{ title }}") then
    match lookup_key "title" context with
    | Some (PStr v) => Ok ("Finding: " +:+ v)
    | _ => Raise UndefinedError
    end
  else Ok text.

Definition toy : External := {|
  jinja_render := toy_render;
  is_html := fun _ => false;
  html_to_pptx := fun _ st => (st, None);
  make_evidence := fun slide _ => Ok slide;
  soup_text := fun v => match v with PStr s => Ok s | _ => Raise TypeError end;
  today := "Nov. 3, 2026";
  next_ph_name := fun _ ph => shape_name ph;
  capitalize := fun s => s
|}.

#[local] Existing Instance toy.

(** A text frame whose second paragraph holds an expression split over two
    runs. *)
Definition finding_frame : TextFrame :=
  [ mkParagraph [IRun (mkRun "Summary" default_font)] None 0;
    mkParagraph [IRun (mkRun "Finding: " bold_font);
                 IRun (mkRun "{{ title }}" default_font)] (Some 1) 0;
    mkParagraph [IRun (mkRun "Details" default_font)] None 1 ].

(** Decks for [process_footers]. *)
Definition title_ph : Shape :=
  mkShape "Title 1" (Some (mkPlaceholderFormat 0 PH_TITLE)) (Some [empty_paragraph])
    None None.

Definition footer_ph : Shape :=
  mkShape "Footer Placeholder 4" (Some (mkPlaceholderFormat 11 PH_FOOTER))
    (Some [mkParagraph [IRun (mkRun "Confidential" default_font)] None 0]) None None.

Definition content_layout : SlideLayout :=
  mkSlideLayout "Title and Content" [title_ph; footer_ph].

Definition footer_first_layout : SlideLayout :=
  mkSlideLayout "Footer First" [footer_ph; title_ph].

Definition blank_layout : SlideLayout := mkSlideLayout "Blank" [].

Definition layouts : list SlideLayout :=
  [content_layout; footer_first_layout; blank_layout].

Definition one_slide_deck : Presentation :=
  mkPresentation layouts [new_slide content_layout].

Definition two_slide_deck : Presentation :=
  mkPresentation layouts [new_slide blank_layout; new_slide footer_first_layout].

Definition date_ph : Shape :=
  mkShape "Date Placeholder 3" (Some (mkPlaceholderFormat 10 PH_DATE))
    (Some [empty_paragraph]) None None.

Definition number_ph : Shape :=
  mkShape "Slide Number Placeholder 5" (Some (mkPlaceholderFormat 12 PH_SLIDE_NUMBER))
    (Some [empty_paragraph]) None None.

Definition full_layout : SlideLayout :=
  mkSlideLayout "Full" [title_ph; date_ph; footer_ph; number_ph].

Definition footer_clone : Shape :=
  mkShape "Footer Placeholder 4" (Some (mkPlaceholderFormat 11 PH_FOOTER))
    (Some [mkParagraph [IRun (mkRun "Confidential" default_font)] None 0]) None None.

End PptxSpec.

Module ReportSpec.
Import Pptx Report PptxSpec.

(** A report with two findings and one observation, and an empty deck on the
    layouts above. *)
Definition finding_fields (title severity : string) : pydict :=
  [ ("title", PStr title); ("severity", PStr severity);
    ("description", PStr "<p>Description</p>");
    ("impact", PStr "Impact"); ("affected_entities", PStr "srv01");
    ("recommendation", PStr "Patch"); ("replication_steps", PStr "Steps");
    ("host_detection_techniques", PStr "Logs");
    ("network_detection_techniques", PStr "IDS");
    ("references", PStr "CWE-89"); ("evidence", PList []) ].

Definition finding (title severity : string) : pyval :=
  PDict (finding_fields title severity).

Definition report_context : pydict :=
  [ ("findings", PList [finding "SQL Injection" "high"; finding "Weak TLS" "low"]);
    ("observations",
     PList [PDict [("title", PStr "MFA enforced"); ("description", PStr "Good")]]) ].

Definition empty_deck : Presentation := mkPresentation layouts [].

Definition dynamic_config (ty : string) (li : Z) : SlideMapping.SlideConfig :=
  SlideMapping.mkSlideConfig (PStr ty) (PInt li) (PStr "dynamic") (PBool true) (PInt 1).

End ReportSpec.

(** Vocabulary for the lookups and for the result of [validate]. *)
Module ValidateSpec.
Import SlideMapping SlideMappingSpec.

(** The values [set] and [dict] accept as elements and keys. *)
Definition hashable (v : pyval) : bool :=
  match v with
  | PList _ | PDict _ => false
  | _ => true
  end.

(** An enabled entry whose layout index is a number the template does not
    have. *)
Definition out_of_range (n : Z) (s : SlideConfig) : bool :=
  is_enabled s &&
  match as_int (layout_index s) with
  | Some i => n <=? i
  | None => false
  end.

(** The entries before the first enabled entry whose layout index is not a
    number. *)
Fixpoint checked (sl : list SlideConfig) : list SlideConfig :=
  match sl with
  | [] => []
  | s :: rest =>
      if is_enabled s && negb (bool_decide (is_Some (as_int (layout_index s))))
      then []
      else s :: checked rest
  end.

(** A type that is neither in [SLIDE_TYPES] nor prefixed with [custom_]. *)
Definition unknown_type (s : SlideConfig) : bool :=
  match type s with
  | PStr t => negb (bool_decide (t ∈ SLIDE_TYPES.*1)) && negb (String.prefix "custom_" t)
  | _ => false
  end.

Definition layout_messages (n : Z) (sl : list SlideConfig) : list fstring :=
  (fun s => layout_index_error s n) <$> List.filter (out_of_range n) (checked sl).

(** The set element a hashable value stands for. *)
Definition key_of (v : pyval) : hkey :=
  match hash_key v with
  | Ok k => k
  | Raise _ => HNone
  end.

(** The warning for positions shared by enabled entries. *)
Definition duplicate_messages (sl : list SlideConfig) : list fstring :=
  if bool_decide (NoDup (key_of <$> (position <$> List.filter is_enabled sl))) then []
  else [duplicate_position_warning].

(** A mapping on the two-layout template: [agenda] points past the
    template, the index of [methodology] is a string, and [final], after
    it, points past the template too. *)
Definition unchecked_slides : list SlideConfig :=
  [ config "title" 0 "dynamic" true 1;
    config "agenda" 5 "dynamic" true 2;
    config "introduction" 7 "dynamic" false 3;
    mkSlideConfig (PStr "methodology") (PStr "1") (PStr "dynamic") (PBool true) (PInt 4);
    config "final" 12 "dynamic" true 5 ].

Definition unchecked_manager : SlideMappingManager :=
  mkManager (Some two_layouts) [("version", PInt 1)] unchecked_slides.

(** A mapping that fits the two-layout template. *)
Definition fitting_slides : list SlideConfig :=
  [ config "title" 0 "dynamic" true 1;
    config "custom_notes" 1 "static" true 2;
    config "agenda" 9 "dynamic" false 3;
    config "final" 1 "dynamic" true 4 ].

Definition fitting_manager : SlideMappingManager :=
  mkManager (Some two_layouts) [("version", PInt 1)] fitting_slides.

(** A manager with the slide list [sl] and everything else as in [m]. *)
Definition with_slide_list (m : SlideMappingManager) (sl : list SlideConfig)
    : SlideMappingManager :=
  mkManager (presentation m) (mapping_data m) sl.

End ValidateSpec.

(** Vocabulary for text copied from a layout and for rendered text. *)
Module RenderSpec.
Import Pptx PptxSpec.

(** A paragraph of the layout as it arrives on the slide: its runs with
    their fonts carried over and their texts as the run text setter stores
    them, its alignment and its level. *)
Definition copied (src_p : Paragraph) : Paragraph :=
  mkParagraph
    ((fun src_r =>
        IRun (mkRun (escape_ctrl_chars (run_text src_r)) (transplant_font (run_font src_r))))
       <$> runs src_p)
    (p_alignment src_p) (p_level src_p).

(** The render state of a text frame no paragraph of which was removed. *)
Definition frame_state (l : list Paragraph) : RenderState :=
  mkRenderState (tag_paragraphs l) [].

Section substitution.
Context `{External}.



End substitution.





(** Collaborators for which every rendered text is HTML and the converter
    fails at once. *)
Definition failing_converter : External := {|
  jinja_render := toy_render;
  is_html := fun _ => true;
  html_to_pptx := fun _ st => (st, Some ValueError);
  make_evidence := fun slide _ => Ok slide;
  soup_text := fun v => match v with PStr s => Ok s | _ => Raise TypeError end;
  today := "Nov. 3, 2026";
  next_ph_name := fun _ ph => shape_name ph;
  capitalize := fun s => s
|}.

Definition finding_title : Paragraph :=
  mkParagraph [IRun (mkRun "Finding: {{ title }}" bold_font)] (Some 1) 0.

(** What [process_footers] may do to a slide: append up to three shapes,
    each a clone of a placeholder of the slide's layout. *)
Definition clones_added (n : nat) (slide slide' : Slide) : Prop :=
  slide_layout slide' = slide_layout slide /\
  notes_text_frame slide' = notes_text_frame slide /\
  exists added,
    shapes slide' = shapes slide ++ added /\
    (length added <= n)%nat /\
    Forall (fun sh =>
              exists ph, ph ∈ layout_placeholders (slide_layout slide) /\
                         placeholder_format sh = placeholder_format ph) added.

Definition footers_added (slide slide' : Slide) : Prop := clones_added 3 slide slide'.

Definition carriage_return : string := String (ascii_of_nat 13) EmptyString.

(** Whether a layout index selects a layout of a template with [n]
    layouts: an integer from [-n] to [n - 1]. *)
Definition selects_layout (n : Z) (layout_index : pyval) : bool :=
  match as_int layout_index with
  | Some z => (- n <=? z) && (z <? n)
  | None => false
  end.

End RenderSpec.

(** Vocabulary for the exporters. *)
Module ExportSpec.
Import SlideMapping SlideMappingSpec ValidateSpec Pptx PptxSpec RenderSpec Report Exporters.


(** The warning of [lint] about slides in the template. *)
Definition slides_warning `{Runtime} (template_document : Presentation) : list fstring :=
  when (0 <? Z.of_nat (length (PptxModel.slides template_document)))
    [template_slides_warning].

(** The slide types [ExportProjectPptx.run] routes to a builder. *)
Definition project_types : list string :=
  [ "title"; "agenda"; "introduction"; "assessment_details"; "methodology";
    "timeline"; "attack_path" ].

(** An entry that [run] does something for, [known] being the slide types
    it routes to a builder: its type is one of them, or its mode is
    [static]. *)
Definition routed (known : list string) (c : SlideConfig) : bool :=
  match type c with
  | PStr t => bool_decide (t ∈ known)
  | _ => false
  end || eq_str (mode c) "static".

(** The per-item slide types, which make no slide in static mode. *)
Definition is_item_type (c : SlideConfig) : bool :=
  eq_str (type c) "observation" || eq_str (type c) "finding".

(** The layout an entry points to. *)
Definition layout_of (layouts : list SlideLayout) (c : SlideConfig) : option SlideLayout :=
  match index layouts (layout_index c) with
  | Ok layout => Some layout
  | Raise _ => None
  end.

(** A builder call that, given a layout index that selects a layout, puts
    exactly one slide at the end of the deck, on that layout. *)
Definition adds_one_slide (builder : Export unit) (layout_index : pyval) : Prop :=
  forall prs layout,
    index (slide_layouts prs) layout_index = Ok layout ->
    exists slide,
      builder prs =
        (Ok tt, mkPresentation (slide_layouts prs) (PptxModel.slides prs ++ [slide])) /\
      slide_layout slide = layout.

(** The drawing of a slide type returns, and keeps the slide on its
    layout. *)
Definition draws `{Runtime} (slide_type : string) (base_context jinja_context : pydict)
    : Prop :=
  forall slide,
    exists slide',
      draw_slide slide_type base_context jinja_context slide = Ok slide' /\
      slide_layout slide' = slide_layout slide.

(** An entry of a report mapping that makes one slide: not a per-item
    type, and either in static mode or of a known slide type whose drawing
    returns. *)
Definition one_slide_entry `{Runtime} (base_context jinja_context : pydict)
    (c : SlideConfig) : Prop :=
  is_item_type c = false /\
  (eq_str (mode c) "static" = true \/
   exists t, type c = PStr t /\ t ∈ SLIDE_TYPES.*1 /\ draws t base_context jinja_context).

(** A small runtime for running the model: every file exists and holds the
    two-layout template, and the dynamic builders draw nothing. *)
Definition toy_runtime : Runtime := {|
  str := format_value;
  error_text := fun _ => "error";
  path_exists := fun _ => true;
  open_presentation := fun _ => Ok two_layouts;
  draw_slide := fun _ _ _ slide => Ok slide
|}.



(** A mapping in static mode throughout, on the three layouts of
    [layouts]; [agenda] is disabled. *)
Definition static_slides : list SlideConfig :=
  [ config "title" 0 "static" true 2;
    config "finding" 1 "static" true 1;
    config "custom_summary" 2 "static" true 3;
    config "agenda" 7 "static" false 4 ].

Definition static_manager : SlideMappingManager :=
  mkManager (Some (mkPresentation layouts [])) [("version", PInt 1)] static_slides.

(** A mapping with entries [run] has no use for: a custom slide and an
    unknown type, both in dynamic mode. *)
Definition unrouted_slides : list SlideConfig :=
  [ config "custom_summary" 2 "dynamic" true 2;
    config "title" 0 "static" true 1;
    config "appendix" 1 "dynamic" true 3 ].

Definition unrouted_manager : SlideMappingManager :=
  mkManager (Some (mkPresentation layouts [])) [("version", PInt 1)] unrouted_slides.

(** A mapping that mixes the modes, and one with a finding entry after the
    title. *)
Definition mixed_mode_manager : SlideMappingManager :=
  mkManager (Some (mkPresentation layouts [])) [("version", PInt 1)]
    [ config "title" 0 "dynamic" true 1;
      config "agenda" 1 "static" true 2;
      config "final" 2 "dynamic" true 3 ].

Definition findings_manager : SlideMappingManager :=
  mkManager (Some (mkPresentation layouts [])) [("version", PInt 1)]
    [ config "title" 0 "dynamic" true 1;
      config "finding" 0 "dynamic" true 2;
      config "final" 2 "dynamic" true 3 ].


End ExportSpec.

(** * Properties *)

(** ** Slide mapping *)

Module SlideMappingProofs.
Import SlideMapping SlideMappingSpec.

Lemma parse_default : _parse_slides DEFAULT_MAPPING = Ok default_slides.
Proof. reflexivity. Qed.


Lemma getitem_ok_dict data k v :
  getitem data k = Ok v -> exists d, data = PDict d.
Proof. destruct data; simpl; try discriminate. eauto. Qed.

(** [from_dict] raises nothing but [KeyError] and [TypeError]. *)
Lemma from_dict_raises data e :
  from_dict data = Raise e -> e = KeyError \/ e = TypeError.
Proof.
  destruct data as [| | | | |d]; try (intros [= <-]; by right).
  unfold from_dict, getitem, get.
  destruct (lookup_key "type" d); simpl; [|intros [= <-]; by left].
  destruct (lookup_key "layout_index" d); simpl; [|intros [= <-]; by left].
  destruct (lookup_key "mode" d); simpl; [|intros [= <-]; by left].
  destruct (lookup_key "position" d); simpl; [discriminate|intros [= <-]; by left].
Qed.

(** The loop of [_parse_slides] never raises: it keeps, in order, the
    entries that parse. *)
Lemma parse_entries_omap items : parse_entries items = Ok (omap parsed items).
Proof.
  induction items as [|s rest IH]; [reflexivity|].
  simpl. rewrite IH. unfold parsed.
  destruct (from_dict s) as [c|e] eqn:Hs; simpl; [reflexivity|].
  destruct (from_dict_raises _ _ Hs) as [-> | ->]; reflexivity.
Qed.

Lemma from_dict_to_dict c : from_dict (config_to_dict c) = Ok c.
Proof. destruct c; reflexivity. Qed.

Lemma parse_entries_to_dict l : parse_entries (config_to_dict <$> l) = Ok l.
Proof.
  rewrite parse_entries_omap. f_equal.
  induction l as [|c l IH]; [reflexivity|].
  csimpl. rewrite IH. by destruct c.
Qed.

(** What [__init__] computes, case by case. *)
Lemma init_cases mapping_data prs :
  __init__ mapping_data prs =
    match mapping_data with
    | PDict d =>
        match iterate (dict_get d "slides" (PList [])) with
        | Ok items => Ok (mkManager prs d (omap parsed items))
        | Raise _ => Ok (mkManager prs DEFAULT_MAPPING default_slides)
        end
    | _ => Ok (mkManager prs DEFAULT_MAPPING default_slides)
    end.
Proof.
  unfold __init__.
  destruct mapping_data; try reflexivity.
  unfold _parse_slides.
  destruct (iterate _) as [items|e]; simpl; [|reflexivity].
  by rewrite parse_entries_omap.
Qed.

Lemma init_total mapping_data prs :
  exists m, __init__ mapping_data prs = Ok m.
Proof.
  rewrite init_cases.
  destruct mapping_data; try (by eexists).
  destruct (iterate _); by eexists.
Qed.

Lemma init_of_to_dict m prs :
  __init__ (to_dict m) prs =
    Ok (mkManager prs
          [ ("version", dict_get (mapping_data m) "version" (PInt 1));
            ("slides", PList (config_to_dict <$> slides m)) ]
          (slides m)).
Proof.
  unfold __init__, to_dict, _parse_slides. simpl.
  by rewrite parse_entries_to_dict.
Qed.

(** C1, as the code has it. Construction never raises. It yields the
    built-in default list of 14 entries (first [title], last [final]) when
    [mapping_data] is [None] or not a dict, and when the value under
    ['slides'] cannot be iterated. When the ['slides'] key is missing the
    slide list is empty, and an entry that does not parse (a required
    field is missing, or the entry is not a dict) is skipped while the
    other entries are kept in document order. *)
Theorem init_never_raises_default_or_skip (mapping_data : pyval)
    (prs : option Presentation) :
  exists m,
    __init__ mapping_data prs = Ok m /\
    slides m =
      match mapping_data with
      | PDict d =>
          match lookup_key "slides" d with
          | None => []
          | Some slides_data =>
              match iterate slides_data with
              | Ok items => omap parsed (items : list pyval)
              | Raise _ => default_slides
              end
          end
      | _ => default_slides
      end /\
    List.length default_slides = 14%nat /\
    (type <$> head default_slides) = Some (PStr "title") /\
    (type <$> last default_slides) = Some (PStr "final").
Proof.
  rewrite init_cases.
  destruct mapping_data as [| | | | |d]; try (eexists; by repeat split).
  unfold dict_get.
  destruct (lookup_key "slides" d) as [v|]; [|eexists; by repeat split].
  destruct (iterate v); eexists; by repeat split.
Qed.

(** C1 as stated fails on two of its three kinds of input: a dict without
    ['slides'] gives an empty slide list, and a document with an entry
    that lacks [position] keeps its other entries; neither manager holds
    the default list. *)
Lemma init_malformed_not_default :
  let no_slides_key := PDict [("version", PInt 1)] in
  let entry_without_position :=
    PDict [("type", PStr "agenda"); ("layout_index", PInt 1);
           ("mode", PStr "dynamic"); ("enabled", PBool true)] in
  let one_bad_entry :=
    PDict [("version", PInt 1);
           ("slides", PList [entry_without_position; default_entry "title" 0 1])] in
  (exists m, __init__ no_slides_key None = Ok m /\ slides m = [] /\
             slides m <> default_slides) /\
  (exists m, __init__ one_bad_entry None = Ok m /\
             slides m = [default_config "title" 0 1] /\
             slides m <> default_slides).
Proof.
  split; eexists; (split; [reflexivity|]); split; [reflexivity|discriminate | reflexivity | discriminate].
Qed.

(** C8. Building a manager from any document, exporting it with
    [to_dict] and building a second manager from the export gives the same
    slide list: same length and, entry by entry, the same type,
    layout_index, mode, enabled and position. Neither construction
    raises. *)
Theorem to_dict_round_trip (D : pyval) (prs prs' : option Presentation) :
  exists m1 m2,
    __init__ D prs = Ok m1 /\
    __init__ (to_dict m1) prs' = Ok m2 /\
    slides m2 = slides m1 /\
    to_dict m2 = to_dict m1.
Proof.
  destruct (init_total D prs) as [m1 H1].
  exists m1. eexists. split; [exact H1|].
  split; [apply init_of_to_dict|]. split; reflexivity.
Qed.

(** C5. [get_layout_index] returns the fallback when the type has no
    entry, when its entry is disabled, and, with a bound presentation,
    when the configured layout index is at or above the number of layouts
    or is not a number (the comparison then raises and the handler returns
    the fallback); otherwise (entry found and enabled, and either no
    presentation is bound or the index is a number below the layout count)
    it returns the configured index. *)
Theorem get_layout_index_fallback (m : SlideMappingManager)
    (slide_type : string) (fallback : pyval) :
  (get_slide_config m slide_type = None ->
     get_layout_index m slide_type fallback = fallback) /\
  (forall config,
     get_slide_config m slide_type = Some config ->
     truthy (enabled config) = false ->
     get_layout_index m slide_type fallback = fallback) /\
  (forall config prs i,
     get_slide_config m slide_type = Some config ->
     presentation m = Some prs ->
     as_int (layout_index config) = Some i ->
     layout_count prs <= i ->
     get_layout_index m slide_type fallback = fallback) /\
  (forall config prs,
     get_slide_config m slide_type = Some config ->
     presentation m = Some prs ->
     as_int (layout_index config) = None ->
     get_layout_index m slide_type fallback = fallback) /\
  (forall config,
     get_slide_config m slide_type = Some config ->
     truthy (enabled config) = true ->
     (presentation m = None \/
      exists prs i, presentation m = Some prs /\
                    as_int (layout_index config) = Some i /\
                    i < layout_count prs) ->
     get_layout_index m slide_type fallback = layout_index config).
Proof.
  unfold get_layout_index, ge_int.
  repeat split.
  - by intros ->.
  - by intros config -> ->.
  - intros config prs i -> -> -> Hi.
    destruct (truthy (enabled config)); simpl; [|done].
    by rewrite (proj2 (Z.leb_le _ _) Hi).
  - intros config prs -> -> ->. by destruct (truthy (enabled config)).
  - intros config -> -> [-> | (prs & i & -> & -> & Hi)]; simpl; [done|].
    by rewrite (proj2 (Z.leb_gt _ _) Hi).
Qed.

(** An enabled entry whose layout index is the string ["1"], on a template
    with two layouts: the index is not at or above the layout count, and
    yet the fallback is returned, not the configured index. *)
Lemma get_layout_index_string_index :
  let document :=
    PDict [ ("version", PInt 1);
            ("slides", PList
               [ PDict [ ("type", PStr "agenda"); ("layout_index", PStr "1");
                         ("mode", PStr "dynamic"); ("enabled", PBool true);
                         ("position", PInt 2) ] ]) ] in
  exists m config,
    __init__ document (Some two_layouts) = Ok m /\
    get_slide_config m "agenda" = Some config /\
    truthy (enabled config) = true /\
    layout_index config = PStr "1" /\
    ge_int (layout_index config) (layout_count two_layouts) = Raise TypeError /\
    get_layout_index m "agenda" (PInt 0) = PInt 0 /\
    get_layout_index m "agenda" (PInt 0) <> layout_index config.
Proof.
  intros document. eexists _, _.
  split; [reflexivity|]. split; [reflexivity|]. split; [reflexivity|].
  split; [reflexivity|]. split; [reflexivity|]. split; [reflexivity|]. discriminate.
Qed.

(** The default mapping on a template with two layouts: [agenda] keeps
    its layout 1, [final] (layout 12) falls back, an unmapped type falls
    back. *)
Lemma get_layout_index_fallback_witness :
  get_layout_index default_manager "agenda" (PInt 0) = PInt 1 /\
  get_layout_index default_manager "final" (PInt 1) = PInt 1 /\
  get_layout_index default_manager "custom_x" (PInt 7) = PInt 7.
Proof.
  pose proof (get_layout_index_fallback default_manager "agenda" (PInt 0))
    as (_ & _ & _ & _ & Hin).
  pose proof (get_layout_index_fallback default_manager "final" (PInt 1))
    as (_ & _ & Hout & _).
  pose proof (get_layout_index_fallback default_manager "custom_x" (PInt 7))
    as (Hnone & _).
  split; [|split].
  - apply (Hin (default_config "agenda" 1 2)); [reflexivity | reflexivity |].
    right. exists two_layouts, 1. repeat split.
  - apply (Hout (default_config "final" 12 14) two_layouts 12);
      [reflexivity | reflexivity | reflexivity |].
    unfold layout_count. simpl. lia.
  - apply Hnone. reflexivity.
Defined.

(** A layout index that is not a number makes the comparison raise; the
    handler returns the fallback. *)
Lemma get_layout_index_not_a_number m slide_type fallback config prs :
  get_slide_config m slide_type = Some config ->
  presentation m = Some prs ->
  as_int (layout_index config) = None ->
  get_layout_index m slide_type fallback = fallback.
Proof.
  unfold get_layout_index, ge_int. intros -> -> ->.
  by destruct (truthy (enabled config)).
Qed.

Lemma collect_layouts_imap idx ls layouts :
  collect_layouts idx ls layouts =
    layouts ++ imap (fun i layout => layout_entry (idx + Z.of_nat i) layout) ls.
Proof.
  revert idx layouts.
  induction ls as [|layout rest IH]; intros idx layouts; simpl.
  - by rewrite app_nil_r.
  - rewrite IH, <- app_assoc. simpl. rewrite Z.add_0_r.
    do 2 f_equal. apply imap_ext. intros i x _. simpl. f_equal. lia.
Qed.

(** C10. [extract_layouts_from_pptx] never raises. When the template
    loads, the result has one [{'index', 'name'}] entry per layout, in
    template order and numbered from 0; when loading raises, the result is
    the empty list. *)
Theorem extract_layouts_never_raises (Presentation_ : loader) (pptx_path : pyval) :
  exists layouts,
    extract_layouts_from_pptx Presentation_ pptx_path = Ok layouts /\
    match Presentation_ pptx_path with
    | Ok prs =>
        length layouts = length (slide_layouts prs) /\
        forall i : nat,
          layouts !! i =
            (fun layout => PDict [ ("index", PInt (Z.of_nat i));
                                   ("name", PStr (layout_name layout)) ])
              <$> slide_layouts prs !! i
    | Raise _ => layouts = []
    end.
Proof.
  unfold extract_layouts_from_pptx.
  destruct (Presentation_ pptx_path) as [prs|e]; simpl; [|by eexists].
  eexists. split; [reflexivity|].
  rewrite collect_layouts_imap. simpl.
  split; [by rewrite length_imap|].
  intros i. by rewrite list_lookup_imap.
Qed.

(** *** [sorted] is a stable sort *)

Section sort_keyed.
Context {A : Type}.
Implicit Types (l : list (Z * A)) (k j : Z) (x : A).

Lemma insert_by_key_perm k x l : insert_by_key k x l ≡ₚ (k, x) :: l.
Proof.
  induction l as [|[k' y] l IH]; simpl; [done|].
  destruct (k <=? k'); [done|].
  by rewrite IH, Permutation_swap.
Qed.

Lemma sort_keyed_perm l : sort_keyed l ≡ₚ l.
Proof.
  induction l as [|[k x] l IH]; simpl; [done|].
  by rewrite insert_by_key_perm, IH.
Qed.

Lemma insert_by_key_sorted k x l :
  StronglySorted key_le l -> StronglySorted key_le (insert_by_key k x l).
Proof.
  induction 1 as [|[k' y] l Hs IH Hall]; simpl.
  - repeat constructor.
  - destruct (k <=? k') eqn:Hk.
    + apply Z.leb_le in Hk.
      constructor; [by constructor|].
      constructor; [done|].
      eapply Forall_impl; [exact Hall|].
      intros [k2 z]. unfold key_le. simpl. lia.
    + apply Z.leb_gt in Hk.
      constructor; [done|].
      rewrite insert_by_key_perm.
      constructor; [unfold key_le; simpl; lia | done].
Qed.

Lemma sort_keyed_sorted l : StronglySorted key_le (sort_keyed l).
Proof.
  induction l as [|[k x] l IH]; simpl; [constructor|].
  by apply insert_by_key_sorted.
Qed.

(** Insertion goes past smaller keys only, so the items of any one key
    stay in the order they had. *)
Lemma insert_by_key_stable j k x l :
  List.filter (has_key j) (insert_by_key k x l) =
  List.filter (has_key j) ((k, x) :: l).
Proof.
  induction l as [|[k' y] l IH]; [done|].
  cbn [insert_by_key].
  destruct (k <=? k') eqn:Hk; [done|].
  apply Z.leb_gt in Hk.
  cbn [List.filter] in *. rewrite IH. unfold has_key. simpl.
  destruct (k =? j) eqn:Hkj; [|done].
  apply Z.eqb_eq in Hkj.
  by rewrite (proj2 (Z.eqb_neq k' j)) by lia.
Qed.

Lemma sort_keyed_stable j l :
  List.filter (has_key j) (sort_keyed l) = List.filter (has_key j) l.
Proof.
  induction l as [|[k x] l IH]; [done|].
  cbn [sort_keyed foldr]. rewrite insert_by_key_stable.
  cbn [List.filter]. fold (sort_keyed l). by rewrite IH.
Qed.
End sort_keyed.

Section sorted.
Context {A : Type} (key : A -> pyval).
Implicit Types (l : list A) (ks : list (Z * A)).

Lemma with_int_keys l :
  Forall (fun x => is_Some (as_int (key x))) l ->
  exists ks, mapM (with_int_key key) l = Some ks /\ ks.*2 = l /\ keyed_by key ks.
Proof.
  induction 1 as [|x l [k Hk] _ (ks & Hks & Hl & Hall)].
  - exists []. repeat split. constructor.
  - exists ((k, x) :: ks). split; [|split].
    + apply mapM_Some. constructor.
      * unfold with_int_key. by rewrite Hk.
      * by apply mapM_Some.
    + by rewrite fmap_cons, Hl.
    + by constructor.
Qed.

Lemma sorted_keyed l ks :
  mapM (with_int_key key) l = Some ks ->
  ks.*2 = l ->
  sorted key l = Ok (Some ((sort_keyed ks).*2)).
Proof.
  intros Hks Hl. unfold sorted.
  destruct l as [|x [|y l']]; [| |by rewrite Hks].
  - by destruct ks.
  - destruct ks as [|[k x'] [|? ?]]; try done.
    by simplify_eq/=.
Qed.

Lemma keyed_sorted ks :
  keyed_by key ks -> StronglySorted key_le ks -> StronglySorted (int_key_le key) ks.*2.
Proof.
  intros Hall Hs. induction Hs as [|[k x] ks Hs IH Hle]; [constructor|].
  apply Forall_cons in Hall as [Hx Hall].
  constructor; [by apply IH|].
  apply Forall_fmap.
  rewrite Forall_forall in Hle, Hall. apply Forall_forall.
  intros [k' y] Hin. exists k, k'. split; [done|].
  split; [exact (Hall _ Hin) | exact (Hle _ Hin)].
Qed.

Lemma keyed_filter j ks :
  keyed_by key ks ->
  List.filter (key_is key j) ks.*2 = (List.filter (has_key j) ks).*2.
Proof.
  induction 1 as [|[k x] ks Hx _ IH]; [done|].
  cbn [fmap list_fmap List.filter]. fold (@fmap list _ _ _ (@snd Z A) ks).
  rewrite IH. unfold key_is, has_key. simpl in *. rewrite Hx.
  destruct (Z.eqb_spec k j) as [->|Hne].
  - by rewrite bool_decide_eq_true_2.
  - rewrite bool_decide_eq_false_2; [done|congruence].
Qed.

(** On integer keys [sorted] returns a permutation of its argument that
    is ordered by key and in which the items of each key keep their
    order. *)
Lemma sorted_stable l :
  Forall (fun x => is_Some (as_int (key x))) l ->
  exists l',
    sorted key l = Ok (Some l') /\
    l' ≡ₚ l /\
    StronglySorted (int_key_le key) l' /\
    forall j, List.filter (key_is key j) l' = List.filter (key_is key j) l.
Proof.
  intros Hl. destruct (with_int_keys l Hl) as (ks & Hks & Hsnd & Hall).
  assert (Hall' : keyed_by key (sort_keyed ks)).
  { unfold keyed_by. by rewrite sort_keyed_perm. }
  exists ((sort_keyed ks).*2). split; [by apply sorted_keyed|].
  split; [by rewrite sort_keyed_perm, Hsnd|].
  split; [apply keyed_sorted; [done | apply sort_keyed_sorted]|].
  intros j. rewrite keyed_filter by done.
  by rewrite sort_keyed_stable, <- keyed_filter, Hsnd.
Qed.
(** The three properties leave no choice: a list that is ordered by key and
    keeps the items of each key in the order of [sorted]'s result is that
    result. Any stable sort therefore computes what [sorted] computes. *)
Lemma filter_key_cons j a l :
  List.filter (key_is key j) (a :: l) =
    if key_is key j a then a :: List.filter (key_is key j) l else List.filter (key_is key j) l.
Proof. reflexivity. Qed.

Lemma filter_key_in j a l : a ∈ List.filter (key_is key j) l -> a ∈ l.
Proof. rewrite !list_elem_of_In. intros Hin. by apply List.filter_In in Hin as [? _]. Qed.

Lemma head_key_le a l b k kb :
  StronglySorted (int_key_le key) (a :: l) ->
  as_int (key a) = Some k -> as_int (key b) = Some kb ->
  b ∈ a :: l -> k <= kb.
Proof.
  intros Hs Hk Hkb [->|Hin]%elem_of_cons; [by simplify_eq|].
  apply StronglySorted_inv in Hs as [_ Hall].
  rewrite Forall_forall in Hall.
  destruct (Hall _ Hin) as (i & j & Hi & Hj & Hle). by simplify_eq.
Qed.

Lemma stable_sorted_unique l1 l2 :
  Forall (fun x => is_Some (as_int (key x))) l1 ->
  Forall (fun x => is_Some (as_int (key x))) l2 ->
  StronglySorted (int_key_le key) l1 ->
  StronglySorted (int_key_le key) l2 ->
  (forall j, List.filter (key_is key j) l1 = List.filter (key_is key j) l2) ->
  l1 = l2.
Proof.
  revert l2. induction l1 as [|a l1 IH]; intros l2 Hk1 Hk2 Hs1 Hs2 Hstable.
  - destruct l2 as [|b l2]; [done|].
    apply Forall_cons in Hk2 as [[kb Hkb] _].
    assert (Hb : key_is key kb b = true) by (by apply bool_decide_eq_true_2).
    specialize (Hstable kb). by rewrite filter_key_cons, Hb in Hstable.
  - apply Forall_cons in Hk1 as [[k Hk] Hk1].
    assert (Ha : key_is key k a = true) by (by apply bool_decide_eq_true_2).
    destruct l2 as [|b l2].
    { specialize (Hstable k). rewrite filter_key_cons, Ha in Hstable. done. }
    pose proof Hk2 as Hk2'. apply Forall_cons in Hk2' as [[kb Hkb] Hk2'].
    assert (Hb : key_is key kb b = true) by (by apply bool_decide_eq_true_2).
    assert (Hle1 : kb <= k).
    { apply (head_key_le b l2 a kb k Hs2 Hkb Hk).
      apply (filter_key_in k). rewrite <- Hstable, filter_key_cons, Ha. by left. }
    assert (Hle2 : k <= kb).
    { apply (head_key_le a l1 b k kb Hs1 Hk Hkb).
      apply (filter_key_in kb). rewrite Hstable, filter_key_cons, Hb. by left. }
    assert (kb = k) as -> by lia.
    pose proof (Hstable k) as Hhead.
    rewrite !filter_key_cons, Ha, Hb in Hhead. injection Hhead as -> Htail.
    f_equal. apply IH; try done.
    + by apply StronglySorted_inv in Hs1 as [? _].
    + by apply StronglySorted_inv in Hs2 as [? _].
    + intros j. specialize (Hstable j). rewrite !filter_key_cons in Hstable.
      destruct (key_is key j b); [by injection Hstable | done].
Qed.

(** An integer key and a string key in one list: the sort raises
    [TypeError]. *)
Lemma sorted_int_and_str l x y :
  x ∈ l -> y ∈ l ->
  is_Some (as_int (key x)) -> is_Some (as_str (key y)) ->
  sorted key l = Raise TypeError.
Proof.
  intros Hx Hy [i Hi] [t Ht].
  assert (as_str (key x) = None) as Hxs by (by destruct (key x)).
  assert (as_int (key y) = None) as Hyi by (by destruct (key y)).
  assert (mapM (with_int_key key) l = None) as Hint.
  { apply eq_None_not_Some. rewrite mapM_is_Some, Forall_forall.
    intros Hall. destruct (Hall y Hy) as [ky E].
    unfold with_int_key in E. by rewrite Hyi in E. }
  assert (mapM (with_str_key key) l = None) as Hstr.
  { apply eq_None_not_Some. rewrite mapM_is_Some, Forall_forall.
    intros Hall. destruct (Hall x Hx) as [kx E].
    unfold with_str_key in E. by rewrite Hxs in E. }
  assert (forallb (fun z => is_list (key z)) l = false) as Hlist.
  { apply not_true_is_false. rewrite forallb_forall.
    intros Hall. specialize (Hall x (proj1 (list_elem_of_In _ _) Hx)).
    by destruct (key x). }
  unfold sorted. rewrite Hint, Hstr, Hlist.
  destruct l as [|a [|b l']]; [by apply elem_of_nil in Hx| |done].
  apply list_elem_of_singleton in Hx, Hy. subst. congruence.
Qed.

End sorted.

(** C6. When the positions of the enabled entries are integers,
    [get_slides_by_position] returns exactly the enabled entries, in
    ascending order of position, entries of equal position in the order
    they have in the slide list. When one enabled entry has an integer
    position and another has a string for position, the call raises
    [TypeError]. Either way the manager it ran on is unchanged. *)
Theorem get_slides_by_position_stable (m : SlideMappingManager) :
  (Forall (fun s => is_Some (as_int (position s)))
          (List.filter is_enabled (slides m)) ->
   exists l,
     get_slides_by_position m = (Ok (Some l), m) /\
     l ≡ₚ List.filter is_enabled (slides m) /\
     StronglySorted (int_key_le position) l /\
     forall k,
       List.filter (key_is position k) l =
       List.filter (key_is position k) (List.filter is_enabled (slides m))) /\
  (forall s1 s2,
     s1 ∈ List.filter is_enabled (slides m) ->
     s2 ∈ List.filter is_enabled (slides m) ->
     is_Some (as_int (position s1)) ->
     is_Some (as_str (position s2)) ->
     get_slides_by_position m = (Raise TypeError, m)).
Proof.
  split.
  - intros Hpos.
    destruct (sorted_stable position _ Hpos) as (l & Hl & Hperm & Hsorted & Hstable).
    exists l. split; [|done].
    unfold get_slides_by_position, mbind, stateful_bind, gets, lift.
    by rewrite <- Hl.
  - intros s1 s2 H1 H2 Hint Hstr.
    unfold get_slides_by_position, mbind, stateful_bind, gets, lift.
    by rewrite (sorted_int_and_str position _ s1 s2).
Qed.

(** A document with the positions [1] and ["2"]: both entries are parsed
    and enabled, and [get_slides_by_position] raises. *)
Lemma get_slides_by_position_int_and_str :
  let document :=
    PDict [ ("version", PInt 1);
            ("slides", PList
               [ entry "title" 0 "dynamic" true 1;
                 PDict [ ("type", PStr "final"); ("layout_index", PInt 1);
                         ("mode", PStr "dynamic"); ("enabled", PBool true);
                         ("position", PStr "2") ] ]) ] in
  exists m,
    __init__ document None = Ok m /\
    position <$> List.filter is_enabled (slides m) = [PInt 1; PStr "2"] /\
    get_slides_by_position m = (Raise TypeError, m).
Proof.
  intros document. eexists. split; [reflexivity|]. split; reflexivity.
Qed.

Example get_slides_by_position_mixed :
  get_slides_by_position mixed_manager =
    (Ok (Some
       [ mkSlideConfig (PStr "title") (PInt 0) (PStr "dynamic") (PBool true) (PInt 1);
         mkSlideConfig (PStr "custom_a") (PInt 1) (PStr "static") (PBool true) (PInt 1);
         mkSlideConfig (PStr "finding") (PInt 1) (PStr "dynamic") (PBool true) (PInt 2);
         mkSlideConfig (PStr "final") (PInt 1) (PStr "static") (PBool true) (PInt 2) ]),
     mixed_manager).
Proof. reflexivity. Qed.

(** Positions that are all strings are ordered as strings, ["10"] before
    ["2"]; a position [None] among two entries raises. *)
Example get_slides_by_position_strings :
  let with_position ty pos :=
    mkSlideConfig (PStr ty) (PInt 1) (PStr "dynamic") (PBool true) pos in
  (get_slides_by_position
     (mkManager None [] [with_position "agenda" (PStr "2");
                         with_position "title" (PStr "10")])).1 =
    Ok (Some [with_position "title" (PStr "10"); with_position "agenda" (PStr "2")]) /\
  (get_slides_by_position
     (mkManager None [] [with_position "agenda" PNone;
                         with_position "title" (PInt 1)])).1 = Raise TypeError /\
  (get_slides_by_position
     (mkManager None [] [with_position "agenda" PNone])).1 =
    Ok (Some [with_position "agenda" PNone]).
Proof. split; [reflexivity|]. split; reflexivity. Qed.

Lemma get_slides_by_position_stable_witness :
  exists l,
    get_slides_by_position mixed_manager = (Ok (Some l), mixed_manager) /\
    l ≡ₚ List.filter is_enabled (slides mixed_manager) /\
    StronglySorted (int_key_le position) l /\
    forall k,
      List.filter (key_is position k) l =
      List.filter (key_is position k) (List.filter is_enabled (slides mixed_manager)).
Proof.
  apply (proj1 (get_slides_by_position_stable mixed_manager)).
  simpl. repeat constructor; eexists; reflexivity.
Defined.

(** *** [validate] *)

(** [validate] hands back the manager it was given, also when it raises. *)
Lemma validate_pure m : validate m = (validate_result m, m).
Proof.
  unfold validate, validate_result, mbind, stateful_bind, gets, lift, mret, stateful_ret.
  destruct (duplicate_warnings (slides m)); simpl; [|done].
  destruct (unknown_type_warnings (slides m)); simpl; [|done].
  by destruct (presentation m).
Qed.

Lemma length_remove_dups_le {K} `{EqDecision K} (l : list K) :
  (length (remove_dups l) <= length l)%nat.
Proof.
  induction l as [|x l IH]; simpl; [done|].
  destruct (decide_rel elem_of x l); simpl; lia.
Qed.

Lemma length_remove_dups_NoDup {K} `{EqDecision K} (l : list K) :
  length (remove_dups l) = length l -> NoDup l.
Proof.
  induction l as [|x l IH]; simpl; [constructor|].
  pose proof (length_remove_dups_le l).
  destruct (decide_rel elem_of x l); simpl; [lia|].
  intros Hlen. constructor; [done|]. apply IH. lia.
Qed.

Lemma traverse_app {X Y} (f : X -> outcome Y) l1 l2 ks1 ks2 :
  traverse f l1 = Ok ks1 -> traverse f l2 = Ok ks2 ->
  traverse f (l1 ++ l2) = Ok (ks1 ++ ks2).
Proof.
  revert ks1. induction l1 as [|x l1 IH]; intros ks1; simpl.
  - by intros [= <-].
  - destruct (f x) as [y|]; simpl; [|done].
    destruct (traverse f l1) as [ys|]; simpl; [|done].
    intros [= <-] H2. by rewrite (IH ys eq_refl H2).
Qed.

Lemma hash_key_int v i : as_int v = Some i -> hash_key v = Ok (HInt i).
Proof. destruct v as [|[]| | | |]; simpl; congruence. Qed.

Lemma traverse_hash_key_int (l : list pyval) :
  Forall (fun v => is_Some (as_int v)) l ->
  exists ks, traverse hash_key l = Ok ks /\ length ks = length l.
Proof.
  induction 1 as [|v l [i Hi] _ (ks & Hks & Hlen)]; [by exists []|].
  exists (HInt i :: ks). simpl. rewrite (hash_key_int _ _ Hi), Hks. simpl.
  by rewrite Hlen.
Qed.

Lemma position_keys_app l1 l2 ks1 ks2 :
  position_keys l1 = Ok ks1 -> position_keys l2 = Ok ks2 ->
  position_keys (l1 ++ l2) = Ok (ks1 ++ ks2).
Proof.
  unfold position_keys. rewrite List.filter_app, fmap_app. apply traverse_app.
Qed.

Lemma position_keys_int sl :
  Forall (fun s => is_Some (as_int (position s))) (List.filter is_enabled sl) ->
  exists ks, position_keys sl = Ok ks /\
             length ks = length (position <$> List.filter is_enabled sl).
Proof.
  intros Hpos. apply traverse_hash_key_int. by apply Forall_fmap.
Qed.

Lemma position_keys_single c k :
  is_enabled c = true -> as_int (position c) = Some k ->
  position_keys [c] = Ok [HInt k].
Proof.
  intros Hen Hk. unfold position_keys. simpl. rewrite Hen. simpl.
  by rewrite (hash_key_int _ _ Hk).
Qed.

Lemma duplicate_warnings_keys sl ks :
  position_keys sl = Ok ks ->
  duplicate_warnings sl =
    Ok (if bool_decide (length (position <$> List.filter is_enabled sl) =
                        length (remove_dups ks))
        then [] else [duplicate_position_warning]).
Proof.
  unfold position_keys, duplicate_warnings, len_set. fold is_enabled.
  by intros ->.
Qed.

(** Two enabled entries with the same integer position make [validate]
    report duplicates, once. *)
Lemma duplicate_warnings_shared l1 c1 l2 c2 l3 k :
  Forall (fun s => is_Some (as_int (position s)))
         (List.filter is_enabled (l1 ++ c1 :: l2 ++ c2 :: l3)) ->
  is_enabled c1 = true -> is_enabled c2 = true ->
  as_int (position c1) = Some k -> as_int (position c2) = Some k ->
  duplicate_warnings (l1 ++ c1 :: l2 ++ c2 :: l3) = Ok [duplicate_position_warning].
Proof.
  intros Hpos Hen1 Hen2 Hk1 Hk2.
  destruct (position_keys_int _ Hpos) as (ks & Hks & Hlen).
  rewrite (duplicate_warnings_keys _ _ Hks), <- Hlen.
  rewrite bool_decide_eq_false_2; [done|].
  intros Heq. symmetry in Heq. apply length_remove_dups_NoDup in Heq.
  revert Hpos Hks Heq.
  rewrite !List.filter_app. cbn [List.filter]. rewrite !List.filter_app.
  cbn [List.filter]. rewrite Hen1, Hen2.
  rewrite !Forall_app, !Forall_cons, !Forall_app, !Forall_cons.
  intros (H1 & _ & H2 & _ & H3).
  destruct (position_keys_int _ H1) as (ks1 & Hks1 & _).
  destruct (position_keys_int _ H2) as (ks2 & Hks2 & _).
  destruct (position_keys_int _ H3) as (ks3 & Hks3 & _).
  pose proof (position_keys_single _ _ Hen1 Hk1) as Hc1.
  pose proof (position_keys_single _ _ Hen2 Hk2) as Hc2.
  pose proof (position_keys_app _ _ _ _ Hks1
                (position_keys_app _ _ _ _ Hc1
                   (position_keys_app _ _ _ _ Hks2
                      (position_keys_app _ _ _ _ Hc2 Hks3)))) as Hall.
  change (position_keys (l1 ++ c1 :: l2 ++ c2 :: l3) =
          Ok (ks1 ++ HInt k :: ks2 ++ HInt k :: ks3)) in Hall.
  rewrite Hall. intros [= <-].
  rewrite NoDup_app. intros (_ & _ & Hnd).
  apply NoDup_cons in Hnd as [Hnotin _].
  apply Hnotin. apply elem_of_app. right. by left.
Qed.

Lemma duplicate_warnings_int sl :
  Forall (fun s => is_Some (as_int (position s))) (List.filter is_enabled sl) ->
  exists dup, duplicate_warnings sl = Ok dup /\
              (dup = [] \/ dup = [duplicate_position_warning]).
Proof.
  intros Hpos. destruct (position_keys_int _ Hpos) as (ks & Hks & _).
  rewrite (duplicate_warnings_keys _ _ Hks).
  eexists. split; [done|]. case_bool_decide; auto.
Qed.

Lemma unknown_type_warnings_str sl :
  Forall (fun s => is_Some (as_str (type s))) sl ->
  exists unknown, unknown_type_warnings sl = Ok unknown /\
                  Forall is_unknown_warning unknown.
Proof.
  induction 1 as [|s sl [t Ht] _ (unknown & Hu & Hall)]; [by exists []|].
  simpl. rewrite Hu. unfold is_unknown_type.
  destruct (type s); try discriminate. simpl.
  eexists. split; [done|].
  destruct (_ && _); simpl; [|done].
  constructor; [by exists s | done].
Qed.

Lemma filter_none {X} (f : X -> bool) l :
  Forall (fun x => f x = false) l -> List.filter f l = [].
Proof. induction 1 as [|x l Hx _ IH]; simpl; [done|]. by rewrite Hx. Qed.

Lemma filter_all {X} (f : X -> bool) l :
  Forall (fun x => f x = true) l -> List.filter f l = l.
Proof. induction 1 as [|x l Hx _ IH]; simpl; [done|]. by rewrite Hx, IH. Qed.

(** The layout check only appends, and what it appends are layout-index
    messages. *)
Lemma layout_index_errors_app n sl errors :
  exists extra,
    layout_index_errors n sl errors = errors ++ extra /\
    Forall (fun e => is_invalid_mode_message e = false) extra.
Proof.
  revert errors. induction sl as [|s sl IH]; intros errors; simpl.
  - exists []. by rewrite app_nil_r.
  - destruct (truthy (enabled s)); [|apply IH].
    destruct (ge_int _ _) as [[]|]; [| apply IH | exists []; by rewrite app_nil_r].
    destruct (IH (errors ++ [layout_index_error s n])) as (extra & -> & Hall).
    exists (layout_index_error s n :: extra).
    split; [by rewrite <- app_assoc | by constructor].
Qed.

Lemma invalid_mode_errors_single pre c post :
  is_invalid_mode c = true ->
  Forall (fun s => is_invalid_mode s = false) (pre ++ post) ->
  invalid_mode_errors (pre ++ c :: post) = [invalid_mode_error c].
Proof.
  intros Hc [Hpre Hpost]%Forall_app. unfold invalid_mode_errors.
  rewrite List.filter_app. simpl. rewrite Hc.
  by rewrite (filter_none _ _ Hpre), (filter_none _ _ Hpost).
Qed.

Lemma invalid_mode_errors_kind sl :
  List.filter is_invalid_mode_message (invalid_mode_errors sl) = invalid_mode_errors sl.
Proof.
  apply filter_all. unfold invalid_mode_errors. apply Forall_fmap.
  by apply Forall_forall.
Qed.

Lemma required_final_disabled m c :
  get_slide_config m "final" = Some c -> is_enabled c = false ->
  List.filter (is_required_warning "final") (required_type_warnings m) =
    [required_type_warning "final"].
Proof.
  unfold required_type_warnings, required_types, is_enabled. intros Hc Hen.
  cbn [List.filter]. rewrite Hc, Hen.
  destruct (get_slide_config m "title") as [t|];
    [destruct (truthy (enabled t))|]; reflexivity.
Qed.

(** C9, as the code has it. For a manager whose entry types are strings
    and whose enabled positions are integers, [validate] returns, and
    leaves the manager as it was. Among the warnings there is exactly one
    duplicate-position warning when two enabled entries share a position
    (such as 3); among the errors there is exactly one invalid-mode error
    when exactly one entry has a mode other than [static] and [dynamic]
    (such as [dynamic-ish]); and there is a required-type warning for
    [final] when the [final] entry is disabled. *)
Theorem validate_reports (m : SlideMappingManager) :
  Forall (fun s => is_Some (as_str (type s))) (slides m) ->
  Forall (fun s => is_Some (as_int (position s)))
         (List.filter is_enabled (slides m)) ->
  exists warnings errors,
    validate m = (Ok (warnings, errors), m) /\
    (forall l1 c1 l2 c2 l3 k,
       slides m = l1 ++ c1 :: l2 ++ c2 :: l3 ->
       is_enabled c1 = true -> is_enabled c2 = true ->
       as_int (position c1) = Some k -> as_int (position c2) = Some k ->
       List.filter is_duplicate_warning warnings = [duplicate_position_warning]) /\
    (forall pre c post,
       slides m = pre ++ c :: post ->
       is_invalid_mode c = true ->
       Forall (fun s => is_invalid_mode s = false) (pre ++ post) ->
       List.filter is_invalid_mode_message errors = [invalid_mode_error c]) /\
    (forall c,
       get_slide_config m "final" = Some c ->
       is_enabled c = false ->
       List.filter (is_required_warning "final") warnings =
         [required_type_warning "final"]).
Proof.
  intros Hty Hpos.
  destruct (duplicate_warnings_int _ Hpos) as (dup & Hdup & Hdup').
  destruct (unknown_type_warnings_str _ Hty) as (unknown & Hunk & Hunk').
  rewrite validate_pure. unfold validate_result. rewrite Hdup, Hunk. simpl.
  do 2 eexists. split; [reflexivity|].
  assert (Hu1 : List.filter is_duplicate_warning unknown = []).
  { apply filter_none. eapply Forall_impl; [exact Hunk'|]. by intros w [s ->]. }
  assert (Hu2 : List.filter (is_required_warning "final") unknown = []).
  { apply filter_none. eapply Forall_impl; [exact Hunk'|].
    intros w [s ->]. simpl. by destruct (type s). }
  assert (Hr : List.filter is_duplicate_warning (required_type_warnings m) = []).
  { unfold required_type_warnings, required_types. cbn [List.filter].
    destruct (get_slide_config m "title") as [t|];
      [destruct (truthy (enabled t))|];
      (destruct (get_slide_config m "final") as [f|];
         [destruct (truthy (enabled f))|]); reflexivity. }
  split; [|split].
  - intros l1 c1 l2 c2 l3 k Hsl Hen1 Hen2 Hk1 Hk2.
    rewrite Hsl in Hdup, Hpos.
    rewrite (duplicate_warnings_shared _ _ _ _ _ _ Hpos Hen1 Hen2 Hk1 Hk2) in Hdup.
    injection Hdup as <-.
    by rewrite !List.filter_app, Hu1, Hr.
  - intros pre c post Hsl Hc Hrest.
    rewrite <- (invalid_mode_errors_single pre c post Hc Hrest), <- Hsl.
    destruct (presentation m) as [prs|]; [|apply invalid_mode_errors_kind].
    destruct (layout_index_errors_app (layout_count prs) (slides m)
                (invalid_mode_errors (slides m))) as (extra & -> & Hextra).
    by rewrite List.filter_app, invalid_mode_errors_kind,
      (filter_none _ _ Hextra), app_nil_r.
  - intros c Hc Hen.
    rewrite !List.filter_app, Hu2, (required_final_disabled _ _ Hc Hen).
    by destruct Hdup' as [-> | ->].
Qed.

Example flawed_manager_built : __init__ flawed_document None = Ok flawed_manager.
Proof. reflexivity. Qed.

Example validate_flawed :
  validate flawed_manager =
    (Ok ([ duplicate_position_warning; required_type_warning "final" ],
         [ invalid_mode_error (config "agenda" 1 "dynamic-ish" true 3) ]),
     flawed_manager).
Proof. reflexivity. Qed.

Lemma validate_reports_witness :
  exists warnings errors,
    validate flawed_manager = (Ok (warnings, errors), flawed_manager) /\
    List.filter is_duplicate_warning warnings = [duplicate_position_warning] /\
    List.filter is_invalid_mode_message errors =
      [invalid_mode_error (config "agenda" 1 "dynamic-ish" true 3)] /\
    List.filter (is_required_warning "final") warnings =
      [required_type_warning "final"].
Proof.
  destruct (validate_reports flawed_manager) as (w & e & Hv & Hdup & Hmode & Hreq).
  - simpl. repeat constructor; eexists; reflexivity.
  - simpl. repeat constructor; eexists; reflexivity.
  - exists w, e. split; [exact Hv|]. split; [|split].
    + apply (Hdup [config "title" 0 "dynamic" true 1]
               (config "agenda" 1 "dynamic-ish" true 3) []
               (config "introduction" 1 "dynamic" true 3)
               [config "final" 12 "dynamic" false 14] 3); reflexivity.
    + apply (Hmode [config "title" 0 "dynamic" true 1]
               (config "agenda" 1 "dynamic-ish" true 3)
               [config "introduction" 1 "dynamic" true 3;
                config "final" 12 "dynamic" false 14]);
        [reflexivity | reflexivity | repeat constructor].
    + apply (Hreq (config "final" 12 "dynamic" false 14)); reflexivity.
Defined.

(** C9 as stated fails when one of the two entries that share position 3
    is disabled: only enabled entries are compared, and no
    duplicate-position warning comes out. *)
Lemma validate_shared_position_disabled :
  let document :=
    PDict [ ("version", PInt 1);
            ("slides", PList
               [ entry "title" 0 "dynamic" true 1;
                 entry "agenda" 1 "dynamic" true 3;
                 entry "introduction" 1 "dynamic" false 3;
                 entry "final" 12 "dynamic" true 4 ]) ] in
  exists m warnings errors,
    __init__ document None = Ok m /\
    position <$> slides m = [PInt 1; PInt 3; PInt 3; PInt 4] /\
    validate m = (Ok (warnings, errors), m) /\
    List.filter is_duplicate_warning warnings = [].
Proof.
  intros document. eexists. exists [], [].
  split; [reflexivity|]. split; [reflexivity|]. split; reflexivity.
Qed.

End SlideMappingProofs.

(** ** Text replacement and rendering *)

Module PptxProofs.
Import Pptx PptxSpec.

(** *** [set_text_preserving_format] *)


Lemma item_runs_no_runs items :
  item_runs (List.filter (fun i => negb (is_run i)) items) = [].
Proof.
  induction items as [|[r| |ty t] items IH]; simpl; done.
Qed.













(** A bold run "Hello" replaced by "Goodbye" stays bold. *)
Example set_text_hello_goodbye :
  set_text_preserving_format (Some hello_shape) "Goodbye" =
    Some (mkShape "Title 1" (Some (mkPlaceholderFormat 0 PH_TITLE))
            (Some [mkParagraph [IRun (mkRun "Goodbye" bold_font); IBreak] (Some 2) 0])
            None None).
Proof. reflexivity. Qed.


(** *** [render_jinja2_in_textframe] *)

Section rendering.
Context `{External}.

(** Whatever the [try] block does, the loop body returns normally. *)
Lemma render_paragraph_returns context tag st :
  (render_paragraph context tag st).1 = Ok tt.
Proof.
  unfold render_paragraph, mbind, stateful_bind, get_paragraph, try_catch.
  destruct (has_expression _); [|done].
  destruct (render_expression _ _ _ _ _) as [[[]|e] st']; [done|].
  by destruct e.
Qed.

Lemma render_paragraphs_returns context tags st :
  (render_paragraphs context tags st).1 = Ok tt.
Proof.
  revert st. induction tags as [|tag rest IH]; intros st; [done|].
  cbn [render_paragraphs]. unfold mbind, stateful_bind.
  pose proof (render_paragraph_returns context tag st) as Hret.
  destruct (render_paragraph context tag st) as [[[]|e] st']; [apply IH | done].
Qed.

(** An undefined variable: the turn changes nothing. *)
Lemma render_paragraph_undefined context tag st p :
  paragraph_of tag st = Some p ->
  has_expression (reconstructed_text p) = true ->
  jinja_render (reconstructed_text p) context = Raise UndefinedError ->
  render_paragraph context tag st = (Ok tt, st).
Proof.
  intros Hp Hexpr Hundef.
  unfold render_paragraph, mbind, stateful_bind, get_paragraph, try_catch.
  rewrite Hp. simpl. rewrite Hexpr.
  unfold render_expression, mbind, stateful_bind, lift.
  by rewrite Hundef.
Qed.

(** A paragraph without an expression is passed over. *)
Lemma render_paragraph_plain context tag st p :
  paragraph_of tag st = Some p ->
  has_expression (reconstructed_text p) = false ->
  render_paragraph context tag st = (Ok tt, st).
Proof.
  intros Hp Hexpr.
  unfold render_paragraph, mbind, stateful_bind, get_paragraph.
  rewrite Hp. simpl. by rewrite Hexpr.
Qed.

Lemma render_paragraphs_app context pre post st :
  render_paragraphs context (pre ++ post) st =
    render_paragraphs context post (render_paragraphs context pre st).2.
Proof.
  revert st. induction pre as [|tag pre IH]; intros st; [done|].
  cbn [app render_paragraphs]. unfold mbind, stateful_bind.
  pose proof (render_paragraph_returns context tag st) as Hret.
  destruct (render_paragraph context tag st) as [[[]|e] st']; [apply IH | done].
Qed.

Lemma render_jinja2_in_textframe_returns text_frame context :
  (render_jinja2_in_textframe text_frame context).1 = Ok tt.
Proof.
  unfold render_jinja2_in_textframe.
  pose proof (render_paragraphs_returns context (seq 0 (length text_frame))
                (mkRenderState (tag_paragraphs text_frame) [])) as Hret.
  by destruct (render_paragraphs _ _ _).
Qed.

(** C4. When the turn of a paragraph comes, its reconstructed text holds
    both delimiters and evaluating it raises an undefined-variable error,
    then the turn leaves every paragraph as it was and returns normally, the
    loop goes on with the remaining paragraphs from that same state, and no
    exception leaves it; [render_jinja2_in_textframe] as a whole never
    raises. *)
Theorem render_undefined_variable (context : pydict) (pre : list nat) (tag : nat)
    (post : list nat) (st : RenderState) (p : Paragraph) :
  let st1 := (render_paragraphs context pre st).2 in
  paragraph_of tag st1 = Some p ->
  contains "{{" (reconstructed_text p) = true ->
  contains "}}" (reconstructed_text p) = true ->
  jinja_render (reconstructed_text p) context = Raise UndefinedError ->
  render_paragraph context tag st1 = (Ok tt, st1) /\
  render_paragraphs context (pre ++ tag :: post) st =
    render_paragraphs context post st1 /\
  (render_paragraphs context (pre ++ tag :: post) st).1 = Ok tt /\
  forall text_frame, (render_jinja2_in_textframe text_frame context).1 = Ok tt.
Proof.
  intros st1 Hp Hopen Hclose Hundef.
  assert (Hexpr : has_expression (reconstructed_text p) = true).
  { unfold has_expression. rewrite Hopen, Hclose.
    destruct (reconstructed_text p); [discriminate Hopen | done]. }
  pose proof (render_paragraph_undefined context tag st1 p Hp Hexpr Hundef) as Hturn.
  split; [exact Hturn|]. split; [|split].
  - rewrite render_paragraphs_app. fold st1.
    cbn [render_paragraphs]. unfold mbind at 1, stateful_bind. by rewrite Hturn.
  - apply render_paragraphs_returns.
  - intros text_frame. apply render_jinja2_in_textframe_returns.
Qed.

(** A text frame in which every expression hits an undefined variable
    comes out as it went in. *)
Lemma render_paragraphs_unchanged context tags st :
  Forall (fun tag =>
            exists p, paragraph_of tag st = Some p /\
                      (has_expression (reconstructed_text p) = true ->
                       jinja_render (reconstructed_text p) context = Raise UndefinedError))
         tags ->
  render_paragraphs context tags st = (Ok tt, st).
Proof.
  induction 1 as [|tag rest (p & Hp & Hundef) _ IH]; [done|].
  cbn [render_paragraphs]. unfold mbind, stateful_bind.
  destruct (has_expression (reconstructed_text p)) eqn:Hexpr.
  - by rewrite (render_paragraph_undefined _ _ _ _ Hp Hexpr (Hundef eq_refl)).
  - by rewrite (render_paragraph_plain _ _ _ _ Hp Hexpr).
Qed.

Lemma lookup_tag_imap (tf : list Paragraph) (k i : nat) :
  lookup_tag (k + i) (imap (fun j p => ((k + j)%nat, p)) tf) = tf !! i.
Proof.
  revert k i. induction tf as [|p tf IH]; intros k i; [done|].
  rewrite imap_cons. cbn [lookup_tag]. rewrite Nat.add_0_r.
  destruct i as [|i].
  - rewrite Nat.add_0_r. by rewrite bool_decide_eq_true_2.
  - rewrite bool_decide_eq_false_2 by lia.
    etrans; [|apply (IH (S k) i)].
    replace (k + S i)%nat with (S k + i)%nat by lia.
    f_equal. apply imap_ext. intros j q _. simpl. f_equal. lia.
Qed.

Lemma tag_paragraphs_snd (tf : list Paragraph) : (tag_paragraphs tf).*2 = tf.
Proof.
  unfold tag_paragraphs. apply list_eq. intros i.
  rewrite list_lookup_fmap, list_lookup_imap. by destruct (_ !! _).
Qed.

Lemma render_jinja2_in_textframe_unchanged (tf : list Paragraph) context :
  Forall (fun p => has_expression (reconstructed_text p) = true ->
                   jinja_render (reconstructed_text p) context = Raise UndefinedError) tf ->
  render_jinja2_in_textframe tf context = (Ok tt, tf).
Proof.
  intros Hall. unfold render_jinja2_in_textframe.
  rewrite render_paragraphs_unchanged; [simpl; by rewrite tag_paragraphs_snd|].
  apply Forall_forall. intros i [_ Hi]%elem_of_seq. simpl in Hi.
  destruct (lookup_lt_is_Some_2 tf i Hi) as [p Hp].
  exists p. split.
  - unfold paragraph_of, tag_paragraphs. simpl.
    pose proof (lookup_tag_imap tf 0 i) as Hl. simpl in Hl. by rewrite Hl, Hp.
  - rewrite Forall_forall in Hall. apply Hall. by eapply list_elem_of_lookup_2.
Qed.

End rendering.

(** *** [process_footers] *)

Section footers.
Context `{External}.

(** Once the layout has a placeholder, the index of the slide plays no part:
    the inner loop has overwritten [idx]. *)
Lemma scan_placeholders_overwrites_idx i j place placeholders :
  scan_placeholders i (place :: placeholders) =
  scan_placeholders j (place :: placeholders).
Proof. reflexivity. Qed.

Lemma process_slide_footers_ignores_index i j slide :
  layout_placeholders (slide_layout slide) <> [] ->
  process_slide_footers i slide = process_slide_footers j slide.
Proof.
  unfold process_slide_footers.
  destruct (layout_placeholders (slide_layout slide)) as [|place placeholders] eqn:Hph;
    [done|].
  intros _. by rewrite (scan_placeholders_overwrites_idx i j).
Qed.

(** A slide whose layout has no placeholder is left alone. *)
Lemma process_slide_footers_no_placeholder i slide :
  layout_placeholders (slide_layout slide) = [] ->
  process_slide_footers i slide = Ok slide.
Proof.
  unfold process_slide_footers. intros ->. simpl. by destruct (0 <? i).
Qed.

End footers.

#[local] Existing Instance toy.

(** *** Runs of the model on the toy collaborators *)

(** With [title] defined the paragraph becomes one run with the rendered
    text and the font of its first run. *)
Example render_defined_title :
  render_jinja2_in_textframe finding_frame [("title", PStr "Example")] =
    (Ok tt,
     [ mkParagraph [IRun (mkRun "Summary" default_font)] None 0;
       mkParagraph [IRun (mkRun "Finding: Example" bold_font)] (Some 1) 0;
       mkParagraph [IRun (mkRun "Details" default_font)] None 1 ]).
Proof. reflexivity. Qed.

(** With [title] undefined the text frame is unchanged. *)
Example render_undefined_title :
  render_jinja2_in_textframe finding_frame [] = (Ok tt, finding_frame).
Proof. reflexivity. Qed.

Lemma render_undefined_variable_witness :
  let st := mkRenderState (tag_paragraphs finding_frame) [] in
  render_paragraph [] 1%nat st = (Ok tt, st) /\
  render_paragraphs [] [0; 1; 2]%nat st = render_paragraphs [] [2%nat] st /\
  (render_paragraphs [] [0; 1; 2]%nat st).1 = Ok tt.
Proof.
  intros st.
  destruct (render_undefined_variable [] [0%nat] 1%nat [2%nat] st
              (mkParagraph [IRun (mkRun "Finding: " bold_font);
                            IRun (mkRun "{{ title }}" default_font)] (Some 1) 0))
    as (Hturn & Hrest & Hret & _); try reflexivity.
  split; [exact Hturn|]. split; [exact Hrest | exact Hret].
Defined.

(** Where the pass does reach a slide, it clones the footer, slide-number and
    date placeholders in that order: the footer takes the text of the layout
    placeholder, the slide number a [slidenum] field, the date today's
    date. *)
Example process_slide_footers_populates :
  exists slide',
    process_slide_footers 1 (new_slide full_layout) = Ok slide' /\
    shapes slide' =
      [ title_ph;
        footer_clone;
        mkShape "Slide Number Placeholder 5"
          (Some (mkPlaceholderFormat 12 PH_SLIDE_NUMBER))
          (Some [mkParagraph [IField "slidenum" "2"] None 0]) None None;
        mkShape "Date Placeholder 3" (Some (mkPlaceholderFormat 10 PH_DATE))
          (Some [mkParagraph [IRun (mkRun "Nov. 3, 2026" default_font)] None 0])
          None None ].
Proof. eexists. split; reflexivity. Qed.

(** C2 on the code. The footer pass does not keep off the first slide: the
    only slide of [one_slide_deck], at index 0, comes out with a footer
    placeholder cloned onto it. And it does not serve every later slide
    whose layout has a footer placeholder: the second slide of
    [two_slide_deck], whose layout lists the footer placeholder first, comes
    out as it went in. *)
Theorem process_footers_first_slide_and_first_placeholder :
  (exists slide',
     process_footers one_slide_deck =
       Ok (mkPresentation layouts [slide']) /\
     shapes (new_slide content_layout) = [title_ph] /\
     shapes slide' = [title_ph; footer_clone]) /\
  contains "Footer"
    (shape_name (default title_ph (head (layout_placeholders footer_first_layout)))) = true /\
  process_footers two_slide_deck = Ok two_slide_deck.
Proof.
  split; [|split]; [eexists; repeat split | reflexivity | reflexivity].
Qed.

End PptxProofs.

(** ** Per-item slide builders *)

Module ReportProofs.
Import Pptx Report PptxSpec ReportSpec.

Section builders.
Context `{External}.

Lemma new_slide_shapes_app slide phs :
  shapes (foldl (fun slide ph => add_shape slide (cloned_placeholder slide ph)) slide phs)
  <> [] \/ (shapes slide = [] /\ phs = []).
Proof.
  revert slide. induction phs as [|ph phs IH]; intros slide; simpl.
  - destruct (shapes slide); [by right | by left].
  - destruct (IH (add_shape slide (cloned_placeholder slide ph))) as [Hne | [Hnil _]];
      [by left|].
    simpl in Hnil. by destruct (shapes slide).
Qed.

(** A slide made from a layout with a cloneable placeholder has a shape. *)
Lemma new_slide_has_shape slide_layout :
  List.filter is_cloneable (layout_placeholders slide_layout) <> [] ->
  exists shape rest, shapes (new_slide slide_layout) = shape :: rest.
Proof.
  intros Hph. unfold new_slide.
  destruct (new_slide_shapes_app (mkSlide slide_layout [] [empty_paragraph])
              (List.filter is_cloneable (layout_placeholders slide_layout)))
    as [Hne | [_ Hnil]]; [|done].
  destruct (shapes _) as [|shape rest]; [done | by eexists _, _].
Qed.

(** The call with three arguments raises on the first shape. *)
Lemma render_item_shapes_raises context slide shape rest :
  shapes slide = shape :: rest ->
  render_item_shapes context slide = Raise TypeError.
Proof. unfold render_item_shapes, render_shapes. by intros ->. Qed.

Lemma on_new_slide_last f prs slide :
  on_new_slide f (with_slides prs (PptxModel.slides prs ++ [slide])) =
    match f slide with
    | Ok slide' =>
        (Ok tt, with_slides prs (PptxModel.slides prs ++ [slide']))
    | Raise e => (Raise e, with_slides prs (PptxModel.slides prs ++ [slide]))
    end.
Proof.
  unfold on_new_slide. simpl. rewrite reverse_snoc.
  destruct (f slide); [|done]. by rewrite reverse_involutive.
Qed.

(** A finding whose slide has a shape stops the builder with [TypeError],
    one slide into the deck. *)
Lemma create_finding_slide_raises config finding d prs slide_layout :
  finding = PDict d ->
  index (slide_layouts prs) (SlideMapping.layout_index config) = Ok slide_layout ->
  List.filter is_cloneable (layout_placeholders slide_layout) <> [] ->
  create_finding_slide config finding prs =
    (Raise TypeError,
     with_slides prs (PptxModel.slides prs ++ [new_slide slide_layout])).
Proof.
  intros -> Hlayout Hph.
  destruct (new_slide_has_shape _ Hph) as (shape & rest & Hshapes).
  unfold create_finding_slide, mbind at 1, stateful_bind, layout_at. rewrite Hlayout.
  unfold mbind at 1, stateful_bind, add_slide.
  unfold mbind at 1, stateful_bind, lift.
  unfold finding_context. simpl.
  unfold mbind at 1, stateful_bind. rewrite on_new_slide_last.
  by rewrite (render_item_shapes_raises _ _ _ _ Hshapes).
Qed.

Lemma create_observation_slide_raises config observation d prs slide_layout :
  observation = PDict d ->
  index (slide_layouts prs) (SlideMapping.layout_index config) = Ok slide_layout ->
  List.filter is_cloneable (layout_placeholders slide_layout) <> [] ->
  create_observation_slide config observation prs =
    (Raise TypeError,
     with_slides prs (PptxModel.slides prs ++ [new_slide slide_layout])).
Proof.
  intros -> Hlayout Hph.
  destruct (new_slide_has_shape _ Hph) as (shape & rest & Hshapes).
  unfold create_observation_slide, mbind at 1, stateful_bind, layout_at. rewrite Hlayout.
  unfold mbind at 1, stateful_bind, add_slide.
  unfold mbind at 1, stateful_bind, lift.
  unfold observation_context. simpl.
  unfold mbind at 1, stateful_bind. rewrite on_new_slide_last.
  by rewrite (render_item_shapes_raises _ _ _ _ Hshapes).
Qed.

(** In dynamic mode, with a first finding that is a dict and a layout that
    gives the new slide a shape, [create_finding_slides] ends in
    [TypeError] after adding one slide, however many findings there are. *)
Lemma create_finding_slides_raises config base_context prs d rest slide_layout :
  eq_str (SlideMapping.mode config) "static" = false ->
  lookup_key "findings" base_context = Some (PList (PDict d :: rest)) ->
  index (slide_layouts prs) (SlideMapping.layout_index config) = Ok slide_layout ->
  List.filter is_cloneable (layout_placeholders slide_layout) <> [] ->
  create_finding_slides config base_context prs =
    (Raise TypeError,
     with_slides prs (PptxModel.slides prs ++ [new_slide slide_layout])).
Proof.
  intros Hmode Hfindings Hlayout Hph.
  unfold create_finding_slides. rewrite Hmode.
  unfold mbind at 1, stateful_bind, lift. simpl. rewrite Hfindings. simpl.
  unfold mbind at 1, stateful_bind.
  by rewrite (create_finding_slide_raises _ _ d _ _ eq_refl Hlayout Hph).
Qed.

Lemma create_observation_slides_raises config base_context prs d rest slide_layout :
  eq_str (SlideMapping.mode config) "static" = false ->
  lookup_key "observations" base_context = Some (PList (PDict d :: rest)) ->
  index (slide_layouts prs) (SlideMapping.layout_index config) = Ok slide_layout ->
  List.filter is_cloneable (layout_placeholders slide_layout) <> [] ->
  create_observation_slides config base_context prs =
    (Raise TypeError,
     with_slides prs (PptxModel.slides prs ++ [new_slide slide_layout])).
Proof.
  intros Hmode Hobs Hlayout Hph.
  unfold create_observation_slides. rewrite Hmode.
  unfold mbind at 1, stateful_bind, lift. simpl. rewrite Hobs. simpl.
  unfold mbind at 1, stateful_bind.
  by rewrite (create_observation_slide_raises _ _ d _ _ eq_refl Hlayout Hph).
Qed.

End builders.

#[local] Existing Instance toy.

(** C3 on the code. With two findings (one observation) and a layout that
    has a title placeholder, each builder stops with [TypeError] at the
    first shape of the first new slide: the renderer is called without its
    [slide] argument. One slide is in the deck, not one per item. The
    static path, which passes the slide, completes on the same layout. *)
Theorem item_builders_raise_type_error :
  create_finding_slides (dynamic_config "finding" 0) report_context empty_deck =
    (Raise TypeError, mkPresentation layouts [new_slide content_layout]) /\
  create_observation_slides (dynamic_config "observation" 0) report_context empty_deck =
    (Raise TypeError, mkPresentation layouts [new_slide content_layout]) /\
  create_static_slide empty_deck (PInt 0) [] =
    (Ok (new_slide content_layout), mkPresentation layouts [new_slide content_layout]).
Proof. repeat split. Qed.

(** On a layout without placeholder the new slides have no shape, the
    renderer is never called, and the builder adds one slide per finding. *)
Example create_finding_slides_blank_layout :
  exists deck,
    create_finding_slides (dynamic_config "finding" 2) report_context empty_deck =
      (Ok tt, deck) /\
    length (PptxModel.slides deck) = 2%nat.
Proof. eexists. split; reflexivity. Qed.

Lemma create_finding_slides_raises_witness :
  create_finding_slides (dynamic_config "finding" 0) report_context empty_deck =
    (Raise TypeError,
     with_slides empty_deck (PptxModel.slides empty_deck ++ [new_slide content_layout])).
Proof.
  apply (create_finding_slides_raises (dynamic_config "finding" 0) report_context
           empty_deck (finding_fields "SQL Injection" "high")
           [finding "Weak TLS" "low"] content_layout);
    [reflexivity | reflexivity | reflexivity | discriminate].
Defined.

End ReportProofs.

(** ** More on the slide mapping: lookups, ordering and validation *)

Module SlideMappingFacts.
Import SlideMapping SlideMappingSpec ValidateSpec.

(** *** [SlideConfig.from_dict] and [get_slide_config] *)

(** X1. [SlideConfig.from_dict] succeeds exactly on a dict that has the
    keys [type], [layout_index], [mode] and [position]; a missing [enabled]
    reads [True]. A dict without one of the four keys raises [KeyError],
    anything that is not a dict raises [TypeError], and no other exception
    leaves the call. *)
Theorem from_dict_cases (data : pyval) :
  match data with
  | PDict d =>
      match lookup_key "type" d, lookup_key "layout_index" d,
            lookup_key "mode" d, lookup_key "position" d with
      | Some ty, Some li, Some mo, Some po =>
          from_dict data =
            Ok (mkSlideConfig ty li mo (dict_get d "enabled" (PBool true)) po)
      | _, _, _, _ => from_dict data = Raise KeyError
      end
  | _ => from_dict data = Raise TypeError
  end.
Proof.
  destruct data as [| b | z | s | l | d]; try reflexivity.
  unfold from_dict, getitem, get; cbn [mbind outcome_bind].
  destruct (lookup_key "type" d) as [ty|]; [|by destruct (lookup_key "layout_index" d),
    (lookup_key "mode" d), (lookup_key "position" d)].
  destruct (lookup_key "layout_index" d) as [li|];
    [|by destruct (lookup_key "mode" d), (lookup_key "position" d)].
  destruct (lookup_key "mode" d) as [mo|]; [|by destruct (lookup_key "position" d)].
  by destruct (lookup_key "position" d) as [po|].
Qed.

Lemma eq_str_true v s : eq_str v s = true <-> v = PStr s.
Proof.
  destruct v; simpl; try (split; [done | congruence]).
  rewrite bool_decide_eq_true. split; congruence.
Qed.

Lemma eq_str_false v s : eq_str v s = false <-> v <> PStr s.
Proof.
  rewrite <- eq_str_true. destruct (eq_str v s); split; congruence.
Qed.

(** X2. [get_slide_config] returns the first entry of the given type, in
    document order: later entries of the same type are never seen. It
    returns [None] exactly when no entry has the type. *)
Theorem get_slide_config_first_match (m : SlideMappingManager) (slide_type : string) :
  (forall c,
     get_slide_config m slide_type = Some c <->
     exists pre post,
       slides m = pre ++ c :: post /\
       type c = PStr slide_type /\
       Forall (fun s => type s <> PStr slide_type) pre) /\
  (get_slide_config m slide_type = None <->
   Forall (fun s => type s <> PStr slide_type) (slides m)).
Proof.
  unfold get_slide_config. generalize (slides m) as sl. intros sl. split.
  - intros c. induction sl as [|s sl IH]; simpl.
    + split; [done|]. intros (pre & post & E & _). by destruct pre.
    + destruct (eq_str (type s) slide_type) eqn:E.
      * apply eq_str_true in E. split.
        -- intros [= <-]. exists [], sl. by repeat split.
        -- intros (pre & post & Esl & Ety & Hpre). destruct pre as [|s' pre].
           ++ simpl in Esl. congruence.
           ++ simpl in Esl. injection Esl as <- _.
              apply Forall_cons in Hpre as [Hs _]. congruence.
      * apply eq_str_false in E. rewrite IH. split.
        -- intros (pre & post & -> & Ety & Hpre). exists (s :: pre), post.
           repeat split; [done|]. by constructor.
        -- intros (pre & post & Esl & Ety & Hpre). destruct pre as [|s' pre].
           ++ simpl in Esl. injection Esl as -> _. congruence.
           ++ simpl in Esl. injection Esl as <- ->.
              apply Forall_cons in Hpre as [_ Hpre]. by exists pre, post.
  - induction sl as [|s sl IH]; simpl.
    + split; [constructor | done].
    + destruct (eq_str (type s) slide_type) eqn:E.
      * apply eq_str_true in E. split; [done|].
        intros [Hs _]%Forall_cons. congruence.
      * apply eq_str_false in E. rewrite IH. split.
        -- by constructor.
        -- by intros [_ ?]%Forall_cons.
Qed.

(** *** The result of [validate] *)

Lemma traverse_hash_key_hashable (l : list pyval) :
  Forall (fun v => hashable v = true) l -> traverse hash_key l = Ok (key_of <$> l).
Proof.
  induction 1 as [|v l Hv _ IH]; [done|].
  cbn [traverse]. rewrite IH. by destruct v.
Qed.

Lemma traverse_hash_key_ok (l : list pyval) ks :
  traverse hash_key l = Ok ks -> Forall (fun v => hashable v = true) l.
Proof.
  revert ks. induction l as [|v l IH]; intros ks; [constructor|].
  cbn [traverse]. destruct (hash_key v) eqn:Ev; [|done].
  cbn [mbind outcome_bind]. destruct (traverse hash_key l) eqn:El; [|done].
  intros _. constructor; [by destruct v | eauto].
Qed.

Lemma remove_dups_NoDup {K} `{EqDecision K} (l : list K) :
  NoDup l -> remove_dups l = l.
Proof.
  induction 1 as [|x l Hx _ IH]; [done|].
  simpl. destruct (decide_rel elem_of x l); [done|]. by rewrite IH.
Qed.

Lemma duplicate_warnings_normal sl :
  Forall (fun s => hashable (position s) = true) (List.filter is_enabled sl) ->
  duplicate_warnings sl = Ok (duplicate_messages sl).
Proof.
  intros Hpos. unfold duplicate_warnings, duplicate_messages, len_set.
  change (List.filter (fun s => truthy (enabled s)) sl) with (List.filter is_enabled sl).
  rewrite (traverse_hash_key_hashable (position <$> List.filter is_enabled sl));
    [|by apply Forall_fmap].
  cbn [mbind outcome_bind mret outcome_ret]. f_equal.
  set (ks := key_of <$> (position <$> List.filter is_enabled sl)).
  assert (length (position <$> List.filter is_enabled sl) = length ks) as ->.
  { unfold ks. by rewrite !length_fmap. }
  destruct (decide (NoDup ks)) as [Hnd|Hnd].
  - rewrite (bool_decide_eq_true_2 (NoDup ks)) by done.
    rewrite remove_dups_NoDup by done. by rewrite bool_decide_eq_true_2.
  - rewrite (bool_decide_eq_false_2 (NoDup ks)) by done.
    rewrite bool_decide_eq_false_2; [done|].
    intros E. apply Hnd. apply SlideMappingProofs.length_remove_dups_NoDup. done.
Qed.

Lemma unknown_type_warnings_normal sl :
  Forall (fun s => is_Some (as_str (type s))) sl ->
  unknown_type_warnings sl = Ok (unknown_type_warning <$> List.filter unknown_type sl).
Proof.
  induction 1 as [|s sl [t Ht] _ IH]; [done|].
  cbn [unknown_type_warnings List.filter]. rewrite IH.
  assert (is_unknown_type s = Ok (unknown_type s)) as ->.
  { unfold is_unknown_type, unknown_type. by destruct (type s). }
  cbn [mbind outcome_bind mret outcome_ret]. by destruct (unknown_type s).
Qed.

Lemma unknown_type_warnings_ok sl ws :
  unknown_type_warnings sl = Ok ws -> Forall (fun s => is_Some (as_str (type s))) sl.
Proof.
  revert ws. induction sl as [|s sl IH]; intros ws; [constructor|].
  cbn [unknown_type_warnings]. destruct (is_unknown_type s) eqn:Es; [|done].
  cbn [mbind outcome_bind]. destruct (unknown_type_warnings sl) eqn:El; [|done].
  intros _. constructor; [|eauto].
  unfold is_unknown_type in Es. by destruct (type s).
Qed.

Lemma layout_index_errors_checked n sl errors :
  layout_index_errors n sl errors = errors ++ layout_messages n sl.
Proof.
  unfold layout_messages. revert errors.
  induction sl as [|s sl IH]; intros errors; [by rewrite app_nil_r|].
  cbn [layout_index_errors checked]. unfold out_of_range, is_enabled, ge_int.
  destruct (truthy (enabled s)) eqn:E; [|cbn; rewrite E; apply IH].
  destruct (as_int (layout_index s)) as [i|] eqn:Ei.
  - rewrite bool_decide_eq_true_2 by eauto. cbn. rewrite E, Ei. cbn.
    destruct (n <=? i); rewrite IH; [|done].
    by rewrite <- app_assoc.
  - rewrite bool_decide_eq_false_2 by (by intros [? ?]). cbn. by rewrite app_nil_r.
Qed.

Lemma checked_all sl :
  Forall (fun s => is_Some (as_int (layout_index s))) (List.filter is_enabled sl) ->
  checked sl = sl.
Proof.
  induction sl as [|s sl IH]; [done|]. cbn [List.filter checked].
  destruct (is_enabled s); cbn.
  - intros [Hs Hsl]%Forall_cons. rewrite bool_decide_eq_true_2 by done. cbn.
    by rewrite IH.
  - intros Hsl. by rewrite IH.
Qed.

Lemma checked_stops pre bad post :
  Forall (fun s => is_Some (as_int (layout_index s))) (List.filter is_enabled pre) ->
  is_enabled bad = true -> as_int (layout_index bad) = None ->
  checked (pre ++ bad :: post) = pre.
Proof.
  intros Hpre Hbad Hli. induction pre as [|s pre IH].
  - cbn. rewrite Hbad, Hli. by rewrite bool_decide_eq_false_2 by (by intros [? ?]).
  - cbn [app checked]. cbn [List.filter] in Hpre. destruct (is_enabled s); cbn.
    + apply Forall_cons in Hpre as [Hs Hpre]. rewrite bool_decide_eq_true_2 by done.
      cbn. by rewrite IH.
    + by rewrite IH.
Qed.

Lemma validate_result_normal m :
  Forall (fun s => is_Some (as_str (type s))) (slides m) ->
  Forall (fun s => hashable (position s) = true) (List.filter is_enabled (slides m)) ->
  validate_result m =
    Ok (duplicate_messages (slides m) ++
        (unknown_type_warning <$> List.filter unknown_type (slides m)) ++
        required_type_warnings m,
        invalid_mode_errors (slides m) ++
        match presentation m with
        | Some prs => layout_messages (layout_count prs) (slides m)
        | None => []
        end).
Proof.
  intros Hty Hpos. unfold validate_result.
  rewrite duplicate_warnings_normal, unknown_type_warnings_normal by done.
  cbn [mbind outcome_bind mret outcome_ret]. do 2 f_equal.
  destruct (presentation m) as [prs|].
  - apply layout_index_errors_checked.
  - by rewrite app_nil_r.
Qed.

(** X3. The complete result of [validate] on a mapping whose types are
    strings and whose enabled positions are hashable. The warnings are: the
    duplicate-position warning when two enabled entries share a position,
    one warning per entry of unknown type (disabled entries included), and
    the required-type warnings, in this order. The errors are: one per
    entry with an invalid mode (disabled entries included), then, when a
    presentation is bound, one per enabled entry whose layout index is at
    least the layout count, taken among the entries before the first
    enabled entry whose index is not a number. The manager is unchanged. *)
Theorem validate_normal_form (m : SlideMappingManager) :
  Forall (fun s => is_Some (as_str (type s))) (slides m) ->
  Forall (fun s => hashable (position s) = true) (List.filter is_enabled (slides m)) ->
  validate m =
    (Ok (duplicate_messages (slides m) ++
         (unknown_type_warning <$> List.filter unknown_type (slides m)) ++
         required_type_warnings m,
         invalid_mode_errors (slides m) ++
         match presentation m with
         | Some prs => layout_messages (layout_count prs) (slides m)
         | None => []
         end), m).
Proof.
  intros Hty Hpos. rewrite SlideMappingProofs.validate_pure.
  by rewrite validate_result_normal.
Qed.

(** On [unchecked_manager] the only message is the error for [agenda]:
    [final] comes after the entry whose index is a string. *)
Lemma validate_normal_form_witness :
  validate unchecked_manager =
    (Ok ([], [layout_index_error (config "agenda" 5 "dynamic" true 2) 2]),
     unchecked_manager).
Proof.
  rewrite (validate_normal_form unchecked_manager).
  - reflexivity.
  - simpl. repeat constructor; eexists; reflexivity.
  - simpl. repeat constructor.
Defined.

(** X4. The layout check of [validate] ends silently at the first enabled
    entry whose layout index is not a number: the entries after it are not
    checked, so an index past the template goes unreported there. *)
Theorem validate_stops_at_non_number (m : SlideMappingManager) (prs : Presentation)
    (pre : list SlideConfig) (bad : SlideConfig) (post : list SlideConfig) :
  presentation m = Some prs ->
  slides m = pre ++ bad :: post ->
  is_enabled bad = true ->
  as_int (layout_index bad) = None ->
  Forall (fun s => is_Some (as_int (layout_index s))) (List.filter is_enabled pre) ->
  Forall (fun s => is_Some (as_str (type s))) (slides m) ->
  Forall (fun s => hashable (position s) = true) (List.filter is_enabled (slides m)) ->
  exists warnings,
    validate m =
      (Ok (warnings,
           invalid_mode_errors (slides m) ++
           ((fun s => layout_index_error s (layout_count prs)) <$>
              List.filter (out_of_range (layout_count prs)) pre)), m).
Proof.
  intros Hprs Hsl Hbad Hli Hpre Hty Hpos. eexists.
  rewrite SlideMappingProofs.validate_pure, validate_result_normal by done.
  rewrite Hprs. unfold layout_messages. rewrite Hsl at 4.
  by rewrite checked_stops.
Qed.

Lemma validate_stops_at_non_number_witness :
  exists warnings,
    validate unchecked_manager =
      (Ok (warnings, [layout_index_error (config "agenda" 5 "dynamic" true 2) 2]),
       unchecked_manager).
Proof.
  apply (validate_stops_at_non_number unchecked_manager two_layouts
           [ config "title" 0 "dynamic" true 1; config "agenda" 5 "dynamic" true 2;
             config "introduction" 7 "dynamic" false 3 ]
           (mkSlideConfig (PStr "methodology") (PStr "1") (PStr "dynamic") (PBool true)
              (PInt 4))
           [config "final" 12 "dynamic" true 5]).
  - reflexivity.
  - reflexivity.
  - reflexivity.
  - reflexivity.
  - simpl. repeat constructor; eexists; reflexivity.
  - simpl. repeat constructor; eexists; reflexivity.
  - simpl. repeat constructor.
Defined.

Lemma traverse_hash_key_raises (l : list pyval) e :
  traverse hash_key l = Raise e -> e = TypeError.
Proof.
  induction l as [|v l IH]; [done|]. cbn [traverse].
  destruct (hash_key v) eqn:Ev; cbn [mbind outcome_bind].
  - destruct (traverse hash_key l); [done|]. intros [= <-]. by apply IH.
  - intros [= <-]. destruct v; simpl in Ev; congruence.
Qed.

Lemma unknown_type_warnings_raises sl e :
  unknown_type_warnings sl = Raise e -> e = TypeError \/ e = AttributeError.
Proof.
  induction sl as [|s sl IH]; [done|]. cbn [unknown_type_warnings].
  destruct (is_unknown_type s) eqn:Es; cbn [mbind outcome_bind].
  - destruct (unknown_type_warnings sl); [done|]. intros [= <-]. by apply IH.
  - intros [= <-]. unfold is_unknown_type in Es.
    destruct (type s); simpl in Es; try congruence; injection Es as <-; auto.
Qed.

(** X5. [validate] returns exactly when every entry's type is a string and
    every enabled entry's position is hashable; otherwise it raises
    [TypeError] or [AttributeError]. Either way the manager is left as it
    was. *)
Theorem validate_returns_iff (m : SlideMappingManager) :
  (validate m).2 = m /\
  ((exists r, (validate m).1 = Ok r) <->
   Forall (fun s => hashable (position s) = true) (List.filter is_enabled (slides m)) /\
   Forall (fun s => is_Some (as_str (type s))) (slides m)) /\
  (forall e, (validate m).1 = Raise e -> e = TypeError \/ e = AttributeError).
Proof.
  rewrite SlideMappingProofs.validate_pure. cbn [fst snd].
  split; [done|]. split; [split|].
  - intros [r Hr]. unfold validate_result in Hr.
    destruct (duplicate_warnings (slides m)) as [dup|] eqn:Hdup; [|done].
    cbn [mbind outcome_bind] in Hr.
    destruct (unknown_type_warnings (slides m)) as [unknown|] eqn:Hun; [|done].
    split; [|by eapply unknown_type_warnings_ok].
    unfold duplicate_warnings, len_set in Hdup.
    destruct (traverse hash_key
                (position <$> List.filter (fun s => truthy (enabled s)) (slides m)))
      as [ks|] eqn:Hks; [|done].
    apply traverse_hash_key_ok in Hks. by apply Forall_fmap in Hks.
  - intros [Hpos Hty]. rewrite validate_result_normal by done. eauto.
  - intros e. unfold validate_result.
    destruct (duplicate_warnings (slides m)) as [dup|] eqn:Hdup.
    + cbn [mbind outcome_bind].
      destruct (unknown_type_warnings (slides m)) as [unknown|] eqn:Hun; [done|].
      intros [= <-]. by eapply unknown_type_warnings_raises.
    + cbn [mbind outcome_bind]. intros [= <-]. left.
      unfold duplicate_warnings, len_set in Hdup.
      destruct (traverse hash_key
                  (position <$> List.filter (fun s => truthy (enabled s)) (slides m)))
        as [ks|] eqn:Hks; [done|].
      cbn [mbind outcome_bind] in Hdup. injection Hdup as <-.
      by eapply traverse_hash_key_raises.
Qed.

(** *** [validate] and [get_layout_index] together *)

Lemma find_config_elem slide_type sl c : find_config slide_type sl = Some c -> c ∈ sl.
Proof.
  induction sl as [|s sl IH]; [done|]. simpl.
  destruct (eq_str (type s) slide_type).
  - intros [= <-]. by left.
  - intros Hc. right. by apply IH.
Qed.

Lemma filter_nil_elem {X} (f : X -> bool) l x :
  List.filter f l = [] -> x ∈ l -> f x = false.
Proof.
  induction l as [|y l IH]; [by intros _ ?%elem_of_nil|].
  cbn [List.filter]. destruct (f y) eqn:E; [done|].
  intros Hl [->|Hx]%elem_of_cons; [done | by apply IH].
Qed.

Lemma filter_cons_true {X} (f : X -> bool) x l :
  f x = true -> List.filter f (x :: l) = x :: List.filter f l.
Proof. intros E. cbn [List.filter]. by rewrite E. Qed.

Lemma filter_cons_false {X} (f : X -> bool) x l :
  f x = false -> List.filter f (x :: l) = List.filter f l.
Proof. intros E. cbn [List.filter]. by rewrite E. Qed.

(** X6. When [validate] reports no error on a mapping bound to a
    presentation, and the layout indices of the enabled entries are
    numbers, [get_layout_index] never falls back for an enabled mapped
    type: it returns the configured index. *)
Theorem validated_index_is_used (m : SlideMappingManager) (prs : Presentation)
    (warnings : list fstring) (slide_type : string) (c : SlideConfig)
    (fallback : pyval) :
  presentation m = Some prs ->
  Forall (fun s => is_Some (as_int (layout_index s))) (List.filter is_enabled (slides m)) ->
  validate m = (Ok (warnings, []), m) ->
  get_slide_config m slide_type = Some c ->
  is_enabled c = true ->
  get_layout_index m slide_type fallback = layout_index c.
Proof.
  intros Hprs Hint Hv Hc Hen.
  rewrite SlideMappingProofs.validate_pure in Hv. injection Hv as Hv.
  unfold validate_result in Hv.
  destruct (duplicate_warnings (slides m)); [|done]. cbn [mbind outcome_bind] in Hv.
  destruct (unknown_type_warnings (slides m)); [|done].
  cbn [mbind outcome_bind mret outcome_ret] in Hv. rewrite Hprs in Hv.
  injection Hv as _ Herr. rewrite layout_index_errors_checked in Herr.
  apply app_eq_nil in Herr as [_ Herr]. unfold layout_messages in Herr.
  apply fmap_nil_inv in Herr. rewrite checked_all in Herr by done.
  pose proof (find_config_elem _ _ _ Hc) as Hin.
  pose proof (filter_nil_elem _ _ _ Herr Hin) as Hc_in.
  assert (c ∈ List.filter is_enabled (slides m)) as Hc_en.
  { apply list_elem_of_In, filter_In. split; [by apply list_elem_of_In | done]. }
  rewrite Forall_forall in Hint. destruct (Hint c Hc_en) as [i Hi].
  unfold out_of_range in Hc_in. rewrite Hen, Hi in Hc_in. simpl in Hc_in.
  unfold get_layout_index. rewrite Hc, Hprs. unfold is_enabled in Hen. rewrite Hen.
  unfold ge_int. rewrite Hi. simpl. by rewrite Hc_in.
Qed.

Lemma validated_index_is_used_witness :
  get_layout_index fitting_manager "final" (PInt 0) = PInt 1.
Proof.
  apply (validated_index_is_used fitting_manager two_layouts [] "final"
           (config "final" 1 "dynamic" true 4) (PInt 0)).
  - reflexivity.
  - simpl. repeat constructor; eexists; reflexivity.
  - reflexivity.
  - reflexivity.
  - reflexivity.
Defined.

Lemma validate_default prs :
  validate (mkManager (Some prs) DEFAULT_MAPPING default_slides) =
    (Ok ([], layout_messages (layout_count prs) default_slides),
     mkManager (Some prs) DEFAULT_MAPPING default_slides).
Proof.
  rewrite SlideMappingProofs.validate_pure, validate_result_normal.
  - reflexivity.
  - simpl. repeat constructor; eexists; reflexivity.
  - simpl. repeat constructor.
Qed.

Lemma default_out_of_range n ty li pos :
  out_of_range n (default_config ty li pos) = (n <=? li).
Proof. reflexivity. Qed.

Lemma default_layout_messages_nil n :
  layout_messages n default_slides = [] <-> 13 <= n.
Proof.
  unfold layout_messages. change (checked default_slides) with default_slides. split.
  - intros E%fmap_nil_inv.
    assert (default_config "final" 12 14 ∈ default_slides) as Hin.
    { apply list_elem_of_In. simpl. tauto. }
    pose proof (filter_nil_elem _ _ _ E Hin) as Hf.
    rewrite default_out_of_range in Hf. lia.
  - intros Hn. rewrite SlideMappingProofs.filter_none; [done|].
    unfold default_slides. repeat constructor; rewrite default_out_of_range; lia.
Qed.

(** X7. The built-in default mapping, bound to a template, validates
    without a warning, and without an error exactly when the template has at
    least thirteen layouts. With two to twelve layouts the one error is for
    [final], whose layout 12 then falls back in [get_layout_index]. *)
Theorem default_mapping_needs_thirteen_layouts (prs : Presentation) :
  exists m errors,
    __init__ PNone (Some prs) = Ok m /\
    validate m = (Ok ([], errors), m) /\
    (errors = [] <-> 13 <= layout_count prs) /\
    (2 <= layout_count prs < 13 ->
       errors = [layout_index_error (default_config "final" 12 14) (layout_count prs)] /\
       get_layout_index m "final" (PInt 1) = PInt 1).
Proof.
  exists (mkManager (Some prs) DEFAULT_MAPPING default_slides).
  exists (layout_messages (layout_count prs) default_slides).
  split; [by rewrite SlideMappingProofs.init_cases|].
  split; [apply validate_default|].
  split; [apply default_layout_messages_nil|].
  intros [H2 H13]. split.
  - unfold layout_messages. change (checked default_slides) with default_slides.
    unfold default_slides.
    rewrite !filter_cons_false by (rewrite default_out_of_range; lia).
    rewrite filter_cons_true by (rewrite default_out_of_range; lia). done.
  - unfold get_layout_index.
    replace (get_slide_config (mkManager (Some prs) DEFAULT_MAPPING default_slides)
               "final")
      with (Some (default_config "final" 12 14)) by reflexivity.
    cbn. destruct (Z.leb_spec (layout_count prs) 12); [done | lia].
Qed.

(** *** [get_slides_by_position] *)

Section ordering.
Context {A : Type} (key : A -> pyval).

Lemma Forall_list_filter (P : A -> Prop) (f : A -> bool) l :
  Forall P l -> Forall P (List.filter f l).
Proof.
  induction 1 as [|x l Hx _ IH]; [constructor|].
  cbn [List.filter]. destruct (f x); [by constructor | done].
Qed.

Lemma list_filter_comm (f g : A -> bool) l :
  List.filter f (List.filter g l) = List.filter g (List.filter f l).
Proof.
  induction l as [|x l IH]; [done|]. cbn [List.filter].
  destruct (g x) eqn:Eg, (f x) eqn:Ef; cbn [List.filter];
    rewrite ?Eg, ?Ef, ?IH; done.
Qed.

Lemma StronglySorted_list_filter (R : A -> A -> Prop) (f : A -> bool) l :
  StronglySorted R l -> StronglySorted R (List.filter f l).
Proof.
  induction 1 as [|x l _ IH Hx]; [constructor|].
  cbn [List.filter]. destruct (f x); [|done].
  constructor; [done|]. by apply Forall_list_filter.
Qed.

Lemma sorted_of_sorted l :
  Forall (fun x => is_Some (as_int (key x))) l ->
  StronglySorted (int_key_le key) l ->
  sorted key l = Ok (Some l).
Proof.
  intros Hint Hsorted.
  destruct (SlideMappingProofs.sorted_stable key l Hint) as (l' & -> & Hperm & Hs & Hf).
  do 2 f_equal. apply (SlideMappingProofs.stable_sorted_unique key); try done.
  by rewrite Hperm.
Qed.

Lemma sorted_filter (f : A -> bool) l l' :
  Forall (fun x => is_Some (as_int (key x))) l ->
  sorted key l = Ok (Some l') ->
  sorted key (List.filter f l) = Ok (Some (List.filter f l')).
Proof.
  intros Hint Hl.
  destruct (SlideMappingProofs.sorted_stable key l Hint) as (l0 & E & Hperm & Hs & Hf).
  rewrite Hl in E. injection E as <-.
  pose proof (Forall_list_filter _ f _ Hint) as Hint_f.
  destruct (SlideMappingProofs.sorted_stable key _ Hint_f)
    as (l1 & -> & Hperm1 & Hs1 & Hf1).
  do 2 f_equal. apply (SlideMappingProofs.stable_sorted_unique key).
  - by rewrite Hperm1.
  - apply Forall_list_filter. by rewrite Hperm.
  - done.
  - by apply StronglySorted_list_filter.
  - intros j. rewrite Hf1. rewrite !(list_filter_comm (key_is key j)). by rewrite Hf.
Qed.

End ordering.

Lemma get_slides_by_position_sorted m :
  get_slides_by_position m =
    (sorted position (List.filter is_enabled (slides m)), m).
Proof. reflexivity. Qed.

(** X8. When the enabled entries already stand in ascending order of
    position, [get_slides_by_position] returns them in document order,
    entries with equal positions included. *)
Theorem get_slides_by_position_in_order (m : SlideMappingManager) :
  Forall (fun s => is_Some (as_int (position s))) (List.filter is_enabled (slides m)) ->
  StronglySorted (int_key_le position) (List.filter is_enabled (slides m)) ->
  get_slides_by_position m = (Ok (Some (List.filter is_enabled (slides m))), m).
Proof.
  intros Hint Hsorted. rewrite get_slides_by_position_sorted.
  by rewrite sorted_of_sorted.
Qed.

Lemma get_slides_by_position_in_order_witness :
  get_slides_by_position fitting_manager =
    (Ok (Some [ config "title" 0 "dynamic" true 1;
                config "custom_notes" 1 "static" true 2;
                config "final" 1 "dynamic" true 4 ]), fitting_manager).
Proof.
  apply (get_slides_by_position_in_order fitting_manager).
  - simpl. repeat constructor; eexists; reflexivity.
  - simpl.
    repeat first [ apply SSorted_nil | apply SSorted_cons | apply Forall_nil
                 | apply Forall_cons_2 ];
      try exact I;
      eexists _, _; (split; [reflexivity | split; [reflexivity | lia]]).
Defined.

(** X9. Taking entries out of the mapping takes them out of the result of
    [get_slides_by_position] and leaves the remaining entries in the same
    relative order. *)
Theorem get_slides_by_position_removal (m : SlideMappingManager)
    (keep : SlideConfig -> bool) (l : list SlideConfig) :
  Forall (fun s => is_Some (as_int (position s))) (List.filter is_enabled (slides m)) ->
  get_slides_by_position m = (Ok (Some l), m) ->
  get_slides_by_position (with_slide_list m (List.filter keep (slides m))) =
    (Ok (Some (List.filter keep l)), with_slide_list m (List.filter keep (slides m))).
Proof.
  intros Hint Hl. rewrite get_slides_by_position_sorted in *.
  injection Hl as Hl. f_equal. cbn [slides with_slide_list].
  rewrite list_filter_comm. by apply sorted_filter.
Qed.

Lemma get_slides_by_position_removal_witness :
  let keep s := negb (eq_str (type s) "title") in
  get_slides_by_position (with_slide_list mixed_manager (List.filter keep mixed_slides)) =
    (Ok (Some
       [ mkSlideConfig (PStr "custom_a") (PInt 1) (PStr "static") (PBool true) (PInt 1);
         mkSlideConfig (PStr "finding") (PInt 1) (PStr "dynamic") (PBool true) (PInt 2);
         mkSlideConfig (PStr "final") (PInt 1) (PStr "static") (PBool true) (PInt 2) ]),
     with_slide_list mixed_manager (List.filter keep mixed_slides)).
Proof.
  intros keep.
  apply (get_slides_by_position_removal mixed_manager keep
           [ mkSlideConfig (PStr "title") (PInt 0) (PStr "dynamic") (PBool true) (PInt 1);
             mkSlideConfig (PStr "custom_a") (PInt 1) (PStr "static") (PBool true) (PInt 1);
             mkSlideConfig (PStr "finding") (PInt 1) (PStr "dynamic") (PBool true) (PInt 2);
             mkSlideConfig (PStr "final") (PInt 1) (PStr "static") (PBool true) (PInt 2) ]).
  - simpl. repeat constructor; eexists; reflexivity.
  - reflexivity.
Defined.

(** *** Several entries of one type *)

(** X10. Entries of the same type are not merged. The lookups by type see
    the first entry only: when it is disabled, [is_slide_enabled] is false
    and [get_layout_index] gives the fallback, even though a later enabled
    entry of the same type is still returned by [get_slides_by_position],
    and so gets its slides in [run]. *)
Theorem first_entry_decides_type (m : SlideMappingManager) (slide_type : string)
    (c1 c2 : SlideConfig) (fallback : pyval) :
  get_slide_config m slide_type = Some c1 ->
  is_enabled c1 = false ->
  c2 ∈ slides m ->
  type c2 = PStr slide_type ->
  is_enabled c2 = true ->
  Forall (fun s => is_Some (as_int (position s))) (List.filter is_enabled (slides m)) ->
  truthy (is_slide_enabled m slide_type) = false /\
  get_layout_index m slide_type fallback = fallback /\
  exists l, get_slides_by_position m = (Ok (Some l), m) /\ c2 ∈ l.
Proof.
  intros Hc1 Hdis Hin Hty Hen Hpos. unfold is_enabled in Hdis.
  split; [|split].
  - unfold is_slide_enabled. by rewrite Hc1.
  - unfold get_layout_index. by rewrite Hc1, Hdis.
  - destruct (SlideMappingProofs.sorted_stable position _ Hpos) as (l & Hl & Hperm & _).
    exists l. rewrite get_slides_by_position_sorted, Hl. split; [done|].
    rewrite Hperm. apply list_elem_of_In, filter_In. split; [|done].
    by apply list_elem_of_In.
Qed.

Lemma first_entry_decides_type_witness :
  let m := mkManager None [("version", PInt 1)]
             [ config "finding" 1 "dynamic" false 1;
               config "finding" 2 "dynamic" true 2 ] in
  truthy (is_slide_enabled m "finding") = false /\
  get_layout_index m "finding" (PInt 0) = PInt 0 /\
  exists l, get_slides_by_position m = (Ok (Some l), m) /\
            config "finding" 2 "dynamic" true 2 ∈ l.
Proof.
  intros m.
  apply (first_entry_decides_type m "finding" (config "finding" 1 "dynamic" false 1)
           (config "finding" 2 "dynamic" true 2) (PInt 0)).
  - reflexivity.
  - reflexivity.
  - simpl. right. left.
  - reflexivity.
  - reflexivity.
  - simpl. repeat constructor; eexists; reflexivity.
Defined.

End SlideMappingFacts.

(** ** More on text frames: copying, rendering, footers *)

Module PptxFacts.
Import Pptx PptxSpec RenderSpec.

(** *** [copy_text_from_layout_preserving_format] *)

Lemma copy_paragraphs_append i src (tf : list Paragraph) :
  copy_paragraphs (S i) src tf = tf ++ (copied <$> src).
Proof.
  revert i tf. induction src as [|src_p rest IH]; intros i tf.
  - by rewrite app_nil_r.
  - cbn [copy_paragraphs]. rewrite IH. by rewrite <- app_assoc.
Qed.

Lemma copy_paragraphs_cleared src_p rest (dest_p : Paragraph) :
  copy_paragraphs 0 (src_p :: rest) [clear_paragraph dest_p] = copied <$> src_p :: rest.
Proof.
  cbn [copy_paragraphs]. by rewrite copy_paragraphs_append.
Qed.

(** X11. When both shapes have a text frame and the destination has a
    paragraph, [copy_text_from_layout_preserving_format] replaces the whole
    text of the destination by the paragraphs of the source, one for one:
    each keeps the alignment, the level and the runs of its source
    paragraph, each run with its text as the run text setter stores it and
    with the name, size, bold, italic, underline and RGB or theme colour
    of its font. Line breaks and fields of the source are not copied. A
    source without paragraphs only clears the destination, of which the
    emptied first paragraph remains. A destination whose text frame has no
    paragraph makes the call raise [IndexError]; a missing text frame on
    either side changes nothing. *)
Theorem copy_text_from_layout_result (dest_shape source_ph : Shape) :
  copy_text_from_layout_preserving_format dest_shape source_ph =
    match text_frame source_ph, text_frame dest_shape with
    | Some _, Some [] => Raise IndexError
    | Some (src_p :: rest), Some (_ :: _) =>
        Ok (with_text_frame dest_shape (copied <$> src_p :: rest))
    | Some [], Some (dest_p :: _) =>
        Ok (with_text_frame dest_shape [clear_paragraph dest_p])
    | _, _ => Ok dest_shape
    end.
Proof.
  unfold copy_text_from_layout_preserving_format.
  destruct (text_frame source_ph) as [[|src_p rest]|],
           (text_frame dest_shape) as [[|dest_p others]|];
    try done.
  cbn [clear_text_frame mbind outcome_bind]. by rewrite copy_paragraphs_cleared.
Qed.

(** *** Plain-text substitution in [render_jinja2_in_textframe] *)

Section plain_text.
Context `{External}.

Lemma paragraph_of_frame_state (l : list Paragraph) (i : nat) :
  paragraph_of i (frame_state l) = l !! i.
Proof.
  unfold paragraph_of, frame_state. cbn [attached detached].
  pose proof (PptxProofs.lookup_tag_imap l 0 i) as E. cbn in E.
  unfold tag_paragraphs. rewrite E. by destruct (l !! i).
Qed.

Lemma update_tag_other tag f (l : list (nat * Paragraph)) :
  Forall (fun tp => tp.1 <> tag) l -> update_tag tag f l = l.
Proof.
  induction 1 as [|tp l Htp _ IH]; [done|].
  unfold update_tag in *. rewrite fmap_cons, IH.
  by rewrite bool_decide_eq_false_2.
Qed.

Lemma imap_tags_above (k : nat) (l : list Paragraph) :
  Forall (fun tp : nat * Paragraph => tp.1 <> k)
         (imap (fun j q => (S (k + j), q)) l).
Proof.
  assert (forall d, Forall (fun tp : nat * Paragraph => tp.1 <> k)
                      (imap (fun j q => (S (k + d + j), q)) l)) as Hgen.
  { induction l as [|q l IH]; intros d; [constructor|].
    rewrite imap_cons. constructor; [simpl; lia|].
    specialize (IH (S d)).
    erewrite imap_ext; [exact IH|]. intros j x _. simpl. f_equal. lia. }
  specialize (Hgen 0%nat).
  erewrite imap_ext; [exact Hgen|]. intros j x _. simpl. f_equal. lia.
Qed.

Lemma update_tag_imap k f pre (p : Paragraph) post :
  update_tag (k + length pre) f (imap (fun j q => ((k + j)%nat, q)) (pre ++ p :: post)) =
  imap (fun j q => ((k + j)%nat, q)) (pre ++ f p :: post).
Proof.
  revert k. induction pre as [|a pre IH]; intros k.
  - cbn [app length]. rewrite !imap_cons. unfold update_tag. rewrite fmap_cons.
    cbn [fst snd]. rewrite bool_decide_eq_true_2 by lia. f_equal.
    apply update_tag_other.
    erewrite imap_ext; [apply (imap_tags_above (k + 0))|].
    intros j x _. simpl. f_equal. lia.
  - cbn [app length]. rewrite !imap_cons. unfold update_tag. rewrite fmap_cons.
    cbn [fst snd]. rewrite bool_decide_eq_false_2 by lia. f_equal.
    specialize (IH (S k)). unfold update_tag in IH.
    replace (k + S (length pre))%nat with (S k + length pre)%nat by lia.
    erewrite (imap_ext _ (fun j q => ((S k + j)%nat, q)) (pre ++ p :: post)).
    + rewrite IH. apply imap_ext. intros j x _. simpl. f_equal. lia.
    + intros j x _. simpl. f_equal. lia.
Qed.

Lemma update_paragraph_frame_state f pre (p : Paragraph) post :
  update_paragraph (length pre) f (frame_state (pre ++ p :: post)) =
  frame_state (pre ++ f p :: post).
Proof.
  unfold update_paragraph, frame_state. cbn [attached detached]. f_equal.
  apply (update_tag_imap 0 f pre p post).
Qed.





(** X13. A one-paragraph text frame whose expression renders to HTML. The
    runs are removed before the converter runs. When the converter raises,
    the exception is swallowed and the frame stays as the converter left
    it: if it had changed nothing yet, the paragraph is left without runs
    and the text of the expression is lost. When the converter returns,
    the paragraph is deleted if it reads blank. *)
Theorem render_html_paragraph (p : Paragraph) (context : pydict)
    (rendered_text : string) (st' : RenderState) (failure : option exn) :
  has_expression (reconstructed_text p) = true ->
  jinja_render (reconstructed_text p) context = Ok rendered_text ->
  is_html rendered_text = true ->
  html_to_pptx rendered_text (frame_state [remove_runs p]) = (st', failure) ->
  render_jinja2_in_textframe [p] context =
    (Ok tt,
     (attached
        match failure with
        | Some _ => st'
        | None =>
            if is_blank (paragraph_text (default empty_paragraph (paragraph_of 0 st')))
            then delete_paragraph 0 st'
            else st'
        end).*2) /\
  (is_Some failure -> st' = frame_state [remove_runs p] ->
   render_jinja2_in_textframe [p] context = (Ok tt, [remove_runs p]) /\
   runs (remove_runs p) = []).
Proof.
  intros Hexpr Hrender Hhtml Hconv.
  assert (render_jinja2_in_textframe [p] context =
          (Ok tt,
           (attached
              match failure with
              | Some _ => st'
              | None =>
                  if is_blank
                       (paragraph_text (default empty_paragraph (paragraph_of 0 st')))
                  then delete_paragraph 0 st'
                  else st'
              end).*2)) as Hresult.
  { unfold render_jinja2_in_textframe. cbn [length seq render_paragraphs].
    change (mkRenderState (tag_paragraphs [p]) []) with (frame_state ([] ++ p :: [])).
    unfold mbind at 1, stateful_bind.
    unfold render_paragraph, mbind, stateful_bind, get_paragraph, try_catch.
    rewrite paragraph_of_frame_state. cbn [app lookup list_lookup default].
    change (id p) with p. rewrite Hexpr.
    unfold render_expression, mbind, stateful_bind, lift, modify.
    rewrite Hrender, Hhtml.
    pose proof (update_paragraph_frame_state remove_runs [] p []) as Hupd.
    cbn [length app] in Hupd. cbn [app]. rewrite Hupd.
    unfold run_html_to_pptx. rewrite Hconv.
    destruct failure as [e|].
    - by destruct e.
    - unfold get_paragraph.
      by destruct (is_blank (paragraph_text (default empty_paragraph (paragraph_of 0 st')))). }
  split; [exact Hresult|].
  intros [e ->] ->. rewrite Hresult. split.
  - cbn [frame_state attached]. by rewrite PptxProofs.tag_paragraphs_snd.
  - apply PptxProofs.item_runs_no_runs.
Qed.

(** *** [render_jinja2_in_shape] *)





End plain_text.

(** *** [process_footers] *)

Section footers_total.
Context `{External}.

Lemma index_in_range {X} (l : list X) (k : Z) :
  0 <= k < Z.of_nat (length l) ->
  exists x, index l (PInt k) = Ok x /\ x ∈ l.
Proof.
  intros [H0 Hn]. unfold index. cbn [as_int].
  destruct (Z.ltb_spec k 0); [lia|].
  destruct (Z.leb_spec 0 k); [|lia]. destruct (Z.ltb_spec k (Z.of_nat (length l))); [|lia].
  cbn [andb].
  destruct (l !! Z.to_nat k) as [x|] eqn:E.
  - exists x. split; [done|]. by eapply list_elem_of_lookup_2.
  - apply lookup_ge_None in E. lia.
Qed.

Lemma scan_placeholders_bound (placeholders : list Shape) :
  forall (k : nat) (acc : Z * Z * Z * Z),
    acc.1.1.2 < Z.of_nat k -> acc.1.2 < Z.of_nat k -> acc.2 < Z.of_nat k ->
    let r :=
      foldl
        (fun '(_, footer_idx, slide_number_idx, date_idx) '(idx, place) =>
           (idx,
            (if contains "Footer" (shape_name place) then idx else footer_idx),
            (if contains "Slide Number" (shape_name place) then idx else slide_number_idx),
            (if contains "Date" (shape_name place) then idx else date_idx)))
        acc
        (imap (fun i place => (Z.of_nat (k + i), place)) placeholders) in
    r.1.1.2 < Z.of_nat (k + length placeholders) /\
    r.1.2 < Z.of_nat (k + length placeholders) /\
    r.2 < Z.of_nat (k + length placeholders).
Proof.
  induction placeholders as [|place rest IH]; intros k [[[i f] s] d] Hf Hs Hd.
  - cbn in *. lia.
  - rewrite imap_cons. cbn [foldl].
    erewrite (imap_ext _ (fun i place => (Z.of_nat (S k + i), place)));
      [|intros j x _; simpl; do 2 f_equal; lia].
    cbn [length]. replace (k + S (length rest))%nat with (S k + length rest)%nat by lia.
    apply IH; cbn [fst snd] in *;
      repeat match goal with |- context [if ?b then _ else _] => destruct b end; lia.
Qed.

Lemma scan_placeholders_in_range idx (placeholders : list Shape) :
  let r := scan_placeholders idx placeholders in
  r.1.1.2 < Z.of_nat (length placeholders) /\
  r.1.2 < Z.of_nat (length placeholders) /\
  r.2 < Z.of_nat (length placeholders).
Proof.
  destruct placeholders as [|place rest].
  - cbn. lia.
  - unfold scan_placeholders. rewrite imap_cons. cbn [foldl].
    pose proof (scan_placeholders_bound rest 1
                  (0,
                   (if contains "Footer" (shape_name place) then 0 else -1),
                   (if contains "Slide Number" (shape_name place) then 0 else -1),
                   (if contains "Date" (shape_name place) then 0 else -1))) as Hb.
    cbn [fst snd length] in *. apply Hb;
      repeat match goal with |- context [if ?b then _ else _] => destruct b end; lia.
Qed.

Lemma update_last_shape_added f slide sh sh' :
  f sh = Ok sh' ->
  update_last_shape f (add_shape slide sh) = Ok (add_shape slide sh').
Proof.
  intros Hf. unfold update_last_shape, add_shape. cbn [shapes slide_layout notes_text_frame].
  rewrite reverse_snoc, Hf. cbn [mbind outcome_bind mret outcome_ret].
  by rewrite reverse_involutive.
Qed.

(** One footer element: the placeholder is cloned and the clone filled in. *)
Lemma clone_and_fill (f : Shape -> Shape -> outcome Shape) slide k :
  0 < k < Z.of_nat (length (layout_placeholders (slide_layout slide))) ->
  (forall ph, exists tf,
     f ph (cloned_placeholder slide ph) = Ok (with_text_frame (cloned_placeholder slide ph) tf)) ->
  exists ph tf,
    ph ∈ layout_placeholders (slide_layout slide) /\
    ('(layout_placeholder, slide') ← clone_placeholder slide (slide_layout slide) k;
     update_last_shape (f layout_placeholder) slide') =
    Ok (add_shape slide (with_text_frame (cloned_placeholder slide ph) tf)).
Proof.
  intros Hk Hf. unfold clone_placeholder.
  destruct (index_in_range (layout_placeholders (slide_layout slide)) k) as (ph & -> & Hin);
    [lia|].
  destruct (Hf ph) as [tf Htf]. exists ph, tf. split; [done|].
  cbn [mbind outcome_bind mret outcome_ret].
  by apply update_last_shape_added.
Qed.

Lemma clones_added_refl slide : clones_added 0 slide slide.
Proof.
  split; [done|]. split; [done|]. exists []. rewrite app_nil_r.
  split; [done|]. split; [done | constructor].
Qed.

Lemma clones_added_le n n' slide slide' :
  (n <= n')%nat -> clones_added n slide slide' -> clones_added n' slide slide'.
Proof.
  intros Hn (Hl & Hnotes & added & Hs & Hlen & Hall).
  split; [done|]. split; [done|]. exists added. split; [done|]. split; [lia | done].
Qed.

(** One of the three steps of the loop body. *)
Lemma footer_step (f : Shape -> Shape -> outcome Shape) n slide0 slide k :
  clones_added n slide0 slide ->
  k < Z.of_nat (length (layout_placeholders (slide_layout slide0))) ->
  (forall sl ph, exists tf,
     f ph (cloned_placeholder sl ph) = Ok (with_text_frame (cloned_placeholder sl ph) tf)) ->
  exists slide',
    (if 0 <? k then
       '(layout_placeholder, slide1) ← clone_placeholder slide (slide_layout slide0) k;
       update_last_shape (f layout_placeholder) slide1
     else Ok slide) = Ok slide' /\
    clones_added (S n) slide0 slide'.
Proof.
  intros Hadded Hk Hf. destruct (Z.ltb_spec 0 k) as [H0|H0].
  - destruct Hadded as (Hl & Hnotes & added & Hs & Hlen & Hall).
    destruct (clone_and_fill f slide k) as (ph & tf & Hin & E).
    { rewrite Hl. lia. }
    { intros ph. apply Hf. }
    rewrite Hl in E, Hin. rewrite E. eexists. split; [done|].
    split; [done|]. split; [done|].
    exists (added ++ [with_text_frame (cloned_placeholder slide ph) tf]).
    cbn [add_shape shapes]. rewrite Hs, <- app_assoc. split; [done|].
    rewrite length_app. cbn [length]. split; [lia|].
    apply Forall_app. split; [done|]. constructor; [|constructor]. by exists ph.
  - exists slide. split; [done|]. apply (clones_added_le n); [lia | done].
Qed.

Lemma process_slide_footers_appends idx slide :
  exists slide', process_slide_footers idx slide = Ok slide' /\ footers_added slide slide'.
Proof.
  unfold process_slide_footers, footers_added.
  pose proof (scan_placeholders_in_range idx (layout_placeholders (slide_layout slide)))
    as Hrange.
  destruct (scan_placeholders idx (layout_placeholders (slide_layout slide)))
    as [[[i f] s] d].
  cbn [fst snd] in Hrange. destruct Hrange as (Hf & Hs & Hd).
  destruct (0 <? i).
  - destruct (footer_step (fun ph => set_shape_text (shape_text ph)) 0 slide slide f)
      as (slide1 & E1 & H1); [apply clones_added_refl | done | |].
    { intros sl ph. by eexists. }
    cbv beta in E1. rewrite E1. cbn [mbind outcome_bind].
    destruct (footer_step (fun _ => add_slide_number) 1 slide slide1 s)
      as (slide2 & E2 & H2); [done | done | |].
    { intros sl ph. by eexists. }
    cbv beta in E2. rewrite E2. cbn [mbind outcome_bind].
    destruct (footer_step (fun _ => set_shape_text today) 2 slide slide2 d)
      as (slide3 & E3 & H3); [done | done | |].
    { intros sl ph. by eexists. }
    cbv beta in E3. rewrite E3. by exists slide3.
  - exists slide. split; [done|]. apply (clones_added_le 0); [lia|].
    apply clones_added_refl.
Qed.

Lemma process_footers_from_appends idx sl :
  exists sl', process_footers_from idx sl = Ok sl' /\ Forall2 footers_added sl sl'.
Proof.
  revert idx. induction sl as [|slide rest IH]; intros idx.
  - exists []. split; [done | constructor].
  - cbn [process_footers_from].
    destruct (process_slide_footers_appends idx slide) as (slide' & -> & Hslide).
    destruct (IH (idx + 1)) as (rest' & -> & Hrest).
    exists (slide' :: rest'). split; [done|]. by constructor.
Qed.

(** X16. [process_footers] never raises: every placeholder index it clones
    from is in range. It leaves the layouts, the number and order of the
    slides, and on each slide the layout, the notes and the existing shapes
    as they are; it only appends shapes, at most three per slide, each a
    clone of a placeholder of the slide's layout. *)
Theorem process_footers_only_appends (ppt_presentation : Presentation) :
  exists sl',
    process_footers ppt_presentation =
      Ok (mkPresentation (slide_layouts ppt_presentation) sl') /\
    Forall2 footers_added (PptxModel.slides ppt_presentation) sl'.
Proof.
  unfold process_footers.
  destruct (process_footers_from_appends 0 (PptxModel.slides ppt_presentation))
    as (sl' & -> & Hsl).
  by exists sl'.
Qed.

End footers_total.

(** *** [set_text_preserving_format], [prepare_for_pptx], [create_static_slide] *)






Section helpers.
Context `{External}.

Lemma remove_cr_clean s : contains carriage_return (remove_cr s) = false.
Proof.
  induction s as [|a s IH]; [done|]. cbn [remove_cr].
  destruct (nat_of_ascii a =? 13)%nat eqn:E; [done|].
  cbn [contains]. rewrite IH, orb_false_r.
  unfold carriage_return. cbn [String.prefix].
  destruct (ascii_dec (ascii_of_nat 13) a) as [<-|]; [|done].
  by rewrite nat_ascii_embedding in E by lia.
Qed.

(** X18. [prepare_for_pptx] always returns text without a carriage return.
    Any falsy value (the empty string and [None] among them) reads [N/A],
    and a value the HTML parser fails on reads as the empty string. *)
Theorem prepare_for_pptx_clean (value : pyval) :
  contains carriage_return (prepare_for_pptx value) = false /\
  (truthy value = false -> prepare_for_pptx value = "N/A") /\
  (truthy value = true ->
   forall e, soup_text value = Raise e -> prepare_for_pptx value = EmptyString).
Proof.
  unfold prepare_for_pptx. destruct (truthy value).
  - destruct (soup_text value) as [text|e]; cbn [fmap outcome_fmap].
    + split; [apply remove_cr_clean|]. split; [done|]. intros _ e. done.
    + split; [done|]. split; [done|]. done.
  - split; [done|]. split; [done|]. done.
Qed.

Lemma index_selects {X} (l : list X) (layout_index : pyval) :
  match index l layout_index with
  | Ok x => selects_layout (Z.of_nat (length l)) layout_index = true /\ x ∈ l
  | Raise e =>
      selects_layout (Z.of_nat (length l)) layout_index = false /\
      e = match as_int layout_index with Some _ => IndexError | None => TypeError end
  end.
Proof.
  unfold index, selects_layout. destruct (as_int layout_index) as [z|]; [|done].
  cbv zeta.
  destruct (Z.ltb_spec z 0), (Z.leb_spec 0 (z + Z.of_nat (length l))),
    (Z.ltb_spec (z + Z.of_nat (length l)) (Z.of_nat (length l))),
    (Z.leb_spec 0 z), (Z.ltb_spec z (Z.of_nat (length l))),
    (Z.leb_spec (- Z.of_nat (length l)) z); try lia; cbn [andb]; try done.
  - destruct (l !! Z.to_nat (z + Z.of_nat (length l))) as [x|] eqn:E.
    + split; [done|]. by eapply list_elem_of_lookup_2.
    + apply lookup_ge_None in E. lia.
  - destruct (l !! Z.to_nat z) as [x|] eqn:E.
    + split; [done|]. by eapply list_elem_of_lookup_2.
    + apply lookup_ge_None in E. lia.
Qed.

Lemma traverse_total {X Y} (f : X -> Y) (l : list X) :
  traverse (fun x => Ok (f x)) l = Ok (f <$> l).
Proof.
  induction l as [|x l IH]; [done|]. cbn [traverse]. by rewrite IH.
Qed.


Lemma new_slide_layout slide (phs : list Shape) :
  slide_layout (foldl (fun slide ph => add_shape slide (cloned_placeholder slide ph))
                  slide phs) = slide_layout slide.
Proof.
  revert slide. induction phs as [|ph phs IH]; intros slide; [done|].
  cbn [foldl]. by rewrite IH.
Qed.



End helpers.

#[local] Existing Instance toy.


Lemma render_html_paragraph_witness :
  render_jinja2_in_textframe (H:=failing_converter) [finding_title]
    [("title", PStr "<b>SQL</b>")] =
    (Ok tt, [mkParagraph [] (Some 1) 0]).
Proof.
  destruct (render_html_paragraph (H:=failing_converter) finding_title
              [("title", PStr "<b>SQL</b>")] "Finding: <b>SQL</b>"
              (frame_state [remove_runs finding_title]) (Some ValueError))
    as [_ Hlost]; [reflexivity | reflexivity | reflexivity | reflexivity |].
  destruct Hlost as [Hframe _]; [by eexists | reflexivity |].
  exact Hframe.
Defined.


End PptxFacts.

(** ** The exporters *)

Module ExporterFacts.
Import SlideMapping SlideMappingSpec ValidateSpec Pptx PptxSpec RenderSpec Report.
Import ReportSpec Exporters ExportSpec.

Section exporter_facts.
Context `{External} `{Runtime}.

(** *** [get_slide_layout] *)





(** *** [write_objective_list] *)




(** *** [lint] *)

Lemma validate_raises_class m e :
  (validate m).1 = Raise e -> e = TypeError \/ e = AttributeError.
Proof.
  rewrite SlideMappingProofs.validate_pure. cbn [fst]. unfold validate_result.
  destruct (duplicate_warnings (slides m)) as [dup|] eqn:Hdup.
  - cbn [mbind outcome_bind].
    destruct (unknown_type_warnings (slides m)) as [unknown|] eqn:Hun; [done|].
    intros [= <-]. by eapply SlideMappingFacts.unknown_type_warnings_raises.
  - cbn [mbind outcome_bind]. intros [= <-]. left.
    unfold duplicate_warnings, len_set in Hdup.
    destruct (traverse hash_key
                (position <$> List.filter (fun s => truthy (enabled s)) (slides m)))
      as [ks|] eqn:Hks; [done|].
    cbn [mbind outcome_bind] in Hdup. injection Hdup as <-.
    by eapply SlideMappingFacts.traverse_hash_key_raises.
Qed.

Lemma lint_checks_loaded template_loc template_document report_template :
  open_presentation template_loc = Ok template_document ->
  lint_checks template_loc report_template ([], []) =
    match report_template with
    | Some slide_mapping =>
        if truthy slide_mapping then
          match __init__ slide_mapping (Some template_document) with
          | Ok manager =>
              match (validate manager).1 with
              | Ok (mapping_warnings, mapping_errors) =>
                  (Ok tt, (slides_warning template_document ++ mapping_warnings,
                           mapping_errors))
              | Raise e => (Raise e, (slides_warning template_document, []))
              end
          | Raise e => (Raise e, (slides_warning template_document, []))
          end
        else (Ok tt, (slides_warning template_document, []))
    | None => (Ok tt, (slides_warning template_document, []))
    end.
Proof.
  intros Hopen. unfold lint_checks, slides_warning, when.
  unfold mbind at 1 2, stateful_bind, lift. rewrite Hopen.
  destruct (0 <? Z.of_nat (length (PptxModel.slides template_document)));
    cbn [modify mret stateful_ret app].
  - destruct report_template as [slide_mapping|]; [|done].
    destruct (truthy slide_mapping); [|done].
    unfold mbind, stateful_bind, lift, modify.
    destruct (__init__ slide_mapping (Some template_document)) as [manager|]; [|done].
    by destruct ((validate manager).1) as [[mapping_warnings mapping_errors]|].
  - destruct report_template as [slide_mapping|]; [|done].
    destruct (truthy slide_mapping); [|done].
    unfold mbind, stateful_bind, lift, modify.
    destruct (__init__ slide_mapping (Some template_document)) as [manager|]; [|done].
    by destruct ((validate manager).1) as [[mapping_warnings mapping_errors]|].
Qed.

(** X22. The result of [lint] in every case. A missing file gives the one
    error about it and nothing else. A file that does not load gives the
    one error of the handler. For a file that loads, the warnings start
    with the warning about slides in the template when it has any; without
    a template record, or with a falsy mapping, nothing is added;
    otherwise the messages of [validate] on the manager built from the
    mapping are added, and when [validate] raises, the one general error
    is reported and the mapping's warnings are lost. *)
Theorem lint_cases (template_loc : pyval) (report_template : option pyval) :
  (path_exists template_loc = false ->
   lint template_loc report_template = ([], [missing_template_error])) /\
  (path_exists template_loc = true ->
   forall e, open_presentation template_loc = Raise e ->
   lint template_loc report_template = ([], [lint_failure e])) /\
  (path_exists template_loc = true ->
   forall template_document, open_presentation template_loc = Ok template_document ->
   match report_template with
   | Some slide_mapping =>
       if truthy slide_mapping then
         exists manager,
           __init__ slide_mapping (Some template_document) = Ok manager /\
           lint template_loc report_template =
             match (validate manager).1 with
             | Ok (mapping_warnings, mapping_errors) =>
                 (slides_warning template_document ++ mapping_warnings, mapping_errors)
             | Raise _ =>
                 (slides_warning template_document,
                  [[Lit "Template rendering failed unexpectedly"]])
             end
       else lint template_loc report_template = (slides_warning template_document, [])
   | None => lint template_loc report_template = (slides_warning template_document, [])
   end).
Proof.
  split; [|split].
  - intros Hmissing. unfold lint. by rewrite Hmissing.
  - intros Hexists e Hopen. unfold lint. rewrite Hexists. cbn [negb].
    unfold lint_checks, mbind, stateful_bind, lift. by rewrite Hopen.
  - intros Hexists template_document Hopen. unfold lint. rewrite Hexists. cbn [negb].
    rewrite (lint_checks_loaded _ template_document) by done.
    destruct report_template as [slide_mapping|]; [|done].
    destruct (truthy slide_mapping); [|done].
    destruct (SlideMappingProofs.init_total slide_mapping (Some template_document))
      as [manager ->].
    exists manager. split; [done|].
    destruct ((validate manager).1) as [[mapping_warnings mapping_errors]|e] eqn:Hv;
      [done|].
    by destruct (validate_raises_class manager e Hv) as [-> | ->].
Qed.

(** X23. What [lint] does not see of a malformed mapping. An empty dict
    is falsy and skipped, although the manager built from it has no slide
    at all and [validate] would warn that [title] and [final] are not
    enabled. A mapping that is truthy but not a dict (a list, a string, a
    number) is replaced by the default mapping inside the manager: [lint]
    then reports on the default mapping, without any error when the
    template has at least thirteen layouts. *)
Theorem lint_malformed_mapping (template_loc : pyval) (template_document : Presentation) :
  path_exists template_loc = true ->
  open_presentation template_loc = Ok template_document ->
  (lint template_loc (Some (PDict [])) = (slides_warning template_document, []) /\
   exists m,
     __init__ (PDict []) (Some template_document) = Ok m /\
     slides m = [] /\
     validate m =
       (Ok ([required_type_warning "title"; required_type_warning "final"], []), m)) /\
  (forall slide_mapping,
     truthy slide_mapping = true ->
     (forall d, slide_mapping <> PDict d) ->
     exists errors,
       lint template_loc (Some slide_mapping) =
         (slides_warning template_document, errors) /\
       (errors = [] <-> 13 <= layout_count template_document)).
Proof.
  intros Hexists Hopen. split; [split|].
  - unfold lint. rewrite Hexists. cbn [negb].
    by rewrite (lint_checks_loaded _ template_document).
  - rewrite SlideMappingProofs.init_cases. cbn. eexists. split; [done|].
    split; [done|]. by rewrite SlideMappingProofs.validate_pure.
  - intros slide_mapping Htruthy Hdict.
    exists (layout_messages (layout_count template_document) default_slides).
    split; [|apply SlideMappingFacts.default_layout_messages_nil].
    unfold lint. rewrite Hexists. cbn [negb].
    rewrite (lint_checks_loaded _ template_document) by done. rewrite Htruthy.
    assert (__init__ slide_mapping (Some template_document) =
            Ok (mkManager (Some template_document) DEFAULT_MAPPING default_slides)) as ->.
    { rewrite SlideMappingProofs.init_cases.
      destruct slide_mapping as [| | | | |d]; try done. by destruct (Hdict d). }
    rewrite SlideMappingFacts.validate_default. cbn [fst]. by rewrite app_nil_r.
Qed.

(** *** [run] *)

Lemma static_slide_ok c jinja_context prs layout :
  index (slide_layouts prs) (layout_index c) = Ok layout ->
  exists slide,
    static_slide c jinja_context prs =
      (Ok tt, mkPresentation (slide_layouts prs) (PptxModel.slides prs ++ [slide])) /\
    slide_layout slide = layout.
Proof.
  intros E. unfold static_slide, create_static_slide. rewrite E.
  unfold render_shapes, render_jinja2_in_shape. rewrite PptxFacts.traverse_total.
  cbn [mbind outcome_bind mret outcome_ret fmap outcome_fmap].
  eexists. split; [done|]. cbn [slide_layout]. unfold new_slide.
  apply PptxFacts.new_slide_layout.
Qed.

Lemma report_route_static base_context jinja_context c :
  eq_str (mode c) "static" = true ->
  report_route base_context jinja_context c =
    if is_item_type c then mret tt else static_slide c jinja_context.
Proof.
  intros Hmode.
  unfold report_route, is_item_type, create_title_slide, create_agenda_slide,
    create_introduction_slide, create_assessment_details_slide,
    create_methodology_slide, create_timeline_slide, create_attack_path_slide,
    create_observations_overview_slide, create_findings_overview_slide,
    create_recommendations_slide, create_next_steps_slide, create_final_slide,
    single_slide, create_observation_slides, create_finding_slides.
  rewrite Hmode. destruct (type c) as [| | |t| |]; try reflexivity.
  cbn [eq_str]. repeat case_bool_decide; subst; done.
Qed.

Lemma project_route_static base_context jinja_context c :
  eq_str (mode c) "static" = true ->
  project_route base_context jinja_context c = static_slide c jinja_context.
Proof.
  intros Hmode.
  unfold project_route, create_title_slide, create_agenda_slide,
    create_introduction_slide, create_assessment_details_slide,
    create_methodology_slide, create_timeline_slide, create_attack_path_slide,
    single_slide.
  rewrite Hmode. destruct (type c) as [| | |t| |]; try reflexivity.
  cbn [eq_str]. repeat case_bool_decide; done.
Qed.

Lemma add_slides_static route (skip : SlideConfig -> bool) jinja_context l :
  forall prs,
    Forall (fun c =>
              truthy (enabled c) = true /\
              route c = (if skip c then mret tt else static_slide c jinja_context) /\
              is_Some (layout_of (slide_layouts prs) c)) l ->
    exists prs',
      add_slides route l prs = (Ok tt, prs') /\
      slide_layouts prs' = slide_layouts prs /\
      (slide_layout <$> PptxModel.slides prs') =
        (slide_layout <$> PptxModel.slides prs) ++
        omap (layout_of (slide_layouts prs)) (List.filter (fun c => negb (skip c)) l).
Proof.
  induction l as [|c l IH]; intros prs Hl.
  - exists prs. cbn. by rewrite app_nil_r.
  - apply Forall_cons in Hl as [(Hen & Hroute & [layout Hlayout]) Hl].
    unfold add_slides in *. cbn [for_each]. unfold mbind at 1, stateful_bind.
    rewrite Hen. cbn [negb]. rewrite Hroute. cbn [List.filter].
    destruct (skip c); cbn [negb].
    + cbn [mret stateful_ret]. by apply IH.
    + unfold layout_of in Hlayout.
      destruct (index (slide_layouts prs) (layout_index c)) as [layout'|] eqn:E; [|done].
      injection Hlayout as ->.
      destruct (static_slide_ok c jinja_context prs layout E) as (slide & -> & Hslide).
      destruct (IH (mkPresentation (slide_layouts prs) (PptxModel.slides prs ++ [slide])))
        as (prs' & -> & Hlayouts & Hslides); [done|].
      exists prs'. split; [done|]. split; [done|].
      rewrite Hslides. cbn [slide_layouts PptxModel.slides omap list_omap].
      unfold layout_of at 2. rewrite E.
      rewrite fmap_app, <- app_assoc. cbn. by rewrite Hslide.
Qed.

Lemma process_footers_layouts prs :
  exists prs',
    process_footers prs = Ok prs' /\
    slide_layouts prs' = slide_layouts prs /\
    (slide_layout <$> PptxModel.slides prs') = (slide_layout <$> PptxModel.slides prs).
Proof.
  unfold process_footers.
  destruct (PptxFacts.process_footers_from_appends 0 (PptxModel.slides prs))
    as (sl' & -> & Hsl).
  eexists. split; [done|]. split; [done|]. cbn.
  induction Hsl as [|slide slide' sl sl' (Hlayout & _) _ IH]; [done|].
  rewrite !fmap_cons. by rewrite Hlayout, IH.
Qed.

Lemma run_static_route route (skip : SlideConfig -> bool) m base_context jinja_context
    deck l :
  get_slides_by_position m = (Ok (Some l), m) ->
  Forall (fun c =>
            truthy (enabled c) = true /\
            route base_context jinja_context c =
              (if skip c then mret tt else static_slide c jinja_context) /\
            is_Some (layout_of (slide_layouts deck) c)) l ->
  exists deck',
    run route m base_context jinja_context deck = Some (Ok deck') /\
    slide_layouts deck' = slide_layouts deck /\
    (slide_layout <$> PptxModel.slides deck') =
      (slide_layout <$> PptxModel.slides deck) ++
      omap (layout_of (slide_layouts deck)) (List.filter (fun c => negb (skip c)) l).
Proof.
  intros Hl Hall. unfold run. rewrite Hl. cbn [fst].
  destruct (add_slides_static _ skip jinja_context l deck Hall)
    as (deck1 & -> & Hlayouts1 & Hslides1).
  destruct (process_footers_layouts deck1) as (deck2 & -> & Hlayouts2 & Hslides2).
  exists deck2. split; [done|]. split; [congruence|]. congruence.
Qed.

(** X24. A mapping in static mode throughout, whose enabled entries have
    integer positions and point to layouts of the template: [run] returns
    the deck, with the layouts of the template untouched and one slide
    added per entry, in the order of [get_slides_by_position], each on the
    layout its entry points to. The report exporter leaves out the entries
    of type [observation] and [finding], which make no slide in static
    mode; the project exporter makes a static slide for them too. *)
Theorem run_static (m : SlideMappingManager) (base_context jinja_context : pydict)
    (deck : Presentation) :
  Forall (fun c => is_Some (as_int (position c))) (List.filter is_enabled (slides m)) ->
  Forall (fun c => eq_str (mode c) "static" = true) (List.filter is_enabled (slides m)) ->
  Forall (fun c => is_Some (layout_of (slide_layouts deck) c))
         (List.filter is_enabled (slides m)) ->
  exists l report_deck project_deck,
    get_slides_by_position m = (Ok (Some l), m) /\
    report_run m base_context jinja_context deck = Some (Ok report_deck) /\
    project_run m base_context jinja_context deck = Some (Ok project_deck) /\
    slide_layouts report_deck = slide_layouts deck /\
    slide_layouts project_deck = slide_layouts deck /\
    (slide_layout <$> PptxModel.slides report_deck) =
      (slide_layout <$> PptxModel.slides deck) ++
      omap (layout_of (slide_layouts deck))
        (List.filter (fun c => negb (is_item_type c)) l) /\
    (slide_layout <$> PptxModel.slides project_deck) =
      (slide_layout <$> PptxModel.slides deck) ++ omap (layout_of (slide_layouts deck)) l.
Proof.
  intros Hpos Hstatic Hlayout.
  destruct (SlideMappingProofs.sorted_stable position _ Hpos) as (l & Hl & Hperm & _).
  assert (Forall (fun c => truthy (enabled c) = true) l) as Hen.
  { rewrite Hperm. apply Forall_forall. intros c Hc.
    apply list_elem_of_In, filter_In in Hc. by destruct Hc. }
  rewrite <- Hperm in Hstatic, Hlayout.
  assert (get_slides_by_position m = (Ok (Some l), m)) as Hget.
  { rewrite SlideMappingFacts.get_slides_by_position_sorted. by rewrite Hl. }
  destruct (run_static_route report_route is_item_type m base_context jinja_context deck l)
    as (report_deck & Hreport & Hrl & Hrs); [done| |].
  { rewrite Forall_forall in Hen, Hstatic, Hlayout. apply Forall_forall. intros c Hc.
    split; [by apply Hen|]. split; [|by apply Hlayout].
    apply report_route_static. by apply Hstatic. }
  destruct (run_static_route project_route (fun _ => false) m base_context jinja_context
              deck l) as (project_deck & Hproject & Hpl & Hps); [done| |].
  { rewrite Forall_forall in Hen, Hstatic, Hlayout. apply Forall_forall. intros c Hc.
    split; [by apply Hen|]. split; [|by apply Hlayout].
    apply project_route_static. by apply Hstatic. }
  exists l, report_deck, project_deck.
  split; [done|]. split; [done|]. split; [done|]. split; [done|]. split; [done|].
  split; [done|]. rewrite Hps. do 2 f_equal. by apply SlideMappingProofs.filter_all,
    Forall_forall.
Qed.

Lemma for_each_skip {X} (body : X -> Export unit) (keep : X -> bool) l prs :
  (forall x, keep x = false -> body x = mret tt) ->
  for_each body (List.filter keep l) prs = for_each body l prs.
Proof.
  intros Hskip. revert prs. induction l as [|x l IH]; intros prs; [done|].
  cbn [List.filter for_each]. destruct (keep x) eqn:E.
  - cbn [for_each]. unfold mbind, stateful_bind.
    destruct (body x prs) as [[[]|e] prs']; [apply IH | done].
  - rewrite (Hskip x E). unfold mbind, stateful_bind. cbn [mret stateful_ret]. apply IH.
Qed.

Lemma report_route_unrouted base_context jinja_context c :
  routed SLIDE_TYPES.*1 c = false ->
  report_route base_context jinja_context c = mret tt.
Proof.
  unfold routed. intros [Hty Hmode]%orb_false_elim.
  unfold report_route. rewrite Hmode.
  destruct (type c) as [| | |t| |]; try reflexivity.
  apply bool_decide_eq_false in Hty. cbn in Hty.
  rewrite !not_elem_of_cons in Hty. cbn [eq_str].
  repeat (rewrite bool_decide_eq_false_2; [|tauto]). done.
Qed.

Lemma project_route_unrouted base_context jinja_context c :
  routed project_types c = false ->
  project_route base_context jinja_context c = mret tt.
Proof.
  unfold routed. intros [Hty Hmode]%orb_false_elim.
  unfold project_route. rewrite Hmode.
  destruct (type c) as [| | |t| |]; try reflexivity.
  apply bool_decide_eq_false in Hty. unfold project_types in Hty.
  rewrite !not_elem_of_cons in Hty. cbn [eq_str].
  repeat (rewrite bool_decide_eq_false_2; [|tauto]). done.
Qed.

Lemma run_skip route (keep : SlideConfig -> bool) m base_context jinja_context deck :
  (forall c, keep c = false -> route base_context jinja_context c = mret tt) ->
  Forall (fun c => is_Some (as_int (position c))) (List.filter is_enabled (slides m)) ->
  run route (with_slide_list m (List.filter keep (slides m))) base_context jinja_context deck =
  run route m base_context jinja_context deck.
Proof.
  intros Hskip Hpos. unfold run.
  rewrite !SlideMappingFacts.get_slides_by_position_sorted. cbn [fst slides with_slide_list].
  destruct (SlideMappingProofs.sorted_stable position _ Hpos) as (l & Hl & _).
  rewrite SlideMappingFacts.list_filter_comm.
  rewrite (SlideMappingFacts.sorted_filter position keep _ l Hpos Hl), Hl.
  unfold add_slides. rewrite for_each_skip; [done|].
  intros c Hc. rewrite (Hskip c Hc). by destruct (negb (truthy (enabled c))).
Qed.

(** X25. In a mapping whose enabled entries have integer positions, the
    entries [run] has no route for make no difference to the export: an
    enabled entry that is not in static mode and whose type is not one the
    exporter routes to a builder (the fourteen slide types for a report,
    the seven project slide types for a project) is passed over without a
    slide, an error or a message. A [custom_] slide in dynamic mode is
    such an entry, and so is every report slide type in a project export.
    (The positions matter: an entry without a route still takes part in
    the sort, which raises when its position cannot be compared with the
    others.) *)
Theorem run_ignores_unrouted (m : SlideMappingManager)
    (base_context jinja_context : pydict) (deck : Presentation) :
  Forall (fun c => is_Some (as_int (position c))) (List.filter is_enabled (slides m)) ->
  report_run (with_slide_list m (List.filter (routed SLIDE_TYPES.*1) (slides m)))
    base_context jinja_context deck =
  report_run m base_context jinja_context deck /\
  project_run (with_slide_list m (List.filter (routed project_types) (slides m)))
    base_context jinja_context deck =
  project_run m base_context jinja_context deck.
Proof.
  intros Hpos. split.
  - apply run_skip; [|done]. intros c. apply report_route_unrouted.
  - apply run_skip; [|done]. intros c. apply project_route_unrouted.
Qed.

Lemma add_slides_app route pre post prs :
  add_slides route (pre ++ post) prs =
    match add_slides route pre prs with
    | (Ok _, prs') => add_slides route post prs'
    | (Raise e, prs') => (Raise e, prs')
    end.
Proof.
  unfold add_slides. revert prs. induction pre as [|c pre IH]; intros prs; [done|].
  cbn [app for_each]. unfold mbind, stateful_bind.
  destruct ((if negb (truthy (enabled c)) then mret tt else route c) prs)
    as [[[]|e] prs']; [apply IH | done].
Qed.

Lemma static_slide_raises c jinja_context prs e :
  index (slide_layouts prs) (layout_index c) = Raise e ->
  static_slide c jinja_context prs = (Raise e, prs).
Proof.
  intros E. unfold static_slide, create_static_slide. by rewrite E.
Qed.

Lemma run_raises route (skip : SlideConfig -> bool) m base_context jinja_context deck
    pre c post e :
  get_slides_by_position m = (Ok (Some (pre ++ c :: post)), m) ->
  Forall (fun c =>
            truthy (enabled c) = true /\
            route base_context jinja_context c =
              (if skip c then mret tt else static_slide c jinja_context) /\
            is_Some (layout_of (slide_layouts deck) c)) pre ->
  truthy (enabled c) = true ->
  route base_context jinja_context c = static_slide c jinja_context ->
  index (slide_layouts deck) (layout_index c) = Raise e ->
  run route m base_context jinja_context deck = Some (Raise e).
Proof.
  intros Hl Hpre Hen Hroute Hindex. unfold run. rewrite Hl. cbn [fst].
  rewrite add_slides_app.
  destruct (add_slides_static _ skip jinja_context pre deck Hpre)
    as (deck1 & -> & Hlayouts1 & _).
  unfold add_slides. cbn [for_each]. unfold mbind, stateful_bind.
  rewrite Hen. cbn [negb]. rewrite Hroute.
  rewrite (static_slide_raises c jinja_context deck1 e); [done|]. by rewrite Hlayouts1.
Qed.

(** X26. [run] does not use the fallback of [get_layout_index]: the
    builders index the layouts with [config.layout_index] itself. When the
    entries before it are in static mode and select layouts, an enabled
    entry in static mode whose layout index does not select a layout of
    the template ends the project export with [IndexError] (or [TypeError]
    for an index that is not a number), and no deck is returned. It ends
    the report export in the same way unless its type is [observation] or
    [finding]: for these the report exporter makes no slide in static
    mode, so it does not look at the index. *)
Theorem run_does_not_fall_back (m : SlideMappingManager)
    (base_context jinja_context : pydict) (deck : Presentation)
    (pre : list SlideConfig) (c : SlideConfig) (post : list SlideConfig) :
  get_slides_by_position m = (Ok (Some (pre ++ c :: post)), m) ->
  Forall (fun c => is_enabled c = true /\ eq_str (mode c) "static" = true /\
                   is_Some (layout_of (slide_layouts deck) c)) pre ->
  is_enabled c = true ->
  eq_str (mode c) "static" = true ->
  selects_layout (Z.of_nat (length (slide_layouts deck))) (layout_index c) = false ->
  exists e,
    (e = IndexError \/ e = TypeError) /\
    project_run m base_context jinja_context deck = Some (Raise e) /\
    (is_item_type c = false ->
     report_run m base_context jinja_context deck = Some (Raise e)).
Proof.
  intros Hl Hpre Hen Hmode Hsel.
  pose proof (PptxFacts.index_selects (slide_layouts deck) (layout_index c)) as Hindex.
  destruct (index (slide_layouts deck) (layout_index c)) as [layout|e] eqn:E.
  { destruct Hindex as [Hindex _]. congruence. }
  destruct Hindex as [_ He]. exists e. split.
  { rewrite He. destruct (as_int (layout_index c)); auto. }
  split.
  - apply (run_raises project_route (fun _ => false) m base_context jinja_context deck
             pre c post e); try done.
    + eapply Forall_impl; [exact Hpre|]. intros c' (Hen' & Hmode' & Hlayout').
      split; [done|]. split; [by apply project_route_static | done].
    + by apply project_route_static.
  - intros Hitem.
    apply (run_raises report_route is_item_type m base_context jinja_context deck
             pre c post e); try done.
    + eapply Forall_impl; [exact Hpre|]. intros c' (Hen' & Hmode' & Hlayout').
      split; [done|]. split; [by apply report_route_static | done].
    + rewrite report_route_static by done. by rewrite Hitem.
Qed.

Lemma list_filter_Permutation {X} (f : X -> bool) l l' :
  l ≡ₚ l' -> List.filter f l ≡ₚ List.filter f l'.
Proof.
  induction 1 as [|x l l' _ IH|x y l|l1 l2 l3 _ IH1 _ IH2]; cbn [List.filter].
  - done.
  - destruct (f x); [by constructor | done].
  - destruct (f x), (f y); try done. apply perm_swap.
  - by etrans.
Qed.

Lemma length_omap_total {X Y} (g : X -> option Y) l :
  Forall (fun x => is_Some (g x)) l -> length (omap g l) = length l.
Proof.
  induction 1 as [|x l [y Hx] _ IH]; [done|]. cbn. rewrite Hx. cbn. by rewrite IH.
Qed.

(** X27. Linting and exporting agree on a static mapping: when [validate]
    reports no error for the manager bound to the template, and the
    enabled entries are in static mode with integer positions and layout
    indices that are non-negative integers, [run] returns a deck, with one
    more slide for each enabled entry that is not of type [observation] or
    [finding]. *)
Theorem validated_static_export (m : SlideMappingManager) (template deck : Presentation)
    (warnings : list fstring) (base_context jinja_context : pydict) :
  presentation m = Some template ->
  slide_layouts template = slide_layouts deck ->
  validate m = (Ok (warnings, []), m) ->
  Forall (fun c => is_Some (as_int (position c)) /\
                   eq_str (mode c) "static" = true /\
                   exists i, layout_index c = PInt i /\ 0 <= i)
         (List.filter is_enabled (slides m)) ->
  exists deck',
    report_run m base_context jinja_context deck = Some (Ok deck') /\
    length (PptxModel.slides deck') =
      (length (PptxModel.slides deck) +
       length (List.filter (fun c => negb (is_item_type c))
                 (List.filter is_enabled (slides m))))%nat.
Proof.
  intros Hbound Hlayouts Hvalidate Hall.
  assert (Forall (fun c => is_Some (as_int (position c)))
                 (List.filter is_enabled (slides m))) as Hpos.
  { eapply Forall_impl; [exact Hall|]. by intros c (? & _). }
  assert (Forall (fun c => is_Some (as_int (layout_index c)))
                 (List.filter is_enabled (slides m))) as Hint.
  { eapply Forall_impl; [exact Hall|]. intros c (_ & _ & i & -> & _). by exists i. }
  assert (List.filter (out_of_range (layout_count template)) (slides m) = []) as Hfit.
  { rewrite SlideMappingProofs.validate_pure in Hvalidate. injection Hvalidate as Hv.
    unfold validate_result in Hv.
    destruct (duplicate_warnings (slides m)); [|done]. cbn [mbind outcome_bind] in Hv.
    destruct (unknown_type_warnings (slides m)); [|done].
    cbn [mbind outcome_bind mret outcome_ret] in Hv. rewrite Hbound in Hv.
    injection Hv as _ Herr. rewrite SlideMappingFacts.layout_index_errors_checked in Herr.
    apply app_eq_nil in Herr as [_ Herr]. unfold layout_messages in Herr.
    apply fmap_nil_inv in Herr. by rewrite SlideMappingFacts.checked_all in Herr. }
  destruct (SlideMappingProofs.sorted_stable position _ Hpos) as (l & Hl & Hperm & _).
  assert (get_slides_by_position m = (Ok (Some l), m)) as Hget.
  { rewrite SlideMappingFacts.get_slides_by_position_sorted. by rewrite Hl. }
  assert (Forall (fun c =>
                    truthy (enabled c) = true /\
                    report_route base_context jinja_context c =
                      (if is_item_type c then mret tt else static_slide c jinja_context) /\
                    is_Some (layout_of (slide_layouts deck) c)) l) as Hready.
  { rewrite Hperm. rewrite Forall_forall in Hall. apply Forall_forall. intros c Hc.
    destruct (Hall c Hc) as (_ & Hmode & i & Hi & Hnonneg).
    apply list_elem_of_In, filter_In in Hc as [Hc Hen]. apply list_elem_of_In in Hc.
    split; [done|]. split; [by apply report_route_static|].
    pose proof (SlideMappingFacts.filter_nil_elem _ _ _ Hfit Hc) as Hc_fit.
    unfold out_of_range in Hc_fit. rewrite Hen, Hi in Hc_fit. cbn in Hc_fit.
    unfold layout_of. rewrite Hi.
    pose proof (PptxFacts.index_selects (slide_layouts deck) (PInt i)) as Hindex.
    destruct (index (slide_layouts deck) (PInt i)) as [layout|e]; [by eexists|].
    destruct Hindex as [Hsel _]. unfold selects_layout in Hsel. cbn [as_int] in Hsel.
    unfold layout_count in Hc_fit. rewrite Hlayouts in Hc_fit.
    apply andb_false_iff in Hsel as [Hsel%Z.leb_gt | Hsel%Z.ltb_ge]; lia. }
  destruct (run_static_route report_route is_item_type m base_context jinja_context deck l
              Hget Hready) as (deck' & Hrun & _ & Hslides).
  exists deck'. split; [done|].
  apply (f_equal length) in Hslides. rewrite length_app, !length_fmap in Hslides.
  rewrite Hslides. f_equal.
  rewrite <- (Permutation_length (list_filter_Permutation _ _ _ Hperm)).
  apply length_omap_total. apply SlideMappingFacts.Forall_list_filter.
  eapply Forall_impl; [exact Hready|]. by intros c (_ & _ & ?).
Qed.

(** *** The builders in dynamic mode *)

Lemma single_slide_dynamic slide_type c base_context jinja_context prs layout :
  eq_str (mode c) "static" = false ->
  index (slide_layouts prs) (layout_index c) = Ok layout ->
  single_slide slide_type c base_context jinja_context prs =
    match draw_slide slide_type base_context jinja_context (new_slide layout) with
    | Ok slide' =>
        (Ok tt, mkPresentation (slide_layouts prs) (PptxModel.slides prs ++ [slide']))
    | Raise e =>
        (Raise e,
         mkPresentation (slide_layouts prs) (PptxModel.slides prs ++ [new_slide layout]))
    end.
Proof.
  intros Hmode Hindex. unfold single_slide. rewrite Hmode.
  unfold mbind, stateful_bind, layout_at, add_slide. rewrite Hindex.
  rewrite ReportProofs.on_new_slide_last.
  by destruct (draw_slide slide_type base_context jinja_context (new_slide layout)).
Qed.

(** The frame shared by the twelve builders of single slides. A
    layout index that selects no layout raises before the deck is touched,
    in static and in dynamic mode alike. Otherwise exactly one slide is
    added at the end of the deck, on the selected layout; in dynamic mode
    it is the blank slide of the layout after the drawing, and when the
    drawing raises, the blank slide stays in the deck. *)
Theorem single_slide_frame (slide_type : string) (config : SlideConfig)
    (base_context jinja_context : pydict) (prs : Presentation) :
  match index (slide_layouts prs) (layout_index config) with
  | Raise e =>
      single_slide slide_type config base_context jinja_context prs = (Raise e, prs)
  | Ok layout =>
      if eq_str (mode config) "static" then
        exists slide,
          single_slide slide_type config base_context jinja_context prs =
            (Ok tt,
             mkPresentation (slide_layouts prs) (PptxModel.slides prs ++ [slide])) /\
          slide_layout slide = layout
      else
        single_slide slide_type config base_context jinja_context prs =
          match draw_slide slide_type base_context jinja_context (new_slide layout) with
          | Ok slide' =>
              (Ok tt,
               mkPresentation (slide_layouts prs) (PptxModel.slides prs ++ [slide']))
          | Raise e =>
              (Raise e,
               mkPresentation (slide_layouts prs)
                 (PptxModel.slides prs ++ [new_slide layout]))
          end
  end.
Proof.
  destruct (index (slide_layouts prs) (layout_index config)) as [layout|e] eqn:Hindex.
  - destruct (eq_str (mode config) "static") eqn:Hmode.
    + unfold single_slide. rewrite Hmode. by apply static_slide_ok.
    + by apply single_slide_dynamic.
  - unfold single_slide. destruct (eq_str (mode config) "static").
    + by apply static_slide_raises.
    + unfold mbind, stateful_bind, layout_at. by rewrite Hindex.
Qed.

Lemma single_slide_adds slide_type c base_context jinja_context :
  eq_str (mode c) "static" = true \/ draws slide_type base_context jinja_context ->
  adds_one_slide (single_slide slide_type c base_context jinja_context) (layout_index c).
Proof.
  intros Hmode prs layout Hindex.
  destruct (eq_str (mode c) "static") eqn:E.
  - unfold single_slide. rewrite E. by apply static_slide_ok.
  - destruct Hmode as [|Hdraws]; [done|].
    rewrite (single_slide_dynamic _ _ _ _ _ layout) by done.
    destruct (Hdraws (new_slide layout)) as (slide' & -> & Hlayout).
    exists slide'. split; [done|]. rewrite Hlayout. unfold new_slide.
    apply PptxFacts.new_slide_layout.
Qed.

Lemma report_route_single base_context jinja_context c t :
  type c = PStr t ->
  t ∈ SLIDE_TYPES.*1 ->
  is_item_type c = false ->
  report_route base_context jinja_context c =
    single_slide t c base_context jinja_context.
Proof.
  intros Hty Hin Hitem. unfold is_item_type in Hitem. rewrite Hty in Hitem.
  unfold report_route. rewrite Hty. cbn in Hin.
  repeat (apply elem_of_cons in Hin as [->|Hin]; [try done|]).
  by apply elem_of_nil in Hin.
Qed.

Lemma report_route_one_slide base_context jinja_context c :
  one_slide_entry base_context jinja_context c ->
  adds_one_slide (report_route base_context jinja_context c) (layout_index c).
Proof.
  intros [Hitem [Hstatic|(t & Hty & Hin & Hdraws)]].
  - rewrite report_route_static by done. rewrite Hitem.
    intros prs layout Hindex. by apply static_slide_ok.
  - rewrite (report_route_single _ _ _ t) by done.
    apply single_slide_adds. by right.
Qed.

Lemma add_slides_one_each route l :
  forall prs,
    Forall (fun c =>
              truthy (enabled c) = true /\
              adds_one_slide (route c) (layout_index c) /\
              is_Some (layout_of (slide_layouts prs) c)) l ->
    exists prs',
      add_slides route l prs = (Ok tt, prs') /\
      slide_layouts prs' = slide_layouts prs /\
      (slide_layout <$> PptxModel.slides prs') =
        (slide_layout <$> PptxModel.slides prs) ++ omap (layout_of (slide_layouts prs)) l.
Proof.
  induction l as [|c l IH]; intros prs Hl.
  - exists prs. cbn. by rewrite app_nil_r.
  - apply Forall_cons in Hl as [(Hen & Hroute & [layout Hlayout]) Hl].
    unfold add_slides in *. cbn [for_each]. unfold mbind at 1, stateful_bind.
    rewrite Hen. cbn [negb].
    unfold layout_of in Hlayout.
    destruct (index (slide_layouts prs) (layout_index c)) as [layout'|] eqn:E; [|done].
    injection Hlayout as ->.
    destruct (Hroute prs layout E) as (slide & -> & Hslide).
    destruct (IH (mkPresentation (slide_layouts prs) (PptxModel.slides prs ++ [slide])))
      as (prs' & -> & Hlayouts & Hslides); [done|].
    exists prs'. split; [done|]. split; [done|].
    rewrite Hslides. cbn [slide_layouts PptxModel.slides omap list_omap].
    unfold layout_of at 2. rewrite E.
    rewrite fmap_app, <- app_assoc. cbn. by rewrite Hslide.
Qed.

(** X28. The report export of a mapping without per-item entries: when
    every enabled entry has an integer position, points to a layout of the
    template, and is either in static mode or of a known slide type whose
    drawing returns, [run] returns the deck with one slide added per
    enabled entry, in the order of [get_slides_by_position], each on the
    layout its entry points to. *)
Theorem report_run_one_slide_per_entry (m : SlideMappingManager)
    (base_context jinja_context : pydict) (deck : Presentation) :
  Forall (fun c => is_Some (as_int (position c))) (List.filter is_enabled (slides m)) ->
  Forall (one_slide_entry base_context jinja_context) (List.filter is_enabled (slides m)) ->
  Forall (fun c => is_Some (layout_of (slide_layouts deck) c))
         (List.filter is_enabled (slides m)) ->
  exists l deck',
    get_slides_by_position m = (Ok (Some l), m) /\
    report_run m base_context jinja_context deck = Some (Ok deck') /\
    slide_layouts deck' = slide_layouts deck /\
    (slide_layout <$> PptxModel.slides deck') =
      (slide_layout <$> PptxModel.slides deck) ++ omap (layout_of (slide_layouts deck)) l.
Proof.
  intros Hpos Hentries Hlayout.
  destruct (SlideMappingProofs.sorted_stable position _ Hpos) as (l & Hl & Hperm & _).
  assert (get_slides_by_position m = (Ok (Some l), m)) as Hget.
  { rewrite SlideMappingFacts.get_slides_by_position_sorted. by rewrite Hl. }
  assert (Forall (fun c =>
                    truthy (enabled c) = true /\
                    adds_one_slide (report_route base_context jinja_context c)
                      (layout_index c) /\
                    is_Some (layout_of (slide_layouts deck) c)) l) as Hready.
  { rewrite Hperm. rewrite Forall_forall in Hentries, Hlayout.
    apply Forall_forall. intros c Hc.
    split; [|split; [apply report_route_one_slide|]]; [|by apply Hentries|by apply Hlayout].
    apply list_elem_of_In, filter_In in Hc. by destruct Hc. }
  destruct (add_slides_one_each _ l deck Hready) as (deck1 & Hadd & Hlayouts1 & Hslides1).
  destruct (process_footers_layouts deck1) as (deck2 & Hfooters & Hlayouts2 & Hslides2).
  exists l, deck2. split; [done|]. split.
  - unfold report_run, run. rewrite Hget. cbn [fst]. by rewrite Hadd, Hfooters.
  - split; congruence.
Qed.

Lemma report_run_item_raises (builder : SlideConfig -> pydict -> Export unit)
    m base_context jinja_context deck pre c post layout :
  get_slides_by_position m = (Ok (Some (pre ++ c :: post)), m) ->
  Forall (fun c => is_enabled c = true /\
                   one_slide_entry base_context jinja_context c /\
                   is_Some (layout_of (slide_layouts deck) c)) pre ->
  is_enabled c = true ->
  report_route base_context jinja_context c = builder c base_context ->
  (forall prs,
     slide_layouts prs = slide_layouts deck ->
     builder c base_context prs =
       (Raise TypeError, with_slides prs (PptxModel.slides prs ++ [new_slide layout]))) ->
  report_run m base_context jinja_context deck = Some (Raise TypeError).
Proof.
  intros Hl Hpre Hen Hroute Hraises. unfold report_run, run. rewrite Hl. cbn [fst].
  rewrite add_slides_app.
  destruct (add_slides_one_each (report_route base_context jinja_context) pre deck)
    as (deck1 & -> & Hlayouts1 & _).
  { eapply Forall_impl; [exact Hpre|]. intros c' (Hen' & Hentry & Hlayout).
    split; [done|]. split; [by apply report_route_one_slide | done]. }
  unfold add_slides. cbn [for_each]. unfold mbind, stateful_bind.
  unfold is_enabled in Hen. rewrite Hen. cbn [negb].
  by rewrite Hroute, Hraises.
Qed.

(** X29. What the missing [slide] argument of the per-item builders does
    to the report export. When an enabled entry of type [finding] (or
    [observation]) in dynamic mode points to a layout with a placeholder
    that is cloned onto new slides, and the report has a finding (an
    observation), [run] raises [TypeError] and returns no deck, whatever
    comes after that entry. *)
Theorem report_run_fails_on_items (m : SlideMappingManager)
    (base_context jinja_context : pydict) (deck : Presentation)
    (pre : list SlideConfig) (c : SlideConfig) (post : list SlideConfig)
    (layout : SlideLayout) :
  get_slides_by_position m = (Ok (Some (pre ++ c :: post)), m) ->
  Forall (fun c => is_enabled c = true /\
                   one_slide_entry base_context jinja_context c /\
                   is_Some (layout_of (slide_layouts deck) c)) pre ->
  is_enabled c = true ->
  eq_str (mode c) "static" = false ->
  index (slide_layouts deck) (layout_index c) = Ok layout ->
  List.filter is_cloneable (layout_placeholders layout) <> [] ->
  (type c = PStr "finding" ->
   forall d rest,
     lookup_key "findings" base_context = Some (PList (PDict d :: rest)) ->
     report_run m base_context jinja_context deck = Some (Raise TypeError)) /\
  (type c = PStr "observation" ->
   forall d rest,
     lookup_key "observations" base_context = Some (PList (PDict d :: rest)) ->
     report_run m base_context jinja_context deck = Some (Raise TypeError)).
Proof.
  intros Hl Hpre Hen Hmode Hindex Hcloned. split.
  - intros Hty d rest Hfindings.
    apply (report_run_item_raises create_finding_slides m base_context jinja_context deck
             pre c post layout); try done.
    + unfold report_route. by rewrite Hty.
    + intros prs Hlayouts.
      apply (ReportProofs.create_finding_slides_raises c base_context prs d rest layout);
        try done. by rewrite Hlayouts.
  - intros Hty d rest Hobservations.
    apply (report_run_item_raises create_observation_slides m base_context jinja_context
             deck pre c post layout); try done.
    + unfold report_route. by rewrite Hty.
    + intros prs Hlayouts.
      apply (ReportProofs.create_observation_slides_raises c base_context prs d rest
               layout); try done. by rewrite Hlayouts.
Qed.

(** *** [ExportBasePptx.__init__] *)

(** X30. [ExportBasePptx.__init__] succeeds exactly when the template
    loads, whatever the slide mapping holds. The manager it builds is bound
    to the loaded presentation. [PackageNotFoundError] never leaves the
    call: it is turned into [ReportExportTemplateError]; any other
    exception of the loader leaves it unchanged. *)
Theorem init_exporter_binds_manager (document_path slide_mapping : pyval) :
  match open_presentation document_path with
  | Ok prs =>
      exists self,
        init_exporter document_path slide_mapping = Ok self /\
        ppt_presentation self = prs /\
        presentation (slide_mapping_manager self) = Some prs /\
        __init__ slide_mapping (Some prs) = Ok (slide_mapping_manager self)
  | Raise e =>
      init_exporter document_path slide_mapping =
        Raise (match e with
               | PackageNotFoundError => OtherError "ReportExportTemplateError"
               | _ => e
               end)
  end /\
  init_exporter document_path slide_mapping <> Raise PackageNotFoundError.
Proof.
  unfold init_exporter.
  destruct (open_presentation document_path) as [prs|e].
  - cbn [mbind outcome_bind].
    pose proof (SlideMappingProofs.init_cases slide_mapping (Some prs)) as Hcases.
    destruct (__init__ slide_mapping (Some prs)) as [manager|e] eqn:Hinit.
    + split; [|done]. exists (mkExporter prs manager).
      split; [done|]. split; [done|]. split; [|done]. cbn [slide_mapping_manager].
      destruct slide_mapping as [| | | | |d]; try (by injection Hcases as ->).
      destruct (iterate (dict_get d "slides" (PList []))); by injection Hcases as ->.
    + destruct (SlideMappingProofs.init_total slide_mapping (Some prs)) as [manager Hm].
      congruence.
  - split; by destruct e.
Qed.

End exporter_facts.

#[local] Existing Instance toy.
#[local] Existing Instance toy_runtime.

Lemma run_static_witness :
  exists l report_deck project_deck,
    get_slides_by_position static_manager = (Ok (Some l), static_manager) /\
    report_run static_manager [] [] (mkPresentation layouts []) = Some (Ok report_deck) /\
    project_run static_manager [] [] (mkPresentation layouts []) = Some (Ok project_deck) /\
    slide_layouts report_deck = layouts /\
    slide_layouts project_deck = layouts /\
    (slide_layout <$> PptxModel.slides report_deck) = [content_layout; blank_layout] /\
    (slide_layout <$> PptxModel.slides project_deck) =
      [footer_first_layout; content_layout; blank_layout].
Proof.
  destruct (run_static static_manager [] [] (mkPresentation layouts []))
    as (l & report_deck & project_deck & Hl & Hr & Hp & Hrl & Hpl & Hrs & Hps).
  - simpl. repeat constructor; eexists; reflexivity.
  - simpl. repeat constructor.
  - simpl. repeat constructor; eexists; reflexivity.
  - exists l, report_deck, project_deck.
    injection Hl as <-.
    split; [reflexivity|]. split; [exact Hr|]. split; [exact Hp|].
    split; [exact Hrl|]. split; [exact Hpl|]. split; [exact Hrs | exact Hps].
Defined.


Lemma lint_cases_witness :
  lint (PStr "template.pptx") (Some flawed_document) =
    ([duplicate_position_warning; required_type_warning "final"],
     [invalid_mode_error (config "agenda" 1 "dynamic-ish" true 3)]).
Proof.
  destruct (lint_cases (PStr "template.pptx") (Some flawed_document)) as (_ & _ & Hloaded).
  specialize (Hloaded eq_refl two_layouts eq_refl).
  unfold flawed_document in Hloaded. cbn [truthy] in Hloaded.
  destruct Hloaded as (manager & Hmanager & Hlint).
  injection Hmanager as <-. exact Hlint.
Defined.

Lemma lint_malformed_mapping_witness :
  lint (PStr "template.pptx") (Some (PDict [])) = ([], []) /\
  exists errors,
    lint (PStr "template.pptx") (Some (PList [PInt 1])) = ([], errors) /\
    (errors = [] <-> 13 <= layout_count two_layouts).
Proof.
  destruct (lint_malformed_mapping (PStr "template.pptx") two_layouts)
    as [[Hempty _] Hother]; [reflexivity | reflexivity |].
  split; [exact Hempty|].
  apply (Hother (PList [PInt 1])); [reflexivity | intros d; discriminate].
Defined.

(** [agenda] points to layout 7 of a three-layout template: the export
    ends with an exception after the title slide was made. *)
Lemma run_does_not_fall_back_witness :
  let m := mkManager (Some (mkPresentation layouts [])) [("version", PInt 1)]
             [ config "title" 0 "static" true 1;
               config "agenda" 7 "static" true 2 ] in
  exists e,
    (e = IndexError \/ e = TypeError) /\
    project_run m [] [] (mkPresentation layouts []) = Some (Raise e) /\
    report_run m [] [] (mkPresentation layouts []) = Some (Raise e).
Proof.
  intros m.
  destruct (run_does_not_fall_back m [] [] (mkPresentation layouts [])
              [config "title" 0 "static" true 1] (config "agenda" 7 "static" true 2) [])
    as (e & He & Hproject & Hreport).
  - reflexivity.
  - repeat constructor. eexists. reflexivity.
  - reflexivity.
  - reflexivity.
  - reflexivity.
  - exists e. split; [exact He|]. split; [exact Hproject|]. apply Hreport. reflexivity.
Defined.

Lemma validated_static_export_witness :
  exists deck',
    report_run static_manager [] [] (mkPresentation layouts []) = Some (Ok deck') /\
    length (PptxModel.slides deck') = 2%nat.
Proof.
  apply (validated_static_export static_manager (mkPresentation layouts [])
           (mkPresentation layouts []) [required_type_warning "final"] [] []).
  - reflexivity.
  - reflexivity.
  - reflexivity.
  - simpl.
    repeat (constructor;
            [split; [eexists; reflexivity|];
             split; [reflexivity|]; eexists; split; [reflexivity | lia]|]).
    constructor.
Defined.

Lemma toy_draws slide_type base_context jinja_context :
  draws slide_type base_context jinja_context.
Proof. intros slide. by exists slide. Qed.

Lemma report_run_one_slide_per_entry_witness :
  exists l deck',
    get_slides_by_position mixed_mode_manager = (Ok (Some l), mixed_mode_manager) /\
    report_run mixed_mode_manager [] [] (mkPresentation layouts []) = Some (Ok deck') /\
    slide_layouts deck' = layouts /\
    (slide_layout <$> PptxModel.slides deck') =
      [content_layout; footer_first_layout; blank_layout].
Proof.
  destruct (report_run_one_slide_per_entry mixed_mode_manager [] []
              (mkPresentation layouts []))
    as (l & deck' & Hl & Hrun & Hlayouts & Hslides).
  - simpl. repeat constructor; eexists; reflexivity.
  - simpl. repeat apply Forall_cons_2; [| | |apply Forall_nil_2].
    + split; [reflexivity|]. right. exists "title".
      split; [reflexivity|]. split; [apply list_elem_of_In; simpl; tauto | apply toy_draws].
    + split; [reflexivity|]. left. reflexivity.
    + split; [reflexivity|]. right. exists "final".
      split; [reflexivity|]. split; [apply list_elem_of_In; simpl; tauto | apply toy_draws].
  - simpl. repeat constructor; eexists; reflexivity.
  - exists l, deck'. injection Hl as <-.
    split; [reflexivity|]. split; [exact Hrun|]. split; [exact Hlayouts | exact Hslides].
Defined.

(** The title slide is made, then the first finding ends the export. *)
Lemma report_run_fails_on_items_witness :
  report_run findings_manager report_context [] empty_deck = Some (Raise TypeError).
Proof.
  destruct (report_run_fails_on_items findings_manager report_context [] empty_deck
              [config "title" 0 "dynamic" true 1] (config "finding" 0 "dynamic" true 2)
              [config "final" 2 "dynamic" true 3] content_layout) as [Hfinding _].
  - reflexivity.
  - apply Forall_cons_2; [|apply Forall_nil_2].
    split; [reflexivity|]. split; [|eexists; reflexivity].
    split; [reflexivity|]. right. exists "title".
    split; [reflexivity|]. split; [apply list_elem_of_In; simpl; tauto | apply toy_draws].
  - reflexivity.
  - reflexivity.
  - reflexivity.
  - simpl. discriminate.
  - apply (Hfinding eq_refl (finding_fields "SQL Injection" "high")
             [finding "Weak TLS" "low"]).
    reflexivity.
Defined.

(** The custom slide in dynamic mode and the unknown type leave no trace:
    the export is that of the mapping with [title] alone. *)
Lemma run_ignores_unrouted_witness :
  report_run
    (mkManager (Some (mkPresentation layouts [])) [("version", PInt 1)]
       [config "title" 0 "static" true 1])
    [] [] (mkPresentation layouts []) =
  report_run unrouted_manager [] [] (mkPresentation layouts []).
Proof.
  apply (run_ignores_unrouted unrouted_manager [] [] (mkPresentation layouts [])).
  simpl. repeat constructor; eexists; reflexivity.
Defined.


End ExporterFacts.
